(** * Chess academy: a shallow embedding of the server routes and of the
      client move checks, with the properties the specification states.

    The development follows the layout of the repository:
    - [JS]: the JavaScript primitives the code relies on ([trim],
      [split(/\s+/)], [substring], [RegExp.test], truthiness) and JSON
      values;
    - [StudentPuzzleSolver] and [PuzzleCreator]:
      client/src/components/StudentPuzzleSolver.tsx;
    - [ClassroomBoard]: client/src/components/ClassroomBoard.tsx;
    - [Models], [Auth], [Storage], [Schema], [Routes]:
      server/models/index.ts, server/auth.ts, server/storage.ts,
      shared/schema.ts and server/routes.ts.

    Conventions of the embedding:
    - a string is a sequence of code units below 256, a JSON number is an
      integer, a date is its number of milliseconds;
    - a collection is a finite map from [_id] to document, and an [_id] is
      the string the shared schema declares ([_id: z.string()]); a path
      parameter or a property of a body that names a document is cast to
      an id by the ODM ([castObjectId]): a text that is no id raises a
      cast error, which the [catch] of the route answers; the id of the
      session user comes from the store and needs no cast;
    - a handler is a function from the database to a response and the
      next database; what can raise inside a [try] is a [Result], and the
      [catch] branch answers from the database the request found;
    - chess.js, Node's [crypto] and [Date], the casts of the ODM and the
      string formats of zod are interfaces ([ChessJs], [Platform]), so
      every property holds for any implementation of them. *)

Set Warnings "-register-all".
From Stdlib Require Import ZArith Ascii String List Bool Lia DecimalString.
From stdpp Require Import base option list strings gmap fin_maps.

Local Open Scope string_scope.
Local Open Scope Z_scope.

(* ===================================================================== *)
(** * Part I: definitions                                                 *)
(* ===================================================================== *)

Module JS.

(** ** Strings *)

Definition chars (s : string) : list ascii := list_ascii_of_string s.
Definition str (l : list ascii) : string := string_of_list_ascii l.

(** [WhiteSpace] and [LineTerminator] of ECMAScript, restricted to the
    code units a [string] holds: TAB, LF, VT, FF, CR, SP and NBSP. Both
    [String.prototype.trim] and the class [\s] use this set. *)
Definition isWhiteSpace (c : ascii) : bool :=
  let n := nat_of_ascii c in
  ((9 <=? n) && (n <=? 13) || (n =? 32) || (n =? 160))%nat.

Fixpoint trimStart (l : list ascii) : list ascii :=
  match l with
  | c :: l' => if isWhiteSpace c then trimStart l' else l
  | [] => []
  end.

Definition trimEnd (l : list ascii) : list ascii :=
  rev (trimStart (rev l)).

(** [s.trim()] *)
Definition trim (s : string) : string :=
  str (trimEnd (trimStart (chars s))).

(** [s.split(/\s+/)]: the pieces between maximal runs of white space. A
    run at either end leaves an empty piece there, and the empty string
    splits into one empty piece. [cur] is the piece being read, reversed;
    [in_ws] tells that the previous code unit was white space. *)
Fixpoint split_ws_from (in_ws : bool) (cur : list ascii) (l : list ascii)
  : list string :=
  match l with
  | [] => [str (rev cur)]
  | c :: l' =>
      if isWhiteSpace c then
        if in_ws then split_ws_from true cur l'
        else str (rev cur) :: split_ws_from true [] l'
      else split_ws_from false (c :: cur) l'
  end.

Definition split_ws (s : string) : list string :=
  split_ws_from false [] (chars s).

(** [s.substring(0, n)] *)
Definition substring0 (n : nat) (s : string) : string :=
  String.substring 0 n s.

(** [s.length] *)
Definition length (s : string) : Z := Z.of_nat (String.length s).

(** [a[i]] for an integer index: [undefined] out of range. *)
Definition index {A} (a : list A) (i : Z) : option A :=
  if i <? 0 then None else a !! Z.to_nat i.

(** ** Regular expressions: the fragment the client uses *)

Inductive RegExp : Type :=
| Class (ranges : list (ascii * ascii))   (* [a-h], [qrbnk] *)
| Cat (r1 r2 : RegExp)                    (* r1 r2 *)
| Opt (r : RegExp).                       (* r? *)

Definition in_range (c : ascii) (r : ascii * ascii) : bool :=
  ((nat_of_ascii (fst r) <=? nat_of_ascii c)
   && (nat_of_ascii c <=? nat_of_ascii (snd r)))%nat.

(** Every way [r] matches a prefix of [l], as the list of remainders, in
    the order a backtracking matcher tries them ([r?] is greedy). *)
Fixpoint matches (r : RegExp) (l : list ascii) : list (list ascii) :=
  match r with
  | Class ranges =>
      match l with
      | c :: l' => if existsb (in_range c) ranges then [l'] else []
      | [] => []
      end
  | Cat r1 r2 => concat (map (matches r2) (matches r1 l))
  | Opt r' => matches r' l ++ [l]
  end.

(** [/^r$/.test(s)]: without the [m] flag, [$] is the end of input. *)
Definition test (r : RegExp) (s : string) : bool :=
  existsb (fun rest => match rest with [] => true | _ => false end)
          (matches r (chars s)).

(** ** JSON values, as [express.json()] hands them to a route *)

Inductive JSON : Type :=
| JNull
| JBool (b : bool)
| JNum (n : Z)
| JStr (s : string)
| JArr (l : list JSON)
| JObj (l : list (string * JSON)).

(** [!!v] for an optional property: [undefined], [null], [false], [0]
    and [""] are falsy; arrays and objects are truthy. *)
Definition truthy (v : option JSON) : bool :=
  match v with
  | None | Some JNull => false
  | Some (JBool b) => b
  | Some (JNum n) => negb (n =? 0)
  | Some (JStr s) => negb (String.eqb s "")
  | Some (JArr _) | Some (JObj _) => true
  end.

(** [a || b] on optional properties. *)
Definition or_else (a b : option JSON) : option JSON :=
  if truthy a then a else b.

End JS.

(** ** client/src/components/StudentPuzzleSolver.tsx *)

Module StudentPuzzleSolver.

(** The part of the component's props and state [isCorrectMove] reads. *)
Record State : Type := mkState {
  solution : list string;        (* puzzle.solution *)
  currentMoveIndex : Z           (* starts at -1 *)
}.

Definition isCorrectMove (st : State) (moveStr : string) : bool :=
  match JS.index (solution st) (currentMoveIndex st + 1) with
  | None => false                              (* undefined *)
  | Some expectedMove =>
      if String.eqb expectedMove "" then false (* [!expectedMove] *)
      else if String.eqb moveStr expectedMove then true
      else
        let baseMove := JS.substring0 4 moveStr in
        let expectedBaseMove := JS.substring0 4 expectedMove in
        if String.eqb baseMove expectedBaseMove then
          let moveIsPromotion := JS.length moveStr =? 5 in
          let expectedIsPromotion := JS.length expectedMove =? 5 in
          moveIsPromotion || expectedIsPromotion
        else false
  end.

End StudentPuzzleSolver.

Module PuzzleCreator.

Record State : Type := mkState {
  solutionInput : string;
  solution : list string;
  currentMoveIndex : Z;
  isPlaying : bool
}.

(** [/^[a-h][1-8][a-h][1-8][qrbnk]?$/] *)
Definition file : JS.RegExp := JS.Class [("a", "h")]%char.
Definition rank : JS.RegExp := JS.Class [("1", "8")]%char.
Definition promotion : JS.RegExp :=
  JS.Class [("q","q"); ("r","r"); ("b","b"); ("n","n"); ("k","k")]%char.
Definition uciRegExp : JS.RegExp :=
  JS.Cat file (JS.Cat rank (JS.Cat file (JS.Cat rank (JS.Opt promotion)))).

Definition isValidUCI (moves : list string) : bool :=
  forallb (fun move =>
             ((JS.length move =? 4) || (JS.length move =? 5))
             && JS.test uciRegExp move) moves.

Inductive Alert : Type := InvalidUCIFormat.

(** The handler returns the next state and the alert it raised, if any. *)
Definition handleSolutionSubmit (st : State) : State * option Alert :=
  let moves := JS.split_ws (JS.trim (solutionInput st)) in
  if negb (isValidUCI moves) then (st, Some InvalidUCIFormat)
  else ({| solutionInput := "";
           solution := moves;
           currentMoveIndex := -1;
           isPlaying := false |}, None).

End PuzzleCreator.


(** ** client/src/components/ClassroomBoard.tsx *)

Module ClassroomBoard.

(** The interface of chess.js the component uses. [load] and [move]
    raise on a position or a move the rules reject: [None]. *)
Class ChessJs : Type := {
  Chess : Type;
  new_Chess : Chess;                                  (* new Chess() *)
  load : Chess -> string -> option Chess;             (* g.load(fen) *)
  fen : Chess -> string;                              (* g.fen() *)
  move : Chess -> string -> string -> ascii -> option Chess;
                                   (* g.move({from, to, promotion}) *)
  history : Chess -> list string                      (* g.history() *)
}.

Inductive Orientation : Type := white | black.

(** What a handler does besides updating the state. *)
Inductive Effect : Type :=
| Emit (event : string) (data_fen : string)   (* socket.emit(event, {fen}) *)
| Toast (title : string).

Section Component.
Context `{ChessJs}.

Record State : Type := mkState {
  game : Chess;
  boardOrientation : Orientation;
  moveHistory : list string;
  currentMoveIndex : Z;
  socket : option string;      (* the socket, named by its path *)
  isConnected : bool
}.

(** [useState] initial values. *)
Definition initialState : State :=
  {| game := new_Chess; boardOrientation := white; moveHistory := [];
     currentMoveIndex := -1; socket := None; isConnected := false |}.

Definition setGame (g : Chess) (st : State) : State :=
  {| game := g; boardOrientation := boardOrientation st;
     moveHistory := moveHistory st;
     currentMoveIndex := currentMoveIndex st;
     socket := socket st; isConnected := isConnected st |}.

Definition setIsConnected (b : bool) (st : State) : State :=
  {| game := game st; boardOrientation := boardOrientation st;
     moveHistory := moveHistory st;
     currentMoveIndex := currentMoveIndex st;
     socket := socket st; isConnected := b |}.

(** [new Chess(fen)] *)
Definition new_Chess_from (f : string) : option Chess := load new_Chess f.

(** [socket?.emit('board_update', {fen})] *)
Definition emit_board_update (st : State) (f : string) : list Effect :=
  match socket st with
  | Some _ => [Emit "board_update" f]
  | None => []
  end.

(** The effect of [useEffect]: open the socket of the class. *)
Definition mount (classId : string) (st : State) : State :=
  {| game := game st; boardOrientation := boardOrientation st;
     moveHistory := moveHistory st;
     currentMoveIndex := currentMoveIndex st;
     socket := Some ("/ws/classroom/" ++ classId);
     isConnected := isConnected st |}.

Definition on_connect (st : State) : State := setIsConnected true st.

(** [newSocket.on("board_update", ...)]: when [load] raises, [setGame]
    is not reached. *)
Definition on_board_update (data_fen : string) (st : State) : State :=
  match load new_Chess data_fen with
  | Some newGame => setGame newGame st
  | None => st
  end.

Definition on_disconnect (st : State) : State * list Effect :=
  (setIsConnected false st, [Toast "Connection Lost"]).

Definition on_connect_error (st : State) : State * list Effect :=
  (setIsConnected false st, [Toast "Connection Error"]).

Definition updateMoveHistory (currentGame : Chess) (st : State) : State :=
  let h := history currentGame in
  {| game := game st; boardOrientation := boardOrientation st;
     moveHistory := h;
     currentMoveIndex := Z.of_nat (List.length h) - 1;
     socket := socket st; isConnected := isConnected st |}.

(** [handleMove] returns its boolean, the next state and the effects.
    [game.move] changes the game object in place, so when the copy
    [new Chess(game.fen())] raises, the moved game stays in the state. *)
Definition handleMove (sourceSquare targetSquare : string) (st : State)
  : bool * State * list Effect :=
  if negb (isConnected st) then (false, st, [Toast "Not Connected"])
  else
    match move (game st) sourceSquare targetSquare "q"%char with
    | None => (false, st, [])
    | Some moved =>
        match new_Chess_from (fen moved) with
        | None => (false, setGame moved st, [])
        | Some newGame =>
            let st' := updateMoveHistory newGame (setGame newGame st) in
            (true, st', emit_board_update st (fen newGame))
        end
    end.

Definition handleFlipBoard (st : State) : State :=
  {| game := game st;
     boardOrientation :=
       match boardOrientation st with white => black | black => white end;
     moveHistory := moveHistory st;
     currentMoveIndex := currentMoveIndex st;
     socket := socket st; isConnected := isConnected st |}.

Definition handleReset (st : State) : State * list Effect :=
  let newGame := new_Chess in
  (updateMoveHistory newGame (setGame newGame st),
   emit_board_update st (fen newGame)).

(** What can happen to a mounted component. *)
Inductive Event : Type :=
| Mount (classId : string)
| Connect
| BoardUpdate (data_fen : string)
| Disconnect
| ConnectError
| Move (sourceSquare targetSquare : string)
| FlipBoard
| Reset.

Definition step (st : State) (e : Event) : State * list Effect :=
  match e with
  | Mount classId => (mount classId st, [])
  | Connect => (on_connect st, [])
  | BoardUpdate f => (on_board_update f st, [])
  | Disconnect => on_disconnect st
  | ConnectError => on_connect_error st
  | Move s t => let '(_, st', out) := handleMove s t st in (st', out)
  | FlipBoard => (handleFlipBoard st, [])
  | Reset => handleReset st
  end.

Definition run (st : State) (es : list Event) : State :=
  fold_left (fun st e => fst (step st e)) es st.

(** The socket delivers [connect] only for a socket the effect opened:
    the first event of a component's life is its mount. *)
Definition lifetime (es : list Event) : Prop :=
  match es with
  | Mount _ :: _ => True
  | _ => False
  end.

End Component.

End ClassroomBoard.

(** * The server *)

(** Exceptions a route can catch, and computations that may raise. *)
Inductive Error : Type :=
| ZodError            (* schema.parse rejected the input *)
| ValidationError     (* a Mongoose validator rejected the document *)
| CastError           (* a value does not cast to its schema type *)
| DuplicateKey        (* E11000 on [_id] or on a unique index *)
| RangeError          (* Date.prototype.toISOString on an invalid date,
                         timingSafeEqual on buffers of different lengths *)
| TypeError           (* scrypt without a salt, a property of [null] *)
| ReferenceError      (* an identifier that is not bound *)
| NotFoundError.      (* [throw new Error('User not found')] *)

Inductive Result (A : Type) : Type :=
| Ok (a : A)
| Throw (e : Error).
Arguments Ok {A} a.
Arguments Throw {A} e.

#[global] Instance Result_ret : MRet Result := fun A a => Ok a.
#[global] Instance Result_bind : MBind Result := fun A B k r =>
  match r with
  | Ok a => k a
  | Throw e => Throw e
  end.

(** A required value: [None] raises [e]. *)
Definition require {A} (e : Error) (o : option A) : Result A :=
  match o with
  | Some a => Ok a
  | None => Throw e
  end.

Definition guard (e : Error) (b : bool) : Result unit :=
  if b then Ok tt else Throw e.

(** [mapM] over a list. *)
Fixpoint traverse {A B} (f : A -> Result B) (l : list A) : Result (list B) :=
  match l with
  | [] => Ok []
  | a :: l' => b ← f a; bs ← traverse f l'; Ok (b :: bs)
  end.

(** A JavaScript object read as a record of optional properties. *)
Abbreviation Obj := (gmap string JS.JSON).

(** What the server takes from Node, the ODM and zod rather than from this
    repository. *)
Class Platform : Type := {
  (** [crypto.scrypt(password, salt, keylen)], as bytes *)
  scrypt : string -> string -> nat -> list ascii;
  (** the cast of a value to a [String] path of a Mongoose schema *)
  castString : JS.JSON -> option string;
  (** the cast of a value to a [Date] path, in milliseconds *)
  castDate : JS.JSON -> option Z;
  (** whether a string casts to an [ObjectId] *)
  isObjectId : string -> bool;
  (** [new Date(v).getTime()]; [None] for an invalid date *)
  newDate : option JS.JSON -> option Z;
  (** [d.toISOString()] of a valid date *)
  toISOString : Z -> string;
  (** [z.string().email()] and [z.string().url()] *)
  isEmail : string -> bool;
  isUrl : string -> bool;
  (** a string casts to itself *)
  castString_JStr : forall s, castString (JS.JStr s) = Some s
}.

(** ** server/models/index.ts *)

Module Models.

Inductive Role : Type := coach | student.
Inductive MeetingProvider : Type := zoom | google_meet.
Inductive Status : Type := not_started | in_progress | completed.

#[global] Instance Role_eq_dec : EqDecision Role.
Proof. solve_decision. Defined.
#[global] Instance MeetingProvider_eq_dec : EqDecision MeetingProvider.
Proof. solve_decision. Defined.
#[global] Instance Status_eq_dec : EqDecision Status.
Proof. solve_decision. Defined.

Definition Role_of_string (s : string) : option Role :=
  if String.eqb s "coach" then Some coach
  else if String.eqb s "student" then Some student
  else None.

Definition MeetingProvider_of_string (s : string) : option MeetingProvider :=
  if String.eqb s "zoom" then Some zoom
  else if String.eqb s "google_meet" then Some google_meet
  else None.

Record Preferences : Type := mkPreferences {
  defaultMeetingProvider : option MeetingProvider;
  defaultMeetingUrl : option string
}.

(** [{}] *)
Definition noPreferences : Preferences :=
  {| defaultMeetingProvider := None; defaultMeetingUrl := None |}.

Module User.
Record t : Type := mk {
  username : string;
  password : string;
  name : string;
  email : option string;
  avatar : option string;
  role : Role;
  preferences : Preferences;
  createdAt : Z
}.
End User.

(** A [[String]] path as it is stored: [null], or an array whose elements
    are strings or [null]. *)
Definition Strings : Type := option (list (option string)).

(** The values of such a path, as [distinct] lists them. *)
Definition values (a : Strings) : list (option string) :=
  match a with
  | Some l => l
  | None => [None]
  end.

(** The strings among its elements, which are what [$in] can match. *)
Definition strings (a : Strings) : list string :=
  omap (fun x => x) (default [] a).

Module Puzzle.
Record t : Type := mk {
  fen : string;
  solution : Strings;
  themes : Strings;
  createdBy : string;
  createdAt : Z
}.
End Puzzle.

Module Attempt.
Record t : Type := mk {
  moves : Strings;
  timestamp : Z
}.
End Attempt.

Module Assignment.
Record t : Type := mk {
  puzzleId : string;
  studentId : string;
  completed : bool;
  assignedAt : Z;
  attempts : list Attempt.t
}.
End Assignment.

Module ClassSchedule.
Record t : Type := mk {
  title : string;
  description : option string;
  coachId : string;
  studentIds : list string;
  startTime : Z;
  endTime : Z;
  timezone : string;
  meetingUrl : string;
  meetingProvider : MeetingProvider;
  status : Status;
  actualStartTime : option Z;
  actualEndTime : option Z;
  attendees : list string;
  createdAt : Z
}.
End ClassSchedule.

(** The four collections, each keyed by [_id]. *)
Record Db : Type := mkDb {
  users : gmap string User.t;
  puzzles : gmap string Puzzle.t;
  assignments : gmap string Assignment.t;
  classSchedules : gmap string ClassSchedule.t
}.

Definition emptyDb : Db :=
  {| users := ∅; puzzles := ∅; assignments := ∅; classSchedules := ∅ |}.

Definition setUsers (us : gmap string User.t) (db : Db) : Db :=
  {| users := us; puzzles := puzzles db; assignments := assignments db;
     classSchedules := classSchedules db |}.
Definition setPuzzles (ps : gmap string Puzzle.t) (db : Db) : Db :=
  {| users := users db; puzzles := ps; assignments := assignments db;
     classSchedules := classSchedules db |}.
Definition setAssignments (asg : gmap string Assignment.t) (db : Db) : Db :=
  {| users := users db; puzzles := puzzles db; assignments := asg;
     classSchedules := classSchedules db |}.
Definition setClassSchedules (cs : gmap string ClassSchedule.t) (db : Db)
  : Db :=
  {| users := users db; puzzles := puzzles db;
     assignments := assignments db; classSchedules := cs |}.

(** What a request draws from its environment: the clock ([new Date()],
    [Date.now]), [randomBytes(16)] and the [_id] the driver generates for
    a document that brings none. *)
Record Env : Type := mkEnv {
  now : Z;
  randomBytes16 : list ascii;
  newObjectId : string
}.

(** [Model.create]: the insert fails on an [_id] already in use. *)
Definition insertNew {A} (id : string) (doc : A) (coll : gmap string A)
  : Result (gmap string A) :=
  match coll !! id with
  | Some _ => Throw DuplicateKey
  | None => Ok (<[id := doc]> coll)
  end.

(** [findOneAndUpdate({_id: id, ...filter}, update)]: the document found
    and updated, if any, and the collection afterwards. *)
Definition findOneAndUpdate {A} (id : string) (filter : A -> bool)
           (update : A -> A) (coll : gmap string A)
  : option A * gmap string A :=
  match coll !! id with
  | Some doc =>
      if filter doc then (Some (update doc), <[id := update doc]> coll)
      else (None, coll)
  | None => (None, coll)
  end.

(** [findOneAndDelete({_id: id, ...filter})] *)
Definition findOneAndDelete {A} (id : string) (filter : A -> bool)
           (coll : gmap string A) : option A * gmap string A :=
  match coll !! id with
  | Some doc =>
      if filter doc then (Some doc, delete id coll) else (None, coll)
  | None => (None, coll)
  end.

(** [find(filter)]; the order of the answer is not modelled. *)
Definition find {A} (filter : string -> A -> bool) (coll : gmap string A)
  : list (string * A) :=
  List.filter (fun kv => filter (fst kv) (snd kv)) (map_to_list coll).

Section Casts.
Context `{Platform}.

(** A required [String] path; [required: true] rejects [""] too. *)
Definition requiredString (o : Obj) (k : string) : Result string :=
  match o !! k with
  | None | Some JS.JNull => Throw ValidationError
  | Some v =>
      s ← require CastError (castString v);
      _ ← guard ValidationError (negb (String.eqb s ""));
      Ok s
  end.

Definition optionalString (o : Obj) (k : string)
  : Result (option string) :=
  match o !! k with
  | None | Some JS.JNull => Ok None
  | Some v => s ← require CastError (castString v); Ok (Some s)
  end.

(** An element of a [[String]] path: [null] stays [null]. *)
Definition castElement (x : JS.JSON) : Result (option string) :=
  match x with
  | JS.JNull => Ok None
  | _ => s ← require CastError (castString x); Ok (Some s)
  end.

(** A [[String]] path: [undefined] takes the default [[]], [null] is
    stored as it is, and a value that is no array is wrapped in one. *)
Definition castStrings (v : option JS.JSON) : Result Strings :=
  match v with
  | None => Ok (Some [])
  | Some JS.JNull => Ok None
  | Some (JS.JArr l) => l' ← traverse castElement l; Ok (Some l')
  | Some x => s ← require CastError (castString x); Ok (Some [Some s])
  end.

(** The cast of a string to an [ObjectId], in a filter or in a document:
    a text that is no id raises. *)
Definition castObjectId (s : string) : Result string :=
  if isObjectId s then Ok s else Throw CastError.

(** A [Date] path with [default: Date.now]. *)
Definition dateOrNow (env : Env) (o : Obj) (k : string) : Result Z :=
  match o !! k with
  | None => Ok (now env)
  | Some v => require CastError (castDate v)
  end.

Definition castProvider (v : JS.JSON) : Result MeetingProvider :=
  s ← require CastError (castString v);
  require ValidationError (MeetingProvider_of_string s).

Definition lookupKey (k : string) (l : list (string * JS.JSON))
  : option JS.JSON :=
  snd <$> List.find (fun kv => String.eqb (fst kv) k) (rev l).

(** The nested [preferences] path. *)
Definition castPreferences (v : option JS.JSON) : Result Preferences :=
  match v with
  | Some (JS.JObj l) =>
      p ← match lookupKey "defaultMeetingProvider" l with
           | None | Some JS.JNull => Ok None
           | Some x => q ← castProvider x; Ok (Some q)
           end;
      u ← match lookupKey "defaultMeetingUrl" l with
           | None | Some JS.JNull => Ok None
           | Some x => s ← require CastError (castString x); Ok (Some s)
           end;
      Ok {| defaultMeetingProvider := p; defaultMeetingUrl := u |}
  | None | Some JS.JNull => Ok noPreferences
  | Some _ => Throw CastError
  end.

(** The [_id] of a new document: the one the object brings, or the one
    the driver generates. *)
Definition idOf (env : Env) (o : Obj) : Result string :=
  match o !! "_id" with
  | None => Ok (newObjectId env)
  | Some (JS.JStr s) => castObjectId s
  | Some _ => Throw CastError
  end.

(** [UserModel.create(o)]: cast and validate against [userSchema], then
    insert; [username] is unique. *)
Definition UserModel_create (env : Env) (o : Obj) (db : Db)
  : Result (string * User.t * Db) :=
  id ← idOf env o;
  username ← requiredString o "username";
  password ← requiredString o "password";
  name ← requiredString o "name";
  email ← optionalString o "email";
  avatar ← optionalString o "avatar";
  r ← requiredString o "role";
  role ← require ValidationError (Role_of_string r);
  preferences ← castPreferences (o !! "preferences");
  createdAt ← dateOrNow env o "createdAt";
  let u := {| User.username := username; User.password := password;
              User.name := name; User.email := email;
              User.avatar := avatar; User.role := role;
              User.preferences := preferences;
              User.createdAt := createdAt |} in
  _ ← guard DuplicateKey
         (negb (bool_decide
                  (Exists (fun kv => User.username (snd kv) = username)
                          (map_to_list (users db)))));
  us ← insertNew id u (users db);
  Ok (id, u, setUsers us db).

(** [PuzzleModel.create(o)] *)
Definition PuzzleModel_create (env : Env) (o : Obj) (db : Db)
  : Result (string * Puzzle.t * Db) :=
  id ← idOf env o;
  fen ← requiredString o "fen";
  solution ← castStrings (o !! "solution");
  themes ← castStrings (o !! "themes");
  createdBy ← match o !! "createdBy" with
               | Some (JS.JStr s) => castObjectId s
               | None | Some JS.JNull => Throw ValidationError
               | Some _ => Throw CastError
               end;
  createdAt ← dateOrNow env o "createdAt";
  let p := {| Puzzle.fen := fen; Puzzle.solution := solution;
              Puzzle.themes := themes; Puzzle.createdBy := createdBy;
              Puzzle.createdAt := createdAt |} in
  ps ← insertNew id p (puzzles db);
  Ok (id, p, setPuzzles ps db).

End Casts.

End Models.

(** ** server/auth.ts *)

Module Auth.

Definition hexDigit (n : nat) : ascii :=
  match n with
  | 0 => "0" | 1 => "1" | 2 => "2" | 3 => "3" | 4 => "4" | 5 => "5"
  | 6 => "6" | 7 => "7" | 8 => "8" | 9 => "9" | 10 => "a" | 11 => "b"
  | 12 => "c" | 13 => "d" | 14 => "e" | _ => "f"
  end%nat%char.

Definition hexValue (c : ascii) : option nat :=
  let n := nat_of_ascii c in
  if ((48 <=? n) && (n <=? 57))%nat then Some (n - 48)%nat
  else if ((97 <=? n) && (n <=? 102))%nat then Some (n - 87)%nat
  else if ((65 <=? n) && (n <=? 70))%nat then Some (n - 55)%nat
  else None.

(** [buf.toString("hex")] *)
Fixpoint toHex (bytes : list ascii) : string :=
  match bytes with
  | [] => ""
  | b :: bs =>
      let n := nat_of_ascii b in
      String (hexDigit (n / 16)) (String (hexDigit (n mod 16)) (toHex bs))
  end.

(** [Buffer.from(s, "hex")]: decoding stops at the first pair that is not
    two hexadecimal digits. *)
Fixpoint fromHex (s : string) : list ascii :=
  match s with
  | String a (String b s') =>
      match hexValue a, hexValue b with
      | Some x, Some y => ascii_of_nat (16 * x + y) :: fromHex s'
      | _, _ => []
      end
  | _ => []
  end.

(** [s.split(c)] for a one-character separator. *)
Fixpoint split_from (c : ascii) (cur : list ascii) (l : list ascii)
  : list string :=
  match l with
  | [] => [JS.str (rev cur)]
  | x :: l' =>
      if Ascii.eqb x c then JS.str (rev cur) :: split_from c [] l'
      else split_from c (x :: cur) l'
  end.

Definition split (c : ascii) (s : string) : list string :=
  split_from c [] (JS.chars s).

Definition timingSafeEqual (a b : list ascii) : Result bool :=
  if (List.length a =? List.length b)%nat
  then Ok (bool_decide (a = b))
  else Throw RangeError.

Section Auth.
Context `{Platform}.

(** [hashPassword], with the sixteen random bytes it draws. *)
Definition hashPassword (randomBytes : list ascii) (password : string)
  : string :=
  let salt := toHex randomBytes in
  let buf := scrypt password salt 64 in
  toHex buf ++ "." ++ salt.

Definition comparePasswords (supplied stored : string) : Result bool :=
  match split "." stored with
  | hashed :: salt :: _ =>
      timingSafeEqual (fromHex hashed) (scrypt supplied salt 64)
  | _ => Throw TypeError          (* [salt] is undefined *)
  end.

End Auth.

End Auth.

(** ** server/storage.ts (src/unnamed/part_004) *)

Module Storage.
Import Models.

(** A user as [toObject] returns it: the document with its [_id]. *)
Record UserObject : Type := mkUserObject {
  _id : string;
  doc : User.t
}.

Record Profile : Type := mkProfile {
  profile_name : option string;
  profile_email : option string;
  profile_avatar : option string
}.

Definition getUser (id : string) (db : Db) : option UserObject :=
  mkUserObject id <$> users db !! id.

Definition getUserByUsername (username : string) (db : Db)
  : option UserObject :=
  (fun kv => mkUserObject (fst kv) (snd kv)) <$>
    List.find (fun kv => String.eqb (User.username (snd kv)) username)
              (map_to_list (users db)).

Definition getStudents (db : Db) : list UserObject :=
  (fun kv => mkUserObject (fst kv) (snd kv)) <$>
    find (fun _ u => bool_decide (User.role u = student)) (users db).

Definition updatePreferences (userId : string) (preferences : Preferences)
           (db : Db) : Result (UserObject * Db) :=
  let set_ u := {| User.username := User.username u;
                   User.password := User.password u;
                   User.name := User.name u; User.email := User.email u;
                   User.avatar := User.avatar u; User.role := User.role u;
                   User.preferences := preferences;
                   User.createdAt := User.createdAt u |} in
  match findOneAndUpdate userId (fun _ => true) set_ (users db) with
  | (Some u, us) => Ok (mkUserObject userId u, setUsers us db)
  | (None, _) => Throw NotFoundError
  end.

(** [$set: profile]: a property the caller leaves out is not set. *)
Definition updateProfile (userId : string) (profile : Profile) (db : Db)
  : Result (UserObject * Db) :=
  let set_ u := {| User.username := User.username u;
                   User.password := User.password u;
                   User.name := default (User.name u) (profile_name profile);
                   User.email :=
                     match profile_email profile with
                     | Some e => Some e
                     | None => User.email u
                     end;
                   User.avatar :=
                     match profile_avatar profile with
                     | Some a => Some a
                     | None => User.avatar u
                     end;
                   User.role := User.role u;
                   User.preferences := User.preferences u;
                   User.createdAt := User.createdAt u |} in
  match findOneAndUpdate userId (fun _ => true) set_ (users db) with
  | (Some u, us) => Ok (mkUserObject userId u, setUsers us db)
  | (None, _) => Throw NotFoundError
  end.

Section Storage.
Context `{Platform}.

(** [{...userData, preferences: userData.preferences || {}}] *)
Definition createUser (env : Env) (userData : Obj) (db : Db)
  : Result (UserObject * Db) :=
  let o := <["preferences" :=
               default (JS.JObj [])
                       (JS.or_else (userData !! "preferences")
                                   (Some (JS.JObj [])))]> userData in
  '(id, u, db') ← UserModel_create env o db;
  Ok (mkUserObject id u, db').

(** [{...data, password, role: "student", preferences: {}}] *)
Definition createStudent (env : Env) (data : Obj) (db : Db)
  : Result (UserObject * Db) :=
  let password := Auth.hashPassword (randomBytes16 env) "student123" in
  let o := <["preferences" := JS.JObj []]>
             (<["role" := JS.JStr "student"]>
                (<["password" := JS.JStr password]> data)) in
  '(id, u, db') ← UserModel_create env o db;
  Ok (mkUserObject id u, db').

(** The seven operations of [IStorage]. *)
Inductive Op : Type :=
| GetUser (id : string)
| GetUserByUsername (username : string)
| CreateUser (userData : Obj)
| CreateStudent (data : Obj)
| GetStudents
| UpdatePreferences (userId : string) (preferences : Preferences)
| UpdateProfile (userId : string) (profile : Profile).

(** The state an operation leaves; a raised error leaves it as it was. *)
Definition exec (env : Env) (op : Op) (db : Db) : Db :=
  match op with
  | GetUser _ | GetUserByUsername _ | GetStudents => db
  | CreateUser userData =>
      match createUser env userData db with
      | Ok (_, db') => db'
      | Throw _ => db
      end
  | CreateStudent data =>
      match createStudent env data db with
      | Ok (_, db') => db'
      | Throw _ => db
      end
  | UpdatePreferences userId preferences =>
      match updatePreferences userId preferences db with
      | Ok (_, db') => db'
      | Throw _ => db
      end
  | UpdateProfile userId profile =>
      match updateProfile userId profile db with
      | Ok (_, db') => db'
      | Throw _ => db
      end
  end.

(** [setupAuth]: create the default coach if there is none. The bytes
    of its salt come from the environment too. *)
Definition setupAuth (env : Env) (db : Db) : Db :=
  match getUserByUsername "coach" db with
  | Some _ => db
  | None =>
      let userData : Obj :=
        <["username" := JS.JStr "coach"]>
          (<["password" :=
               JS.JStr (Auth.hashPassword (randomBytes16 env) "coach123")]>
             (<["name" := JS.JStr "Head Coach"]>
                (<["role" := JS.JStr "coach"]> ∅))) in
      match createUser env userData db with
      | Ok (_, db') => db'
      | Throw _ => db
      end
  end.

End Storage.

End Storage.

(** ** shared/schema.ts (src/unnamed/part_000): the zod schemas the routes
       parse with *)

Module Schema.
Import Models.

Section Schema.
Context `{Platform}.

(** [z.string()] *)
Definition zString (v : option JS.JSON) : Result string :=
  match v with
  | Some (JS.JStr s) => Ok s
  | _ => Throw ZodError
  end.

(** [z.string().min(n)] *)
Definition zStringMin (n : nat) (v : option JS.JSON) : Result string :=
  s ← zString v;
  _ ← guard ZodError (n <=? String.length s)%nat;
  Ok s.

(** [schema.optional()] *)
Definition zOptional {A} (schema : option JS.JSON -> Result A)
           (v : option JS.JSON) : Result (option A) :=
  match v with
  | None => Ok None
  | Some _ => a ← schema v; Ok (Some a)
  end.

Definition zEmail (v : option JS.JSON) : Result string :=
  s ← zString v; _ ← guard ZodError (isEmail s); Ok s.

Definition zUrl (v : option JS.JSON) : Result string :=
  s ← zString v; _ ← guard ZodError (isUrl s); Ok s.

(** [z.enum(["zoom", "google_meet"])] *)
Definition zProvider (v : option JS.JSON) : Result MeetingProvider :=
  s ← zString v; require ZodError (MeetingProvider_of_string s).

(** [z.array(z.string())] *)
Definition zStrings (v : option JS.JSON) : Result (list string) :=
  match v with
  | Some (JS.JArr l) => traverse (fun x => zString (Some x)) l
  | _ => Throw ZodError
  end.

(** [createStudentSchema = userSchema.pick({username, name})]: the
    parsed object keeps these two properties and no other. *)
Definition createStudentSchema_parse (body : Obj) : Result Obj :=
  username ← zStringMin 3 (body !! "username");
  name ← zString (body !! "name");
  Ok (<["username" := JS.JStr username]>
        (<["name" := JS.JStr name]> ∅)).

Record UpdateProfile : Type := mkUpdateProfile {
  up_name : string;
  up_email : option string;
  currentPassword : option string;
  newPassword : option string
}.

Definition updateProfileSchema_parse (body : Obj) : Result UpdateProfile :=
  name ← zString (body !! "name");
  email ← zOptional zEmail (body !! "email");
  cur ← zOptional (zStringMin 6) (body !! "currentPassword");
  new ← zOptional (zStringMin 6) (body !! "newPassword");
  Ok {| up_name := name; up_email := email;
        currentPassword := cur; newPassword := new |}.

Definition updatePreferencesSchema_parse (body : Obj)
  : Result (MeetingProvider * string) :=
  p ← zProvider (body !! "defaultMeetingProvider");
  u ← zUrl (body !! "defaultMeetingUrl");
  Ok (p, u).

(** [insertClassScheduleSchema]: [classScheduleSchema] without [_id],
    [createdAt], [status], [actualStartTime], [actualEndTime] and
    [attendees]. *)
Record InsertClassSchedule : Type := mkInsertClassSchedule {
  ics_title : string;
  ics_description : string;
  ics_coachId : string;
  ics_studentIds : list string;
  ics_startTime : string;
  ics_endTime : string;
  ics_timezone : string;
  ics_meetingUrl : string;
  ics_meetingProvider : MeetingProvider
}.

Definition insertClassScheduleSchema_parse (o : Obj)
  : Result InsertClassSchedule :=
  title ← zStringMin 1 (o !! "title");
  description ← zString (o !! "description");
  coachId ← zString (o !! "coachId");
  studentIds ← zStrings (o !! "studentIds");
  startTime ← zString (o !! "startTime");
  endTime ← zString (o !! "endTime");
  timezone ← match o !! "timezone" with
             | None => Ok "UTC"
             | v => zString v
             end;
  meetingUrl ← zUrl (o !! "meetingUrl");
  meetingProvider ← zProvider (o !! "meetingProvider");
  Ok {| ics_title := title; ics_description := description;
        ics_coachId := coachId; ics_studentIds := studentIds;
        ics_startTime := startTime; ics_endTime := endTime;
        ics_timezone := timezone; ics_meetingUrl := meetingUrl;
        ics_meetingProvider := meetingProvider |}.

End Schema.

End Schema.

(** ** server/routes.ts (src/unnamed/part_003) *)

Module Routes.
Import Models Storage Schema.

(** An assignment with its puzzle populated. *)
Record StudentPuzzle : Type := mkStudentPuzzle {
  sp_id : string;
  sp_assignment : Assignment.t;
  sp_puzzle : Puzzle.t
}.

Inductive Body : Type :=
| SendStatus                                   (* res.sendStatus(code) *)
| Message (message : string)                   (* {message: "..."} *)
| ErrorMessage (error : Error)                 (* {message: error.message} *)
| JsonUser (u : option UserObject)
| JsonUsers (l : list UserObject)
| JsonPuzzle (id : string) (p : Puzzle.t)
| JsonPuzzles (l : list (string * Puzzle.t)) (total : nat)
              (themes : list (option string))
| JsonIds (l : list string)
| JsonAssignment (id : string) (a : Assignment.t)
| JsonStudentPuzzles (l : list StudentPuzzle)
| JsonSchedule (id : string) (s : ClassSchedule.t)
| JsonSchedules (l : list (string * ClassSchedule.t))
| JsonPreferences (p : Preferences).

(** [NoReply]: the request is left without an answer. *)
Inductive Response : Type :=
| Reply (status : Z) (body : Body)
| NoReply.

Definition Handler : Type := Db -> Response * Db.

(** [try { ... } catch (error) { res.status(code).json({message}) }]: no
    handler writes before the statement that can raise, so the catch
    branch answers from the state the request found. *)
Definition catch (code : Z) (r : Result (Response * Db)) (db : Db)
  : Response * Db :=
  match r with
  | Ok x => x
  | Throw e => (Reply code (ErrorMessage e), db)
  end.

(** [(req.user as any)._id] *)
Definition userId (user : option UserObject) : Result string :=
  match user with
  | Some u => Ok (_id u)
  | None => Throw TypeError
  end.

Definition hasRole (r : Role) (user : option UserObject) : bool :=
  match user with
  | Some u => bool_decide (User.role (doc u) = r)
  | None => false
  end.

Definition requireCoach (user : option UserObject) (next : Handler)
  : Handler :=
  fun db =>
    if negb (hasRole coach user)
    then (Reply 403 (Message "Coach access required"), db)
    else next db.

(** [if (!req.user) return res.sendStatus(401);
     if (req.user.role !== "student") return res.sendStatus(403);] *)
Definition studentOnly (user : option UserObject)
           (next : UserObject -> Handler) : Handler :=
  fun db =>
    match user with
    | None => (Reply 401 SendStatus, db)
    | Some u =>
        if negb (bool_decide (User.role (doc u) = student))
        then (Reply 403 SendStatus, db)
        else next u db
    end.

(** A document id in a request body: [undefined] and [null] find
    nothing. *)
Definition castId `{Platform} (v : option JS.JSON)
  : Result (option string) :=
  match v with
  | None | Some JS.JNull => Ok None
  | Some (JS.JStr s) => id ← castObjectId s; Ok (Some id)
  | Some _ => Throw CastError
  end.

Definition addAttempt (completed' : bool -> bool) (att : Attempt.t)
           (a : Assignment.t) : Assignment.t :=
  {| Assignment.puzzleId := Assignment.puzzleId a;
     Assignment.studentId := Assignment.studentId a;
     Assignment.completed := completed' (Assignment.completed a);
     Assignment.assignedAt := Assignment.assignedAt a;
     Assignment.attempts := Assignment.attempts a ++ [att] |}.

Definition setStatus (st : Status) (start end_ : option Z -> option Z)
           (attendees' : list string -> list string)
           (s : ClassSchedule.t) : ClassSchedule.t :=
  {| ClassSchedule.title := ClassSchedule.title s;
     ClassSchedule.description := ClassSchedule.description s;
     ClassSchedule.coachId := ClassSchedule.coachId s;
     ClassSchedule.studentIds := ClassSchedule.studentIds s;
     ClassSchedule.startTime := ClassSchedule.startTime s;
     ClassSchedule.endTime := ClassSchedule.endTime s;
     ClassSchedule.timezone := ClassSchedule.timezone s;
     ClassSchedule.meetingUrl := ClassSchedule.meetingUrl s;
     ClassSchedule.meetingProvider := ClassSchedule.meetingProvider s;
     ClassSchedule.status := st;
     ClassSchedule.actualStartTime := start (ClassSchedule.actualStartTime s);
     ClassSchedule.actualEndTime := end_ (ClassSchedule.actualEndTime s);
     ClassSchedule.attendees := attendees' (ClassSchedule.attendees s);
     ClassSchedule.createdAt := ClassSchedule.createdAt s |}.

Definition setUserFields (name : string) (email : option string)
           (password : option string) (u : User.t) : User.t :=
  {| User.username := User.username u;
     User.password := default (User.password u) password;
     User.name := name;
     User.email := match email with Some e => Some e | None => User.email u end;
     User.avatar := User.avatar u; User.role := User.role u;
     User.preferences := User.preferences u;
     User.createdAt := User.createdAt u |}.

Definition setUserPreferences (p : Preferences) (u : User.t) : User.t :=
  {| User.username := User.username u; User.password := User.password u;
     User.name := User.name u; User.email := User.email u;
     User.avatar := User.avatar u; User.role := User.role u;
     User.preferences := p; User.createdAt := User.createdAt u |}.

Definition setSolutionThemes (solution themes : Strings) (p : Puzzle.t)
  : Puzzle.t :=
  {| Puzzle.fen := Puzzle.fen p; Puzzle.solution := solution;
     Puzzle.themes := themes; Puzzle.createdBy := Puzzle.createdBy p;
     Puzzle.createdAt := Puzzle.createdAt p |}.

(** [addMinutes(d, n)] and [isBefore(a, b)] of date-fns, on milliseconds. *)
Definition addMinutes (d : Z) (n : Z) : Z := d + n * 60000.
Definition isBefore (a b : Z) : bool := a <? b.

(** [themes.split(",").filter(Boolean)] and the query it selects. *)
Definition themeQuery (themes : option string) : Puzzle.t -> bool :=
  let themeFilter :=
    match themes with
    | Some s => List.filter (fun t => negb (String.eqb t ""))
                            (Auth.split "," s)
    | None => []
    end in
  match themeFilter with
  | [] => fun _ => true
  | _ => fun p =>
           existsb (fun t => existsb (String.eqb t) themeFilter)
                   (strings (Puzzle.themes p))
  end.

(** [populate('puzzleId')] followed by the [map] that reads the populated
    puzzle: an assignment whose puzzle is gone makes the [map] raise. *)
Definition populate (db : Db) (l : list (string * Assignment.t))
  : Result (list StudentPuzzle) :=
  traverse (fun kv =>
              p ← require TypeError
                    (puzzles db !! Assignment.puzzleId (snd kv));
              Ok (mkStudentPuzzle (fst kv) (snd kv) p)) l.

Section Routes.
Context `{Platform}.

(** *** Auth routes *)

(** [POST /api/login], with the verify function of the local strategy.
    A comparison that raises rejects inside the strategy, where nothing
    catches it. *)
Definition post_login (username password : option string) : Handler :=
  fun db =>
    match username, password with
    | Some u, Some p =>
        if String.eqb u "" || String.eqb p ""
        then (Reply 401 (Message "Invalid credentials"), db)
        else
          match getUserByUsername u db with
          | None => (Reply 401 (Message "Invalid credentials"), db)
          | Some user =>
              match Auth.comparePasswords p (User.password (doc user)) with
              | Throw _ => (NoReply, db)
              | Ok false => (Reply 401 (Message "Invalid credentials"), db)
              | Ok true => (Reply 200 (JsonUser (Some user)), db)
              end
          end
    | _, _ => (Reply 401 (Message "Invalid credentials"), db)
    end.

Definition post_logout : Handler :=
  fun db => (Reply 200 SendStatus, db).

Definition get_user (user : option UserObject) : Handler :=
  fun db =>
    match user with
    | None => (Reply 401 SendStatus, db)
    | Some u => (Reply 200 (JsonUser (Some u)), db)
    end.

(** *** Coach routes *)

(** routes.ts takes [insertClassScheduleSchema], [updateProfileSchema]
    and [updatePreferencesSchema] from the shared schema (line 7), and
    not [createStudentSchema]: evaluating that identifier raises. *)
Definition createStudentSchema : Result (Obj -> Result Obj) :=
  Throw ReferenceError.

Definition post_students (env : Env) (body : Obj) : Handler :=
  fun db =>
    catch 400
      (schema ← createStudentSchema;
       data ← schema body;
       '(created, db') ← createStudent env data db;
       Ok (Reply 201 (JsonUser (Some created)), db')) db.

Definition get_students : Handler :=
  fun db => (Reply 200 (JsonUsers (getStudents db)), db).

(** [PuzzleModel.create({...req.body, createdBy: req.user._id})] *)
Definition post_puzzles (env : Env) (user : option UserObject)
           (body : Obj) : Handler :=
  fun db =>
    catch 400
      (uid ← userId user;
       '(id, p, db') ←
         PuzzleModel_create env (<["createdBy" := JS.JStr uid]> body) db;
       Ok (Reply 201 (JsonPuzzle id p), db')) db.

Definition get_puzzle_ids (themes : option string) : Handler :=
  fun db =>
    (Reply 200
       (JsonIds (fst <$> find (fun _ p => themeQuery themes p)
                              (puzzles db))), db).

(** [GET /api/puzzles]: the page the answer holds (sort, skip, limit)
    is left out; the total and the distinct themes are as computed. *)
Definition get_puzzles (themes : option string) : Handler :=
  fun db =>
    let matching := find (fun _ p => themeQuery themes p) (puzzles db) in
    (Reply 200
       (JsonPuzzles matching (List.length matching)
          (remove_dups
             (concat (values ∘ Puzzle.themes ∘ snd
                        <$> map_to_list (puzzles db))))),
     db).

Definition post_assignments (env : Env) (body : Obj) : Handler :=
  fun db =>
    catch 400
      (puzzleId ← castId (body !! "puzzleId");
       studentId ← castId (body !! "studentId");
       let puzzle := puzzleId ≫= fun id => puzzles db !! id in
       let assignee := studentId ≫= fun id => getUser id db in
       match puzzleId, studentId, puzzle, assignee with
       | Some pid, Some sid, Some _, Some s =>
           if negb (bool_decide (User.role (doc s) = student))
           then Ok (Reply 400 (Message "Can only assign to students"), db)
           else
             let a := {| Assignment.puzzleId := pid;
                         Assignment.studentId := sid;
                         Assignment.completed := false;
                         Assignment.assignedAt := now env;
                         Assignment.attempts := [] |} in
             asg ← insertNew (newObjectId env) a (assignments db);
             Ok (Reply 201 (JsonAssignment (newObjectId env) a),
                 setAssignments asg db)
       | _, _, _, _ =>
           Ok (Reply 404 (Message "Puzzle or student not found"), db)
       end) db.

Definition get_student_puzzles (studentId : string) : Handler :=
  fun db =>
    catch 500
      (sid ← castObjectId studentId;
       l ← populate db
             (find (fun _ a => String.eqb (Assignment.studentId a) sid)
                   (assignments db));
       Ok (Reply 200 (JsonStudentPuzzles l), db)) db.

(** *** Student puzzle routes *)

Definition get_my (completed : bool) (user : option UserObject)
  : Handler :=
  studentOnly user (fun u db =>
    catch 500
      (l ← populate db
             (find (fun _ a =>
                      String.eqb (Assignment.studentId a) (_id u)
                      && Bool.eqb (Assignment.completed a) completed)
                   (assignments db));
       Ok (Reply 200 (JsonStudentPuzzles l), db)) db).

Definition get_my_assignments := get_my false.
Definition get_my_completed := get_my true.

Definition post_assignment_complete (env : Env)
           (user : option UserObject) (assignmentId : string)
           (body : Obj) : Handler :=
  studentOnly user (fun u db =>
    catch 500
      (id ← castObjectId assignmentId;
       moves ← castStrings (body !! "moves");
       let attempt := {| Attempt.moves := moves;
                         Attempt.timestamp := now env |} in
       match findOneAndUpdate id
               (fun a => String.eqb (Assignment.studentId a) (_id u)
                         && negb (Assignment.completed a))
               (addAttempt (fun _ => true) attempt)
               (assignments db) with
       | (None, _) =>
           Ok (Reply 404
                 (Message "Assignment not found or already completed"), db)
       | (Some a, asg) =>
           Ok (Reply 200 (JsonAssignment id a), setAssignments asg db)
       end) db).

Definition post_assignment_attempt (env : Env)
           (user : option UserObject) (assignmentId : string)
           (body : Obj) : Handler :=
  studentOnly user (fun u db =>
    catch 500
      (id ← castObjectId assignmentId;
       moves ← castStrings (body !! "moves");
       let attempt := {| Attempt.moves := moves;
                         Attempt.timestamp := now env |} in
       match findOneAndUpdate id
               (fun a => String.eqb (Assignment.studentId a) (_id u))
               (addAttempt (fun c => c) attempt)
               (assignments db) with
       | (None, _) => Ok (Reply 404 (Message "Assignment not found"), db)
       | (Some a, asg) =>
           Ok (Reply 200 (JsonAssignment id a), setAssignments asg db)
       end) db).

Definition delete_student_puzzle (studentId puzzleId : string) : Handler :=
  fun db =>
    catch 500
      (pid ← castObjectId puzzleId;
       sid ← castObjectId studentId;
       match findOneAndDelete pid
               (fun a => String.eqb (Assignment.studentId a) sid
                         && negb (Assignment.completed a))
               (assignments db) with
       | (None, _) =>
           Ok (Reply 404
                 (Message "Assignment not found or already completed"), db)
       | (Some _, asg) =>
           Ok (Reply 200 (Message "Assignment deleted successfully"),
               setAssignments asg db)
       end) db.


(** *** Class schedule routes *)

(** [property: value] in an object literal, where the value may be
    [undefined]. *)
Definition setProp (k : string) (v : option JS.JSON) (o : Obj) : Obj :=
  match v with
  | Some x => <[k := x]> o
  | None => delete k o
  end.

Definition providerName (p : MeetingProvider) : string :=
  match p with zoom => "zoom" | google_meet => "google_meet" end.

(** [ClassScheduleModel.create(data)] *)
Definition ClassScheduleModel_create (env : Env)
           (data : InsertClassSchedule) (db : Db)
  : Result (string * ClassSchedule.t * Db) :=
  coachId ← castObjectId (ics_coachId data);
  studentIds ← traverse castObjectId (ics_studentIds data);
  startTime ← require CastError (castDate (JS.JStr (ics_startTime data)));
  endTime ← require CastError (castDate (JS.JStr (ics_endTime data)));
  _ ← guard ValidationError (negb (String.eqb (ics_meetingUrl data) ""));
  let s := {| ClassSchedule.title := ics_title data;
              ClassSchedule.description := Some (ics_description data);
              ClassSchedule.coachId := coachId;
              ClassSchedule.studentIds := studentIds;
              ClassSchedule.startTime := startTime;
              ClassSchedule.endTime := endTime;
              ClassSchedule.timezone := ics_timezone data;
              ClassSchedule.meetingUrl := ics_meetingUrl data;
              ClassSchedule.meetingProvider := ics_meetingProvider data;
              ClassSchedule.status := not_started;
              ClassSchedule.actualStartTime := None;
              ClassSchedule.actualEndTime := None;
              ClassSchedule.attendees := [];
              ClassSchedule.createdAt := now env |} in
  cs ← insertNew (newObjectId env) s (classSchedules db);
  Ok (newObjectId env, s, setClassSchedules cs db).

Definition post_class_schedules (env : Env) (user : option UserObject)
           (body : Obj) : Handler :=
  fun db =>
    catch 400
      (let userTimezone :=
         JS.or_else (body !! "timezone") (Some (JS.JStr "UTC")) in
       localStartTime ← require RangeError (newDate (body !! "startTime"));
       localEndTime ← require RangeError (newDate (body !! "endTime"));
       let startTimeUTC := toISOString localStartTime in
       let endTimeUTC := toISOString localEndTime in
       uid ← userId user;
       let preferences :=
         default noPreferences
                 (User.preferences <$> users db !! uid) in
       data ← insertClassScheduleSchema_parse
                (setProp "meetingUrl"
                   (JS.or_else (body !! "meetingUrl")
                      (JS.JStr <$> defaultMeetingUrl preferences))
                (setProp "meetingProvider"
                   (JS.or_else (body !! "meetingProvider")
                      (JS.JStr ∘ providerName <$>
                         defaultMeetingProvider preferences))
                (setProp "timezone" userTimezone
                (<["endTime" := JS.JStr endTimeUTC]>
                (<["startTime" := JS.JStr startTimeUTC]>
                (<["coachId" := JS.JStr uid]> body))))));
       '(id, s, db') ← ClassScheduleModel_create env data db;
       Ok (Reply 201 (JsonSchedule id s), db')) db.

Definition get_class_schedules_coach (user : option UserObject)
  : Handler :=
  fun db =>
    catch 500
      (uid ← userId user;
       Ok (Reply 200
             (JsonSchedules
                (find (fun _ s => String.eqb (ClassSchedule.coachId s) uid)
                      (classSchedules db))), db)) db.

Definition get_class_schedules_student (user : option UserObject)
  : Handler :=
  studentOnly user (fun u db =>
    (Reply 200
       (JsonSchedules
          (find (fun _ s =>
                   existsb (String.eqb (_id u)) (ClassSchedule.studentIds s))
                (classSchedules db))), db)).

Definition post_class_schedule_start (env : Env)
           (user : option UserObject) (scheduleId : string) : Handler :=
  fun db =>
    catch 500
      (uid ← userId user;
       id ← castObjectId scheduleId;
       match classSchedules db !! id with
       | Some schedule =>
           if negb (String.eqb (ClassSchedule.coachId schedule) uid)
           then Ok (Reply 404 (Message "Schedule not found"), db)
           else
             let startTime := ClassSchedule.startTime schedule in
             let earlyAccessTime := addMinutes startTime (-10) in
             if isBefore (now env) earlyAccessTime
             then Ok (Reply 400 (Message "Too early to start class"), db)
             else if bool_decide (ClassSchedule.status schedule = completed)
             then Ok (Reply 400 (Message "Class is already completed"), db)
             else
               let schedule' :=
                 setStatus in_progress (fun _ => Some (now env))
                           (fun e => e) (fun a => a) schedule in
               Ok (Reply 200 (JsonSchedule id schedule'),
                   setClassSchedules
                     (<[id := schedule']> (classSchedules db)) db)
       | None => Ok (Reply 404 (Message "Schedule not found"), db)
       end) db.

Definition post_class_schedule_end (env : Env)
           (user : option UserObject) (scheduleId : string) : Handler :=
  fun db =>
    catch 500
      (uid ← userId user;
       id ← castObjectId scheduleId;
       match findOneAndUpdate id
               (fun s => String.eqb (ClassSchedule.coachId s) uid
                         && bool_decide (ClassSchedule.status s = in_progress))
               (setStatus completed (fun b => b)
                          (fun _ => Some (now env)) (fun a => a))
               (classSchedules db) with
       | (None, _) =>
           Ok (Reply 404
                 (Message "Schedule not found or cannot be ended"), db)
       | (Some s, cs) =>
           Ok (Reply 200 (JsonSchedule id s), setClassSchedules cs db)
       end) db.

(** [$addToSet: {attendees: id}] *)
Definition addToSet (id : string) (l : list string) : list string :=
  if existsb (String.eqb id) l then l else l ++ [id].

Definition post_class_schedule_attend (user : option UserObject)
           (scheduleId : string) : Handler :=
  studentOnly user (fun u db =>
    catch 500
      (id ← castObjectId scheduleId;
       match findOneAndUpdate id
               (fun s => bool_decide (ClassSchedule.status s = in_progress)
                         && existsb (String.eqb (_id u))
                                    (ClassSchedule.studentIds s)
                         && negb (existsb (String.eqb (_id u))
                                          (ClassSchedule.attendees s)))
               (fun s => setStatus (ClassSchedule.status s) (fun b => b)
                                   (fun e => e) (addToSet (_id u)) s)
               (classSchedules db) with
       | (None, _) =>
           Ok (Reply 404
                 (Message "Schedule not found or attendance already marked"),
               db)
       | (Some s, cs) =>
           Ok (Reply 200 (JsonSchedule id s), setClassSchedules cs db)
       end) db).

(** *** Profile and preferences routes *)

(** [findByIdAndUpdate(userId, {name, email, password?})] followed by
    [findById(userId)]: a property whose value is [undefined] is not
    set. *)
Definition put_profile (env : Env) (user : option UserObject)
           (body : Obj) : Handler :=
  fun db =>
    match user with
    | None => (Reply 401 SendStatus, db)
    | Some u =>
        catch 400
          (data ← updateProfileSchema_parse body;
           let uid := _id u in
           let update password :=
             let us := snd (findOneAndUpdate uid (fun _ => true)
                              (setUserFields (up_name data) (up_email data)
                                             password)
                              (users db)) in
             let db' := setUsers us db in
             Ok (Reply 200 (JsonUser (getUser uid db')), db') in
           match currentPassword data, newPassword data with
           | Some cur, Some new =>
               if String.eqb cur "" || String.eqb new "" then update None
               else
                 match users db !! uid with
                 | None => Ok (Reply 404 (Message "User not found"), db)
                 | Some stored =>
                     isValidPassword ←
                       Auth.comparePasswords cur (User.password stored);
                     if negb isValidPassword
                     then Ok (Reply 400
                                (Message "Current password is incorrect"),
                              db)
                     else
                       update (Some (Auth.hashPassword
                                       (randomBytes16 env) new))
                 end
           | _, _ => update None
           end) db
    end.

Definition put_preferences (user : option UserObject) (body : Obj)
  : Handler :=
  fun db =>
    match user with
    | None => (Reply 401 SendStatus, db)
    | Some u =>
        if negb (bool_decide (User.role (doc u) = coach))
        then (Reply 403 SendStatus, db)
        else
          catch 400
            ('(p, url) ← updatePreferencesSchema_parse body;
             let prefs := {| defaultMeetingProvider := Some p;
                             defaultMeetingUrl := Some url |} in
             match findOneAndUpdate (_id u) (fun _ => true)
                     (setUserPreferences prefs) (users db) with
             | (updated, us) =>
                 Ok (Reply 200 (JsonUser (mkUserObject (_id u) <$> updated)),
                     setUsers us db)
             end) db
    end.

Definition get_preferences (user : option UserObject) : Handler :=
  fun db =>
    match user with
    | None => (Reply 401 SendStatus, db)
    | Some u =>
        if negb (bool_decide (User.role (doc u) = coach))
        then (Reply 403 SendStatus, db)
        else
          (Reply 200
             (JsonPreferences
                (default noPreferences
                         (User.preferences <$> users db !! _id u))), db)
    end.

(** *** Puzzle update and delete *)

Definition post_puzzles_update (body : Obj) : Handler :=
  fun db =>
    let puzzleId := body !! "puzzleId" in
    let solution := body !! "solution" in
    let themes := body !! "themes" in
    if negb (JS.truthy puzzleId) || negb (JS.truthy solution)
       || negb (JS.truthy themes)
    then (Reply 400 (Message "Missing required fields"), db)
    else
      catch 500
        (id ← castId puzzleId;
         solution' ← castStrings solution;
         themes' ← castStrings themes;
         match id with
         | Some id =>
             match findOneAndUpdate id (fun _ => true)
                     (setSolutionThemes solution' themes') (puzzles db) with
             | (Some updatedPuzzle, ps) =>
                 Ok (Reply 200 (JsonPuzzle id updatedPuzzle), setPuzzles ps db)
             | (None, _) => Ok (Reply 404 (Message "Puzzle not found"), db)
             end
         | None => Ok (Reply 404 (Message "Puzzle not found"), db)
         end) db.

Definition post_puzzles_delete (body : Obj) : Handler :=
  fun db =>
    let puzzleId := body !! "puzzleId" in
    if negb (JS.truthy puzzleId)
    then (Reply 400 (Message "Missing puzzle ID"), db)
    else
      catch 500
        (id ← castId puzzleId;
         match id with
         | Some id =>
             match findOneAndDelete id (fun _ => true) (puzzles db) with
             | (Some _, ps) =>
                 Ok (Reply 200 (Message "Puzzle deleted successfully"),
                     setPuzzles ps db)
             | (None, _) => Ok (Reply 404 (Message "Puzzle not found"), db)
             end
         | None => Ok (Reply 404 (Message "Puzzle not found"), db)
         end) db.

(** *** The route table *)

Inductive Request : Type :=
| PostLogin (username password : option string)
| PostLogout
| GetUser
| PostStudents (body : Obj)
| GetStudents
| PostPuzzles (body : Obj)
| GetPuzzleIds (themes : option string)
| GetPuzzles (themes : option string)
| PostAssignments (body : Obj)
| GetStudentPuzzles (studentId : string)
| GetMyAssignments
| GetMyCompleted
| PostAssignmentComplete (assignmentId : string) (body : Obj)
| PostAssignmentAttempt (assignmentId : string) (body : Obj)
| DeleteStudentPuzzle (studentId puzzleId : string)
| PostClassSchedules (body : Obj)
| GetClassSchedulesCoach
| GetClassSchedulesStudent
| PostClassScheduleStart (scheduleId : string)
| PostClassScheduleEnd (scheduleId : string)
| PostClassScheduleAttend (scheduleId : string)
| PutProfile (body : Obj)
| PutPreferences (body : Obj)
| GetPreferences
| PostPuzzlesUpdate (body : Obj)
| PostPuzzlesDelete (body : Obj).

(** The routes registered with [requireCoach] before their handler. *)
Definition usesRequireCoach (r : Request) : bool :=
  match r with
  | PostStudents _ | GetStudents | PostPuzzles _ | GetPuzzleIds _
  | PostAssignments _ | GetStudentPuzzles _ | DeleteStudentPuzzle _ _
  | PostClassSchedules _ | GetClassSchedulesCoach
  | PostClassScheduleStart _ | PostClassScheduleEnd _
  | PostPuzzlesUpdate _ | PostPuzzlesDelete _ => true
  | _ => false
  end.

(** The last callback of each registration. *)
Definition handler (env : Env) (user : option UserObject) (r : Request)
  : Handler :=
  match r with
  | PostLogin u p => post_login u p
  | PostLogout => post_logout
  | GetUser => get_user user
  | PostStudents body => post_students env body
  | GetStudents => get_students
  | PostPuzzles body => post_puzzles env user body
  | GetPuzzleIds themes => get_puzzle_ids themes
  | GetPuzzles themes => get_puzzles themes
  | PostAssignments body => post_assignments env body
  | GetStudentPuzzles sid => get_student_puzzles sid
  | GetMyAssignments => get_my_assignments user
  | GetMyCompleted => get_my_completed user
  | PostAssignmentComplete aid body =>
      post_assignment_complete env user aid body
  | PostAssignmentAttempt aid body =>
      post_assignment_attempt env user aid body
  | DeleteStudentPuzzle sid pid => delete_student_puzzle sid pid
  | PostClassSchedules body => post_class_schedules env user body
  | GetClassSchedulesCoach => get_class_schedules_coach user
  | GetClassSchedulesStudent => get_class_schedules_student user
  | PostClassScheduleStart id => post_class_schedule_start env user id
  | PostClassScheduleEnd id => post_class_schedule_end env user id
  | PostClassScheduleAttend id => post_class_schedule_attend user id
  | PutProfile body => put_profile env user body
  | PutPreferences body => put_preferences user body
  | GetPreferences => get_preferences user
  | PostPuzzlesUpdate body => post_puzzles_update body
  | PostPuzzlesDelete body => post_puzzles_delete body
  end.

(** A request runs the middleware of its route, then its handler. *)
Definition dispatch (env : Env) (user : option UserObject) (r : Request)
  : Handler :=
  if usesRequireCoach r then requireCoach user (handler env user r)
  else handler env user r.

(** Everything that can act on the database: a request, a call of a
    storage operation, and the start of the server. *)
Inductive Event : Type :=
| Api (env : Env) (user : option UserObject) (r : Request)
| Store (env : Env) (op : Storage.Op)
| Startup (env : Env).

Definition step (db : Db) (e : Event) : Db :=
  match e with
  | Api env user r => snd (dispatch env user r db)
  | Store env op => Storage.exec env op db
  | Startup env => setupAuth env db
  end.

Definition run (db : Db) (es : list Event) : Db := fold_left step es db.

Definition clock (e : Event) : Z :=
  match e with
  | Api env _ _ | Store env _ | Startup env => now env
  end.


End Routes.
End Routes.

(** ** How events change the collections *)

(** A text that does not end in white space. *)
Definition ends_clean (l : list ascii) : Prop :=
  match last l with
  | Some c => JS.isWhiteSpace c = false
  | None => True
  end.

Section Changes.
Import Models Storage Schema Routes.
Context `{Platform}.

(** How one event can change the collection of users: not at all, by a
    new document under an unused id, or by an update of a document under
    its id. *)
Inductive users_change (us : gmap string User.t)
  : gmap string User.t → Prop :=
| users_same : users_change us us
| users_insert id u : us !! id = None → users_change us (<[id := u]> us)
| users_update id u u' :
    us !! id = Some u → users_change us (<[id := u']> us).


(** How one request can change the assignments. *)
Inductive assignments_change (env : Env) (user : option UserObject)
          (r : Request) (asg : gmap string Assignment.t)
  : gmap string Assignment.t → Prop :=
| assignments_same : assignments_change env user r asg asg
| assignments_create id a :
    asg !! id = None → Assignment.completed a = false →
    assignments_change env user r asg (<[id := a]> asg)
| assignments_complete id body u a moves :
    r = PostAssignmentComplete id body → user = Some u →
    User.role (doc u) = student →
    asg !! id = Some a → Assignment.studentId a = _id u →
    Assignment.completed a = false →
    castStrings (body !! "moves") = Ok moves →
    assignments_change env user r asg
      (<[id := addAttempt (λ _, true)
                 {| Attempt.moves := moves; Attempt.timestamp := now env |}
                 a]> asg)
| assignments_attempt id body u a moves :
    r = PostAssignmentAttempt id body → user = Some u →
    User.role (doc u) = student →
    asg !! id = Some a → Assignment.studentId a = _id u →
    castStrings (body !! "moves") = Ok moves →
    assignments_change env user r asg
      (<[id := addAttempt (λ c, c)
                 {| Attempt.moves := moves; Attempt.timestamp := now env |}
                 a]> asg)
| assignments_delete studentId puzzleId a :
    r = DeleteStudentPuzzle studentId puzzleId →
    asg !! puzzleId = Some a → Assignment.studentId a = studentId →
    Assignment.completed a = false →
    assignments_change env user r asg (delete puzzleId asg).


End Changes.

(** ** Instances for running the model *)

(** A stand-in for chess.js: a position is the text of its FEN together
    with the moves played from it; any non-empty text loads, and a move
    between two distinct squares is legal and appends itself to the text. *)
#[local] Instance TextChess : ClassroomBoard.ChessJs := {|
  ClassroomBoard.Chess := string * list string;
  ClassroomBoard.new_Chess :=
    ("rnbqkbnr/pppppppp/8/8/8/8/PPPPPPPP/RNBQKBNR w KQkq - 0 1", []);
  ClassroomBoard.load := fun _ f =>
    if String.eqb f "" then None else Some (f, []);
  ClassroomBoard.fen := fst;
  ClassroomBoard.move := fun g from to _ =>
    if String.eqb from to then None
    else Some (fst g ++ " " ++ from ++ to, (snd g ++ [(from ++ to)%string])%list);
  ClassroomBoard.history := snd
|}.

(** A stand-in for Node, the ODM and zod: the key derivation pads the salt
    and the password to the key length, only strings cast to [String], a
    date is a number of milliseconds or its decimal text, the text of a
    date is that decimal text, and an [ObjectId] is a text of twenty-four
    hexadecimal digits. *)
Definition simple_scrypt (password salt : string) (keylen : nat)
  : list ascii :=
  take keylen (JS.chars (salt ++ ":" ++ password)
               ++ repeat "000"%char keylen)%list.

Definition simple_date (v : JS.JSON) : option Z :=
  match v with
  | JS.JNum n => Some n
  | JS.JStr s => Z.of_int <$> NilZero.int_of_string s
  | _ => None
  end.

(** [/^[0-9a-fA-F]{24}$/] *)
Definition simple_isObjectId (s : string) : bool :=
  (String.length s =? 24)%nat
  && forallb (fun c => existsb (Ascii.eqb c)
                               (JS.chars "0123456789abcdefABCDEF"))
             (JS.chars s).

#[local] Instance SimplePlatform : Platform := {|
  scrypt := simple_scrypt;
  castString := fun v => match v with JS.JStr s => Some s | _ => None end;
  castDate := simple_date;
  isObjectId := simple_isObjectId;
  newDate := fun v => v ≫= simple_date;
  toISOString := fun t => NilZero.string_of_int (Z.to_int t);
  isEmail := fun s => existsb (Ascii.eqb "@") (JS.chars s);
  isUrl := fun s => String.prefix "http" s;
  castString_JStr := fun s => eq_refl
|}.

(** Sample ids: texts of twenty-four hexadecimal digits. *)
Module Id.
Definition c1 : string := "c00000000000000000000001".   (* the coach *)
Definition c2 : string := "c00000000000000000000002".
Definition s1 : string := "d00000000000000000000001".   (* the student *)
Definition s2 : string := "d00000000000000000000002".
Definition a1 : string := "a00000000000000000000001".   (* the assignment *)
Definition a2 : string := "a00000000000000000000002".
Definition p1 : string := "b00000000000000000000001".   (* the puzzle *)
Definition p2 : string := "b00000000000000000000002".
Definition k1 : string := "e00000000000000000000001".   (* a class *)
Definition x : string := "f00000000000000000000000".    (* an id not in use *)
End Id.

(** Sample data. *)
Module Sample.
Import Models Storage Routes.

Definition user (username : string) (role : Role) : User.t :=
  {| User.username := username; User.password := "0a.0b";
     User.name := username; User.email := None; User.avatar := None;
     User.role := role; User.preferences := noPreferences;
     User.createdAt := 0 |}.

Definition headCoach : UserObject :=
  mkUserObject Id.c1 (user "coach" coach).
Definition alice : UserObject :=
  mkUserObject Id.s1 (user "alice" student).


(** A request environment at time [t] whose driver generates [id]. *)
Definition env (t : Z) (id : string) : Env :=
  {| now := t; randomBytes16 := ["s"; "a"; "l"; "t"]%char;
     newObjectId := id |}.

Definition puzzle : Puzzle.t :=
  {| Puzzle.fen := "8/4P3/8/8/8/8/8/K6k w - - 0 1";
     Puzzle.solution := Some [Some "e7e8q"];
     Puzzle.themes := Some [Some "promotion"];
     Puzzle.createdBy := Id.c1;
     Puzzle.createdAt := 0 |}.

Definition assignment (completed : bool) : Assignment.t :=
  {| Assignment.puzzleId := Id.p1;
     Assignment.studentId := Id.s1;
     Assignment.completed := completed; Assignment.assignedAt := 0;
     Assignment.attempts := [] |}.

(** One coach, one student, one puzzle and one assignment of it. *)
Definition db (completed : bool) : Db :=
  {| users := {[ Id.c1 := doc headCoach;
                 Id.s1 := doc alice ]};
     puzzles := {[ Id.p1 := puzzle ]};
     assignments := {[ Id.a1 := assignment completed ]};
     classSchedules := ∅ |}.

(** The body of a class-schedule creation for a class at time 1 000 000. *)
Definition classBody : Obj :=
  <["title" := JS.JStr "Endgames"]>
    (<["description" := JS.JStr "Rook endings"]>
       (<["studentIds" := JS.JArr [JS.JStr Id.s1]]>
          (<["startTime" := JS.JNum 1000000]>
             (<["endTime" := JS.JNum 4600000]>
                (<["meetingUrl" := JS.JStr "https://meet.example/1"]>
                   (<["meetingProvider" := JS.JStr "zoom"]> ∅)))))).

(** What a caller of [createStudent] may pass: a role and a password of
    its own besides the two properties the route's schema would keep. *)
Definition studentData : Obj :=
  <["username" := JS.JStr "bob"]>
    (<["name" := JS.JStr "Bob"]>
       (<["role" := JS.JStr "coach"]>
          (<["password" := JS.JStr "hunter2"]> ∅))).

(** A class is created, started and ended by the coach. *)
Definition classHistory : list Event :=
  [Api (env 1000 Id.k1) (Some headCoach)
       (PostClassSchedules classBody);
   Api (env 900000 Id.x) (Some headCoach)
       (PostClassScheduleStart Id.k1);
   Api (env 4700000 Id.x) (Some headCoach)
       (PostClassScheduleEnd Id.k1)].

End Sample.

(** ** The specification's vocabulary *)

Module Spec.

Definition files : list ascii := ["a"; "b"; "c"; "d"; "e"; "f"; "g"; "h"]%char.
Definition ranks : list ascii := ["1"; "2"; "3"; "4"; "5"; "6"; "7"; "8"]%char.
Definition promotions : list ascii := ["q"; "r"; "b"; "n"; "k"]%char.

(** A UCI move string: from-square, to-square and, optionally, one
    promotion character. *)
Definition UciMove (t : string) : Prop :=
  ∃ f1 r1 f2 r2 promo,
    JS.chars t = ([f1; r1; f2; r2] ++ promo)%list
    ∧ f1 ∈ files ∧ r1 ∈ ranks ∧ f2 ∈ files ∧ r2 ∈ ranks
    ∧ (promo = [] ∨ ∃ p, promo = [p] ∧ p ∈ promotions).

(** The words of a text: its maximal runs of characters that are not
    white space. *)
Fixpoint words_from (cur : list ascii) (l : list ascii) : list string :=
  match l with
  | [] => match cur with [] => [] | _ => [JS.str (rev cur)] end
  | c :: l' =>
      if JS.isWhiteSpace c then
        match cur with
        | [] => words_from [] l'
        | _ => JS.str (rev cur) :: words_from [] l'
        end
      else words_from (c :: cur) l'
  end.

Definition words (s : string) : list string := words_from [] (JS.chars s).

(** The coach-only routes the specification lists: student creation and
    listing, puzzle creation, update and delete, assignment creation and
    deletion, class-schedule creation, start and end. *)
Definition coachOnly (r : Routes.Request) : bool :=
  match r with
  | Routes.PostStudents _ | Routes.GetStudents
  | Routes.PostPuzzles _ | Routes.PostPuzzlesUpdate _
  | Routes.PostPuzzlesDelete _
  | Routes.PostAssignments _ | Routes.DeleteStudentPuzzle _ _
  | Routes.PostClassSchedules _ | Routes.PostClassScheduleStart _
  | Routes.PostClassScheduleEnd _ => true
  | _ => false
  end.

End Spec.

(** * More of the code *)

(** ** client/src/components/StudentPuzzleSolver.tsx: the rest of the
       puzzle creator *)

(** [[...new Set(l)]]: the first occurrence of each element, in order. *)
Fixpoint dedupe_from (seen : list string) (l : list string) : list string :=
  match l with
  | [] => []
  | x :: l' =>
      if bool_decide (x ∈ seen) then dedupe_from seen l'
      else x :: dedupe_from (x :: seen) l'
  end.

Definition dedupe (l : list string) : list string := dedupe_from [] l.

Module PuzzleCreatorPanel.
Import ClassroomBoard.

(** The state of [PuzzleCreator] but for the game on the board: the form
    of the solution, as [PuzzleCreator.State] has it, the position and
    the themes. A handler that reads [game.fen()] takes it as [gameFen]. *)
Record State : Type := mkState {
  initialFen : string;
  fen : string;
  form : PuzzleCreator.State;
  themes : list string;
  themesInput : string
}.

(** [useState] initial values. *)
Definition initialState : State :=
  {| initialFen := ""; fen := "";
     form := {| PuzzleCreator.solutionInput := "";
                PuzzleCreator.solution := [];
                PuzzleCreator.currentMoveIndex := -1;
                PuzzleCreator.isPlaying := false |};
     themes := []; themesInput := "" |}.

(** The argument of [onSave]. *)
Record InsertPuzzle : Type := mkInsertPuzzle {
  puzzle_fen : string;
  puzzle_solution : list string;
  puzzle_themes : list string;
  puzzle_createdBy : string
}.

(** The four texts the panel alerts with. *)
Inductive AlertMessage : Type :=
| InvalidFenString          (* 'Invalid FEN string' *)
| InvalidUciFormat          (* 'Invalid UCI format. Moves should be ...' *)
| AddSolutionFirst          (* 'Please add solution moves first' *)
| AddThemeFirst.            (* 'Please add at least one theme' *)

Inductive Effect : Type :=
| Alert (message : AlertMessage)
| OnSave (puzzle : InsertPuzzle).

Definition setForm (f : PuzzleCreator.State) (st : State) : State :=
  {| initialFen := initialFen st; fen := fen st; form := f;
     themes := themes st; themesInput := themesInput st |}.

Definition setThemes (ts : list string) (input : string) (st : State)
  : State :=
  {| initialFen := initialFen st; fen := fen st; form := form st;
     themes := ts; themesInput := input |}.

Definition setCurrentMoveIndex (i : Z) (f : PuzzleCreator.State)
  : PuzzleCreator.State :=
  {| PuzzleCreator.solutionInput := PuzzleCreator.solutionInput f;
     PuzzleCreator.solution := PuzzleCreator.solution f;
     PuzzleCreator.currentMoveIndex := i;
     PuzzleCreator.isPlaying := PuzzleCreator.isPlaying f |}.

Definition setIsPlaying (b : bool) (f : PuzzleCreator.State)
  : PuzzleCreator.State :=
  {| PuzzleCreator.solutionInput := PuzzleCreator.solutionInput f;
     PuzzleCreator.solution := PuzzleCreator.solution f;
     PuzzleCreator.currentMoveIndex := PuzzleCreator.currentMoveIndex f;
     PuzzleCreator.isPlaying := b |}.

(** [solution.length - 1] *)
Definition lastIndex (f : PuzzleCreator.State) : Z :=
  Z.of_nat (List.length (PuzzleCreator.solution f)) - 1.

Section Panel.
Context `{ChessJs}.

(** [setPosition]: [new Chess(fen)] raises on a text the rules reject. *)
Definition setPosition (st : State) : State * list Effect :=
  match new_Chess_from (fen st) with
  | Some _ =>
      ({| initialFen := fen st; fen := "";
          form := setCurrentMoveIndex (-1) (form st);
          themes := themes st; themesInput := themesInput st |}, [])
  | None => (st, [Alert InvalidFenString])
  end.

Definition handleSolutionSubmit (st : State) : State * list Effect :=
  match PuzzleCreator.handleSolutionSubmit (form st) with
  | (f, Some PuzzleCreator.InvalidUCIFormat) =>
      (setForm f st,
       [Alert InvalidUciFormat])
  | (f, None) => (setForm f st, [])
  end.

Definition resetBoard (st : State) : State :=
  {| initialFen := ""; fen := fen st;
     form := {| PuzzleCreator.solutionInput := "";
                PuzzleCreator.solution := [];
                PuzzleCreator.currentMoveIndex := -1;
                PuzzleCreator.isPlaying := false |};
     themes := themes st; themesInput := themesInput st |}.

Definition handleThemesSubmit (st : State) : State :=
  if negb (String.eqb (JS.trim (themesInput st)) "") then
    let newThemes := JS.split_ws (JS.trim (themesInput st)) in
    setThemes (dedupe (themes st ++ newThemes)) "" st
  else st.

Definition removeTheme (theme : string) (st : State) : State :=
  setThemes (List.filter (fun t => negb (String.eqb t theme)) (themes st))
            (themesInput st) st.

(** [handleSave], with the FEN of the game on the board. *)
Definition handleSave (gameFen : string) (st : State) : list Effect :=
  if (List.length (PuzzleCreator.solution (form st)) =? 0)%nat then
    [Alert AddSolutionFirst]
  else if (List.length (themes st) =? 0)%nat then
    [Alert AddThemeFirst]
  else
    [OnSave {| puzzle_fen := if String.eqb (initialFen st) ""
                             then gameFen else initialFen st;
               puzzle_solution := PuzzleCreator.solution (form st);
               puzzle_themes := themes st;
               puzzle_createdBy := "" |}].

Definition togglePlay (st : State) : State * list Effect :=
  if (List.length (PuzzleCreator.solution (form st)) =? 0)%nat then
    (st, [Alert AddSolutionFirst])
  else
    (setForm (setIsPlaying (negb (PuzzleCreator.isPlaying (form st)))
                           (form st)) st, []).

Definition nextMove (st : State) : State :=
  let f := form st in
  if PuzzleCreator.currentMoveIndex f <? lastIndex f
  then setForm (setCurrentMoveIndex (PuzzleCreator.currentMoveIndex f + 1) f) st
  else st.

Definition previousMove (st : State) : State :=
  let f := form st in
  if -1 <? PuzzleCreator.currentMoveIndex f
  then setForm (setCurrentMoveIndex (PuzzleCreator.currentMoveIndex f - 1) f) st
  else st.

(** One tick of the autoplay interval, which runs while the effect finds
    [isPlaying && currentMoveIndex < solution.length - 1]. *)
Definition autoplayTick (st : State) : State :=
  let f := form st in
  if PuzzleCreator.isPlaying f
     && (PuzzleCreator.currentMoveIndex f <? lastIndex f)
  then
    if lastIndex f <=? PuzzleCreator.currentMoveIndex f
    then setForm (setIsPlaying false f) st
    else setForm (setCurrentMoveIndex (PuzzleCreator.currentMoveIndex f + 1) f)
                 st
  else st.

(** What the user and the timer can do to the panel. *)
Inductive Event : Type :=
| TypeFen (text : string)              (* onChange of the FEN input *)
| TypeSolution (text : string)         (* onChange of the solution input *)
| TypeThemes (text : string)           (* onChange of the themes input *)
| SetPosition
| SubmitSolution
| ResetBoard
| SubmitThemes
| RemoveTheme (theme : string)
| Save (gameFen : string)
| TogglePlay
| NextMove
| PreviousMove
| Tick.

Definition step (st : State) (e : Event) : State * list Effect :=
  match e with
  | TypeFen text =>
      ({| initialFen := initialFen st; fen := text; form := form st;
          themes := themes st; themesInput := themesInput st |}, [])
  | TypeSolution text =>
      (setForm {| PuzzleCreator.solutionInput := text;
                  PuzzleCreator.solution := PuzzleCreator.solution (form st);
                  PuzzleCreator.currentMoveIndex :=
                    PuzzleCreator.currentMoveIndex (form st);
                  PuzzleCreator.isPlaying :=
                    PuzzleCreator.isPlaying (form st) |} st, [])
  | TypeThemes text => (setThemes (themes st) text st, [])
  | SetPosition => setPosition st
  | SubmitSolution => handleSolutionSubmit st
  | ResetBoard => (resetBoard st, [])
  | SubmitThemes => (handleThemesSubmit st, [])
  | RemoveTheme theme => (removeTheme theme st, [])
  | Save gameFen => (st, handleSave gameFen st)
  | TogglePlay => togglePlay st
  | NextMove => (nextMove st, [])
  | PreviousMove => (previousMove st, [])
  | Tick => (autoplayTick st, [])
  end.

(** The state after a sequence of events, and everything it caused. *)
Fixpoint run (st : State) (es : list Event) : State * list Effect :=
  match es with
  | [] => (st, [])
  | e :: es' =>
      let '(st1, out1) := step st e in
      let '(st2, out2) := run st1 es' in
      (st2, (out1 ++ out2)%list)
  end.

End Panel.
End PuzzleCreatorPanel.

(** What the panel keeps true of its state: the stored solution passed
    the check of [handleSolutionSubmit], and the themes are distinct
    words. *)
Definition isWord (t : string) : bool :=
  negb (String.eqb t "")
  && forallb (fun c => negb (JS.isWhiteSpace c)) (JS.chars t).

Record panel_ok (st : PuzzleCreatorPanel.State) : Prop := {
  ok_solution :
    PuzzleCreator.isValidUCI
      (PuzzleCreator.solution (PuzzleCreatorPanel.form st)) = true;
  ok_themes_nodup : NoDup (PuzzleCreatorPanel.themes st);
  ok_themes_words :
    Forall (fun t => isWord t = true) (PuzzleCreatorPanel.themes st);
  ok_index :
    -1 <= PuzzleCreator.currentMoveIndex (PuzzleCreatorPanel.form st)
       <= PuzzleCreatorPanel.lastIndex (PuzzleCreatorPanel.form st);
  ok_playing :
    PuzzleCreator.isPlaying (PuzzleCreatorPanel.form st) = true ->
    PuzzleCreator.solution (PuzzleCreatorPanel.form st) <> []
}.

(** ** client/src/components/ClassroomBoard.tsx: the controls of the
       coach *)

Module ClassroomBoardCoach.
Import ClassroomBoard.

(** What [g.move(san)] can do: make the move, return [null], or raise. *)
Inductive MoveResult (C : Type) : Type :=
| Moved (g : C)
| ReturnedNull
| Raised.
Arguments Moved {C} g.
Arguments ReturnedNull {C}.
Arguments Raised {C}.

(** More of chess.js: a move in standard notation, where the argument
    may be [undefined], and a game in PGN ([None] where [loadPgn]
    raises). *)
Class ChessJsSan `{ChessJs} : Type := {
  move_san : Chess -> option string -> MoveResult Chess;
  loadPgn : Chess -> string -> option Chess
}.

Section Coach.
Context `{ChessJsSan}.

(** The [isCoach] property of the component. *)
Variable isCoach : bool.

Definition setCurrentMoveIndex (i : Z) (st : State) : State :=
  {| game := game st; boardOrientation := boardOrientation st;
     moveHistory := moveHistory st; currentMoveIndex := i;
     socket := socket st; isConnected := isConnected st |}.

Definition handleLoadPGN (pgn : string) (st : State)
  : State * list Effect :=
  match loadPgn new_Chess pgn with
  | Some newGame =>
      (updateMoveHistory newGame (setGame newGame st),
       emit_board_update st (fen newGame))
  | None => (st, [])
  end.

(** The loop of [navigateMove]: a move that raises ends it. *)
Fixpoint replay (g : Chess) (moves : list (option string)) : Chess :=
  match moves with
  | [] => g
  | m :: ms =>
      match move_san g m with
      | Moved g' => replay g' ms
      | ReturnedNull => replay g ms
      | Raised => g
      end
  end.

Definition navigateMove (index : Z) (st : State) : State * list Effect :=
  if negb isCoach then (st, [])
  else
    let newGame :=
      replay new_Chess
             ((fun i => moveHistory st !! i) <$> seq 0 (Z.to_nat (index + 1)))
    in
    (setCurrentMoveIndex index (setGame newGame st),
     emit_board_update st (fen newGame)).

Definition handlePrevMove (st : State) : State * list Effect :=
  if -1 <? currentMoveIndex st
  then navigateMove (currentMoveIndex st - 1) st
  else (st, []).

Definition handleNextMove (st : State) : State * list Effect :=
  if currentMoveIndex st <? Z.of_nat (List.length (moveHistory st)) - 1
  then navigateMove (currentMoveIndex st + 1) st
  else (st, []).

(** What can happen to a mounted component: the events of
    [ClassroomBoard.Event], a text pasted into the PGN dialog, the two
    arrows, and a click on a move of the list, which is drawn from
    [moveHistory]. *)
Inductive Event : Type :=
| Board (e : ClassroomBoard.Event)
| LoadPGN (pgn : string)
| PrevMove
| NextMove
| ClickMove (index : nat).

Definition step (st : State) (e : Event) : State * list Effect :=
  match e with
  | Board e => ClassroomBoard.step st e
  | LoadPGN pgn => handleLoadPGN pgn st
  | PrevMove => handlePrevMove st
  | NextMove => handleNextMove st
  | ClickMove index =>
      if (index <? List.length (moveHistory st))%nat
      then (if isCoach then navigateMove (Z.of_nat index) st else (st, []))
      else (st, [])
  end.

(** The state after a sequence of events, and everything it caused. *)
Fixpoint run (st : State) (es : list Event) : State * list Effect :=
  match es with
  | [] => (st, [])
  | e :: es' =>
      let '(st1, out1) := step st e in
      let '(st2, out2) := run st1 es' in
      (st2, (out1 ++ out2)%list)
  end.

End Coach.
End ClassroomBoardCoach.

(** ** server/routes.ts: how events change users and class schedules, in
       full *)

Section Evolution.
Import Models Storage Schema Routes.
Context `{Platform}.

(** No two stored users share a username (the unique index). *)
Definition unique_usernames (us : gmap string User.t) : Prop :=
  ∀ i j u v, us !! i = Some u → us !! j = Some v →
             User.username u = User.username v → i = j.

(** What one event does to the users: nothing, a new user whose username
    is free, or an update that keeps username, role and creation time. *)
Inductive users_step (us : gmap string User.t)
  : gmap string User.t → Prop :=
| users_step_same : users_step us us
| users_step_insert id u :
    us !! id = None →
    (∀ j v, us !! j = Some v → User.username v ≠ User.username u) →
    users_step us (<[id := u]> us)
| users_step_update id u u' :
    us !! id = Some u →
    User.username u' = User.username u →
    User.role u' = User.role u →
    User.createdAt u' = User.createdAt u →
    users_step us (<[id := u']> us).

(** What one request does to the class schedules. *)
Inductive schedules_step (env : Env) (user : option UserObject)
          (cs : gmap string ClassSchedule.t)
  : gmap string ClassSchedule.t → Prop :=
| schedules_step_same : schedules_step env user cs cs
| schedules_step_create id s u :
    user = Some u → User.role (doc u) = coach →
    cs !! id = None →
    ClassSchedule.coachId s = _id u →
    ClassSchedule.status s = not_started →
    ClassSchedule.actualStartTime s = None →
    ClassSchedule.actualEndTime s = None →
    ClassSchedule.attendees s = [] →
    schedules_step env user cs (<[id := s]> cs)
| schedules_step_start id u s :
    user = Some u → User.role (doc u) = coach →
    cs !! id = Some s → ClassSchedule.coachId s = _id u →
    addMinutes (ClassSchedule.startTime s) (-10) ≤ now env →
    ClassSchedule.status s ≠ completed →
    schedules_step env user cs
      (<[id := setStatus in_progress (λ _, Some (now env)) (λ e, e)
                         (λ a, a) s]> cs)
| schedules_step_end id u s :
    user = Some u → User.role (doc u) = coach →
    cs !! id = Some s → ClassSchedule.coachId s = _id u →
    ClassSchedule.status s = in_progress →
    schedules_step env user cs
      (<[id := setStatus completed (λ b, b) (λ _, Some (now env))
                         (λ a, a) s]> cs)
| schedules_step_attend id u s :
    user = Some u → User.role (doc u) = student →
    cs !! id = Some s → ClassSchedule.status s = in_progress →
    _id u ∈ ClassSchedule.studentIds s →
    _id u ∉ ClassSchedule.attendees s →
    schedules_step env user cs
      (<[id := setStatus (ClassSchedule.status s) (λ b, b) (λ e, e)
                         (addToSet (_id u)) s]> cs).

(** The order of the three statuses. *)
Definition rank (st : Status) : nat :=
  match st with not_started => 0 | in_progress => 1 | completed => 2 end.

(** The routes registered without a check of the user. *)
Definition public (r : Request) : bool :=
  match r with
  | PostLogin _ _ | PostLogout | GetPuzzles _ => true
  | _ => false
  end.

(** The requests that only read: the GET routes, login and logout. *)
Definition readOnly (r : Request) : bool :=
  match r with
  | PostLogin _ _ | PostLogout | GetUser | GetStudents | GetPuzzleIds _
  | GetPuzzles _ | GetStudentPuzzles _ | GetMyAssignments | GetMyCompleted
  | GetClassSchedulesCoach | GetClassSchedulesStudent | GetPreferences => true
  | _ => false
  end.

(** The part of an assignment no request touches. *)
Definition same_assignment (a a' : Assignment.t) : Prop :=
  Assignment.puzzleId a' = Assignment.puzzleId a
  ∧ Assignment.studentId a' = Assignment.studentId a
  ∧ Assignment.assignedAt a' = Assignment.assignedAt a.



End Evolution.

(* ===================================================================== *)
(** * Part II: properties                                                 *)
(* ===================================================================== *)

(** ** Strings *)

Lemma chars_str (l : list ascii) : JS.chars (JS.str l) = l.
Proof. apply list_ascii_of_string_of_list_ascii. Qed.

Lemma str_chars (s : string) : JS.str (JS.chars s) = s.
Proof. apply string_of_list_ascii_of_string. Qed.

Lemma chars_inj (s t : string) : JS.chars s = JS.chars t → s = t.
Proof.
  intros E. rewrite <- (str_chars s), <- (str_chars t). by rewrite E.
Qed.

Lemma chars_length (s : string) :
  List.length (JS.chars s) = String.length s.
Proof. induction s as [|c s IH]; simpl; [done | by rewrite IH]. Qed.

Lemma chars_substring0 (n : nat) (s : string) :
  JS.chars (JS.substring0 n s) = take n (JS.chars s).
Proof.
  unfold JS.substring0. revert s.
  induction n as [|n IH]; intros [|c s]; simpl; try done.
  by rewrite IH.
Qed.

Lemma eqb_string_false (s t : string) : String.eqb s t = false ↔ s ≠ t.
Proof. apply String.eqb_neq. Qed.

(** ** The student's move check *)

Section StudentPuzzleSolverFacts.
Import StudentPuzzleSolver.

Lemma isCorrectMove_unfold (st : State) (moveStr expectedMove : string) :
  JS.index (solution st) (currentMoveIndex st + 1) = Some expectedMove →
  expectedMove ≠ "" →
  isCorrectMove st moveStr =
    bool_decide (moveStr = expectedMove)
    || bool_decide (take 4 (JS.chars moveStr) = take 4 (JS.chars expectedMove))
       && (bool_decide (String.length moveStr = 5%nat)
           || bool_decide (String.length expectedMove = 5%nat)).
Proof.
  intros Hi Hne. unfold isCorrectMove. rewrite Hi.
  apply eqb_string_false in Hne. rewrite Hne. cbv zeta.
  destruct (String.eqb_spec moveStr expectedMove) as [->|Hd].
  - by rewrite bool_decide_eq_true_2.
  - rewrite (bool_decide_eq_false_2 _ Hd), orb_false_l.
    assert (Hlen : ∀ s, (JS.length s =? 5) = bool_decide (String.length s = 5%nat)).
    { intros s. unfold JS.length.
      destruct (Z.eqb_spec (Z.of_nat (String.length s)) 5) as [E|E].
      - rewrite bool_decide_eq_true_2; [done | lia].
      - rewrite bool_decide_eq_false_2; [done | lia]. }
    rewrite !Hlen.
    destruct (String.eqb_spec (JS.substring0 4 moveStr)
                              (JS.substring0 4 expectedMove)) as [E|E].
    + rewrite (bool_decide_eq_true_2 (take 4 _ = take 4 _)); [done |].
      by rewrite <- !chars_substring0, E.
    + rewrite (bool_decide_eq_false_2 (take 4 _ = take 4 _)); [done |].
      intros E'. apply E, chars_inj. by rewrite !chars_substring0.
Qed.

(** An empty expected move is falsy: the check rejects even the empty
    move string, the one string the theorem below leaves out. *)
Lemma isCorrectMove_empty_expected :
  isCorrectMove {| solution := [""]; currentMoveIndex := -1 |} "" = false.
Proof. reflexivity. Qed.

(** C9. [isCorrectMove] accepts a move string exactly when the solution
    has a non-empty expected move at the next index and either the two
    strings are equal, or they agree on their first four characters and
    one of them has length five. For the string of a played move, which
    is never empty, the expected move need not be asked to be non-empty.
    In particular a promotion to another piece than the solution names is
    accepted. *)
Theorem C9_isCorrectMove_accepts (st : State) :
  let matching (moveStr expectedMove : string) :=
    moveStr = expectedMove
    ∨ (take 4 (JS.chars moveStr) = take 4 (JS.chars expectedMove)
       ∧ (String.length moveStr = 5%nat
          ∨ String.length expectedMove = 5%nat)) in
  let expected := JS.index (solution st) (currentMoveIndex st + 1) in
  (∀ moveStr,
     isCorrectMove st moveStr = true ↔
     ∃ expectedMove,
       expected = Some expectedMove ∧ expectedMove ≠ ""
       ∧ matching moveStr expectedMove)
  ∧ (∀ moveStr,
       moveStr ≠ "" →
       (isCorrectMove st moveStr = true ↔
        ∃ expectedMove,
          expected = Some expectedMove ∧ matching moveStr expectedMove))
  ∧ (∀ squares p q,
       List.length squares = 4%nat →
       expected = Some (JS.str (squares ++ [p])%list) →
       isCorrectMove st (JS.str (squares ++ [q])%list) = true).
Proof.
  intros matching expected.
  assert (Hiff : ∀ moveStr,
     isCorrectMove st moveStr = true ↔
     ∃ expectedMove,
       expected = Some expectedMove ∧ expectedMove ≠ ""
       ∧ matching moveStr expectedMove).
  { intros moveStr. subst expected matching. cbv beta.
    destruct (JS.index (solution st) (currentMoveIndex st + 1))
      as [expectedMove|] eqn:Hi.
    - destruct (decide (expectedMove = "")) as [->|Hne].
      + (* the empty expected move is falsy: nothing is accepted *)
        unfold isCorrectMove. rewrite Hi. simpl. split; [done |].
        by intros (e & [= <-] & He & _).
      + rewrite (isCorrectMove_unfold _ _ _ Hi Hne).
        rewrite orb_true_iff, andb_true_iff, orb_true_iff,
          !bool_decide_eq_true.
        split.
        * intros Hc. by exists expectedMove.
        * by intros (e & [= <-] & _ & Hc).
    - unfold isCorrectMove. rewrite Hi. split; [done |].
      by intros (e & [=] & _). }
  split; [exact Hiff | split].
  - intros moveStr Hmove. rewrite Hiff. split.
    + intros (e & He & _ & Hm). by exists e.
    + intros (e & He & Hm). exists e. split; [done | split; [| done]].
      intros ->. destruct Hm as [E | [E _]]; [done |].
      simpl in E. destruct moveStr; [done | discriminate E].
  - intros squares p q Hlen Hi. apply Hiff.
    eexists. split; [exact Hi |]. split.
    + intros E. apply (f_equal JS.chars) in E. rewrite chars_str in E.
      by destruct squares.
    + right. rewrite !chars_str, !take_app_length'; try done.
      split; [done | left].
      by rewrite <- chars_length, chars_str, length_app, Hlen.
Qed.

(** The solver at its first move of a puzzle whose solution promotes to a
    queen accepts the same pawn move promoting to a knight. *)
Lemma C9_isCorrectMove_accepts_witness :
  "e7e8n" ≠ ""
  ∧ isCorrectMove {| solution := ["e7e8q"]; currentMoveIndex := -1 |}
                  "e7e8n" = true.
Proof.
  split; [discriminate |].
  apply (proj1 (proj2 (C9_isCorrectMove_accepts
                  {| solution := ["e7e8q"]; currentMoveIndex := -1 |}))
           "e7e8n" ltac:(discriminate)).
  exists "e7e8q". split; [reflexivity |]. right. split; [reflexivity |].
  left. reflexivity.
Defined.

End StudentPuzzleSolverFacts.

(** ** The puzzle creator's solution form *)

Section PuzzleCreatorFacts.
Import PuzzleCreator.

Lemma class_files (c : ascii) :
  existsb (JS.in_range c) [("a", "h")%char] = bool_decide (c ∈ Spec.files).
Proof. by destruct c as [[] [] [] [] [] [] [] []]; vm_compute. Qed.

Lemma class_ranks (c : ascii) :
  existsb (JS.in_range c) [("1", "8")%char] = bool_decide (c ∈ Spec.ranks).
Proof. by destruct c as [[] [] [] [] [] [] [] []]; vm_compute. Qed.

Lemma class_promotions (c : ascii) :
  existsb (JS.in_range c)
          [("q","q"); ("r","r"); ("b","b"); ("n","n"); ("k","k")]%char
  = bool_decide (c ∈ Spec.promotions).
Proof. by destruct c as [[] [] [] [] [] [] [] []]; vm_compute. Qed.

(** A class followed by [r] consumes one character, then runs [r]. *)
Lemma matches_Cat_Class (rs : list (ascii * ascii)) (r : JS.RegExp)
      (l : list ascii) :
  JS.matches (JS.Cat (JS.Class rs) r) l =
    match l with
    | c :: l' => if existsb (JS.in_range c) rs then JS.matches r l' else []
    | [] => []
    end.
Proof.
  simpl. destruct l as [|c l']; [done |].
  destruct (existsb _ _); simpl; [apply app_nil_r | done].
Qed.

Lemma matches_Opt_Class (rs : list (ascii * ascii)) (l : list ascii) :
  JS.matches (JS.Opt (JS.Class rs)) l =
    match l with
    | c :: l' => if existsb (JS.in_range c) rs then [l'; l] else [l]
    | [] => [[]]
    end.
Proof. simpl. destruct l as [|c l']; [done |]. by destruct (existsb _ _). Qed.

(** The matcher run on [uciRegExp], written out on the characters. *)
Lemma test_uciRegExp (t : string) :
  JS.test uciRegExp t =
    match JS.chars t with
    | [f1; r1; f2; r2] =>
        bool_decide (f1 ∈ Spec.files) && bool_decide (r1 ∈ Spec.ranks)
        && bool_decide (f2 ∈ Spec.files) && bool_decide (r2 ∈ Spec.ranks)
    | [f1; r1; f2; r2; p] =>
        bool_decide (f1 ∈ Spec.files) && bool_decide (r1 ∈ Spec.ranks)
        && bool_decide (f2 ∈ Spec.files) && bool_decide (r2 ∈ Spec.ranks)
        && bool_decide (p ∈ Spec.promotions)
    | _ => false
    end.
Proof.
  unfold JS.test, uciRegExp, file, rank, promotion.
  destruct (JS.chars t) as [|f1 [|r1 [|f2 [|r2 [|p [|x l]]]]]];
    repeat (rewrite matches_Cat_Class; cbv beta iota);
    rewrite ?matches_Opt_Class; cbv beta iota;
    rewrite ?class_files, ?class_ranks, ?class_promotions;
    repeat (case_bool_decide; try reflexivity); reflexivity.
Qed.

Lemma test_uciRegExp_UciMove (t : string) :
  JS.test uciRegExp t = true ↔ Spec.UciMove t.
Proof.
  rewrite test_uciRegExp. unfold Spec.UciMove. split.
  - destruct (JS.chars t) as [|f1 [|r1 [|f2 [|r2 [|p [|x l]]]]]];
      try discriminate; rewrite !andb_true_iff, !bool_decide_eq_true.
    + intros (((? & ?) & ?) & ?). exists f1, r1, f2, r2, []. naive_solver.
    + intros ((((? & ?) & ?) & ?) & ?).
      exists f1, r1, f2, r2, [p]. naive_solver.
  - intros (f1 & r1 & f2 & r2 & promo & -> & ? & ? & ? & ? & Hp).
    destruct Hp as [-> | (p & -> & ?)]; simpl;
      rewrite !andb_true_iff, !bool_decide_eq_true; naive_solver.
Qed.

(** The length test of [isValidUCI] follows from the anchored pattern. *)
Lemma UciMove_length (t : string) :
  Spec.UciMove t → String.length t = 4%nat ∨ String.length t = 5%nat.
Proof.
  intros (f1 & r1 & f2 & r2 & promo & E & _ & _ & _ & _ & Hp).
  rewrite <- chars_length, E.
  destruct Hp as [-> | (p & -> & _)]; simpl; auto.
Qed.

Lemma isValidUCI_Forall (moves : list string) :
  isValidUCI moves = true ↔ Forall Spec.UciMove moves.
Proof.
  unfold isValidUCI. rewrite forallb_forall, Forall_forall.
  split; intros Hall move Hin.
  - apply list_elem_of_In, Hall in Hin.
    apply andb_true_iff in Hin as [_ Ht]. by apply test_uciRegExp_UciMove.
  - apply list_elem_of_In, Hall in Hin. apply andb_true_iff. split.
    + apply UciMove_length in Hin. unfold JS.length.
      apply orb_true_iff. destruct Hin as [-> | ->]; auto.
    + by apply test_uciRegExp_UciMove.
Qed.

(** *** Trimming, splitting and the words of a text *)

Lemma ends_clean_tail (c : ascii) (l : list ascii) :
  ends_clean (c :: l) → ends_clean l.
Proof.
  unfold ends_clean. rewrite last_cons. by destruct (last l).
Qed.

Lemma ends_clean_ws (c : ascii) (l : list ascii) :
  ends_clean (c :: l) → JS.isWhiteSpace c = true → l ≠ [].
Proof. intros Hc Hw ->. unfold ends_clean in Hc. simpl in Hc. congruence. Qed.

Lemma split_ws_words (l : list ascii) :
  ends_clean l →
  (∀ cur, cur ≠ [] ∨ (∃ c l', l = c :: l' ∧ JS.isWhiteSpace c = false) →
          JS.split_ws_from false cur l = Spec.words_from cur l)
  ∧ (l ≠ [] → JS.split_ws_from true [] l = Spec.words_from [] l).
Proof.
  induction l as [|c l IH]; intros Hend.
  - split; [| done]. intros cur [Hcur | (c & l' & [=] & _)].
    simpl. by destruct cur.
  - destruct (IH (ends_clean_tail _ _ Hend)) as [IHa IHb].
    destruct (JS.isWhiteSpace c) eqn:Hw; split.
    + intros cur [Hcur | (c' & l' & [= <- <-] & Hc')]; [| congruence].
      simpl. rewrite Hw. destruct cur as [|x cur]; [done |].
      f_equal. apply IHb. by eapply ends_clean_ws.
    + intros _. simpl. rewrite Hw. apply IHb. by eapply ends_clean_ws.
    + intros cur _. simpl. rewrite Hw. apply IHa. by left.
    + intros _. simpl. rewrite Hw. apply IHa. by left.
Qed.

Lemma trimStart_split (l : list ascii) :
  ∃ w, l = (w ++ JS.trimStart l)%list
       ∧ Forall (fun c => JS.isWhiteSpace c = true) w.
Proof.
  induction l as [|c l (w & E & Hw)]; [by exists [] |].
  simpl. destruct (JS.isWhiteSpace c) eqn:Hc.
  - exists (c :: w). split; [by rewrite <- app_comm_cons, <- E | by constructor].
  - by exists [].
Qed.

Lemma trimStart_head (l l' : list ascii) (c : ascii) :
  JS.trimStart l = c :: l' → JS.isWhiteSpace c = false.
Proof.
  induction l as [|x l IH]; [done |]. simpl.
  destruct (JS.isWhiteSpace x) eqn:Hx; [done |]. by intros [= <- _].
Qed.

Lemma trimStart_ends_clean (l : list ascii) :
  ends_clean l → ends_clean (JS.trimStart l).
Proof.
  induction l as [|c l IH]; [done |]. intros Hend. simpl.
  destruct (JS.isWhiteSpace c); [| done]. by eapply IH, ends_clean_tail.
Qed.

Lemma words_from_ws (cur w : list ascii) :
  Forall (fun c => JS.isWhiteSpace c = true) w →
  Spec.words_from cur w = Spec.words_from cur [].
Proof.
  intros Hw. revert cur. induction Hw as [|c w Hc _ IH]; [done |].
  intros cur. simpl. rewrite Hc.
  destruct cur as [|x cur]; [apply IH |]. by rewrite IH.
Qed.

Lemma words_from_app_ws (l w cur : list ascii) :
  Forall (fun c => JS.isWhiteSpace c = true) w →
  Spec.words_from cur (l ++ w) = Spec.words_from cur l.
Proof.
  intros Hw. revert cur. induction l as [|c l IH]; intros cur.
  - by apply words_from_ws.
  - simpl. destruct (JS.isWhiteSpace c); [| apply IH].
    destruct cur; by rewrite IH.
Qed.

Lemma words_from_ws_app (w l : list ascii) :
  Forall (fun c => JS.isWhiteSpace c = true) w →
  Spec.words_from [] (w ++ l) = Spec.words_from [] l.
Proof. induction 1 as [|c w Hc _ IH]; [done |]. simpl. by rewrite Hc. Qed.

Lemma trimEnd_split (l : list ascii) :
  ∃ w, l = (JS.trimEnd l ++ w)%list
       ∧ Forall (fun c => JS.isWhiteSpace c = true) w.
Proof.
  unfold JS.trimEnd. destruct (trimStart_split (rev l)) as (w & E & Hw).
  exists (rev w). split.
  - rewrite <- rev_app_distr, <- E. by rewrite rev_involutive.
  - apply Forall_forall. intros c Hc. rewrite Forall_forall in Hw.
    apply Hw. by rewrite list_elem_of_In, in_rev, <- list_elem_of_In.
Qed.

Lemma trimEnd_ends_clean (l : list ascii) : ends_clean (JS.trimEnd l).
Proof.
  unfold JS.trimEnd, ends_clean.
  destruct (JS.trimStart (rev l)) as [|c x] eqn:E; [done |].
  simpl. rewrite last_snoc. by eapply trimStart_head.
Qed.

Lemma trimEnd_head (l : list ascii) (c : ascii) :
  JS.isWhiteSpace c = false →
  ∃ l', JS.trimEnd (c :: l) = c :: l'.
Proof.
  intros Hc. destruct (trimEnd_split (c :: l)) as (w & E & Hw).
  destruct (JS.trimEnd (c :: l)) as [|d y].
  - simpl in E. subst w. apply Forall_cons in Hw as [Hw _]. congruence.
  - injection E as <- _. by exists y.
Qed.

(** A word that has been begun is delivered. *)
Lemma words_from_pending (c : ascii) (cur l : list ascii) :
  ∃ w ws, Spec.words_from (c :: cur) l = w :: ws.
Proof.
  revert c cur. induction l as [|d l IH]; intros c cur; simpl; [eauto |].
  destruct (JS.isWhiteSpace d); [eauto | apply IH].
Qed.

(** The pieces of the trimmed input are its words; a blank input has the
    single empty piece. *)
Lemma split_ws_trim_words (s : string) :
  JS.split_ws (JS.trim s) =
    match Spec.words s with
    | [] => [""]
    | ws => ws
    end.
Proof.
  unfold JS.split_ws, JS.trim, Spec.words. rewrite chars_str.
  set (t := JS.trimEnd (JS.trimStart (JS.chars s))).
  assert (Hw : Spec.words_from [] (JS.chars s) = Spec.words_from [] t).
  { destruct (trimStart_split (JS.chars s)) as (w & E & Hw).
    destruct (trimEnd_split (JS.trimStart (JS.chars s))) as (w' & E' & Hw').
    rewrite E at 1. rewrite words_from_ws_app by done.
    rewrite E'. by rewrite words_from_app_ws. }
  rewrite Hw.
  destruct (JS.trimStart (JS.chars s)) as [|c x] eqn:Hs.
  - subst t. done.
  - destruct (trimEnd_head x c (trimStart_head _ _ _ Hs)) as (y & Hy).
    assert (Hend : ends_clean t) by apply trimEnd_ends_clean.
    subst t. rewrite Hy in *.
    destruct (split_ws_words _ Hend) as [Ha _].
    rewrite Ha.
    + simpl. rewrite (trimStart_head _ _ _ Hs).
      by destruct (words_from_pending c [] y) as (w & ws & ->).
    + right. exists c, y. split; [done |]. by eapply trimStart_head.
Qed.

(** C4. [handleSolutionSubmit] accepts the entered text exactly when
    every piece of the trimmed text, split on white space, is a UCI move
    string; then the pieces become the solution, in order; otherwise the
    state, and so the stored solution, is unchanged. *)
Theorem C4_handleSolutionSubmit_validates (st : State) :
  let tokens := JS.split_ws (JS.trim (solutionInput st)) in
  (snd (handleSolutionSubmit st) = None ↔ Forall Spec.UciMove tokens)
  ∧ (Forall Spec.UciMove tokens →
     fst (handleSolutionSubmit st)
     = {| solutionInput := ""; solution := tokens;
          currentMoveIndex := -1; isPlaying := false |})
  ∧ (¬ Forall Spec.UciMove tokens →
     handleSolutionSubmit st = (st, Some InvalidUCIFormat))
  ∧ tokens = match Spec.words (solutionInput st) with
             | [] => [""]
             | ws => ws
             end.
Proof.
  intros tokens. unfold handleSolutionSubmit. fold tokens.
  pose proof (isValidUCI_Forall tokens) as Hv.
  destruct (isValidUCI tokens); simpl.
  - assert (Forall Spec.UciMove tokens) by by apply Hv.
    repeat split; try done. apply split_ws_trim_words.
  - assert (¬ Forall Spec.UciMove tokens).
    { intros Hall. apply Hv in Hall. discriminate. }
    repeat split; try done. apply split_ws_trim_words.
Qed.

End PuzzleCreatorFacts.

(** ** The classroom board *)

Section ClassroomBoardFacts.
Import ClassroomBoard.
Context `{ChessJs}.

Lemma step_keeps_socket (st : State) (e : Event) :
  socket st ≠ None → socket (fst (step st e)) ≠ None.
Proof.
  destruct e; simpl; try done.
  - unfold on_board_update. by destruct (load _ _).
  - unfold handleMove. destruct (negb _); [done |].
    destruct (move _ _ _ _); [| done].
    by destruct (new_Chess_from _).
Qed.

Lemma run_keeps_socket (es : list Event) (st : State) :
  socket st ≠ None → socket (run st es) ≠ None.
Proof.
  revert st. induction es as [|e es IH]; intros st Hs; [done |].
  apply IH. by apply step_keeps_socket.
Qed.

(** A mounted component holds its socket. *)
Lemma lifetime_socket (es : list Event) :
  lifetime es → socket (run initialState es) ≠ None.
Proof.
  destruct es as [|[] es]; try done. intros _.
  change (socket (run (mount classId initialState) es) ≠ None).
  by apply run_keeps_socket.
Qed.

Lemma on_board_update_game (st : State) (f : string) (newGame : Chess) :
  load new_Chess f = Some newGame → game (on_board_update f st) = newGame.
Proof. intros Hl. unfold on_board_update. by rewrite Hl. Qed.

Lemma run_app (st : State) (es1 es2 : list Event) :
  run st (es1 ++ es2) = run (run st es1) es2.
Proof. apply fold_left_app. Qed.

(** C5. After a legal local move of a mounted, connected board,
    [handleMove] sets the local game to the new position and emits one
    [board_update] message that holds the FEN of that game; a received
    [board_update] replaces the local game by a fresh game loaded from
    the received FEN, whatever the local position was and leaving the
    rest of the state alone; so after any sequence of received updates
    the game is the one of the last message. *)
Theorem C5_board_update_last_write_wins :
  (∀ es sourceSquare targetSquare moved newGame,
     lifetime es →
     isConnected (run initialState es) = true →
     move (game (run initialState es)) sourceSquare targetSquare "q"%char
       = Some moved →
     load new_Chess (fen moved) = Some newGame →
     ∃ st',
       handleMove sourceSquare targetSquare (run initialState es)
         = (true, st', [Emit "board_update" (fen (game st'))])
       ∧ game st' = newGame)
  ∧ (∀ st f newGame,
       load new_Chess f = Some newGame →
       on_board_update f st = setGame newGame st)
  ∧ (∀ st1 st2 f newGame,
       load new_Chess f = Some newGame →
       game (on_board_update f st1) = game (on_board_update f st2))
  ∧ (∀ st fs f newGame,
       load new_Chess f = Some newGame →
       game (run st (BoardUpdate <$> (fs ++ [f])%list)) = newGame).
Proof.
  repeat split.
  - intros es src tgt moved newGame Hlife Hconn Hmove Hload.
    pose proof (lifetime_socket es Hlife) as Hsock.
    unfold handleMove, new_Chess_from, emit_board_update.
    rewrite Hconn, Hmove, Hload. simpl.
    destruct (socket (run initialState es)); [| done].
    by exists (updateMoveHistory newGame
                (setGame newGame (run initialState es))).
  - intros st f newGame Hl. unfold on_board_update. by rewrite Hl.
  - intros st1 st2 f newGame Hl. by rewrite !(on_board_update_game _ _ _ Hl).
  - intros st fs f newGame Hl.
    rewrite fmap_app, run_app. simpl.
    by apply on_board_update_game.
Qed.

End ClassroomBoardFacts.

(** With the stand-in rules engine: a board is mounted and connected, the
    pawn move e2e4 is played, and the message carries the new position. *)
Lemma C5_board_update_last_write_wins_witness :
  let es := [ClassroomBoard.Mount "c1"; ClassroomBoard.Connect] in
  ClassroomBoard.lifetime es
  ∧ ∃ st',
      ClassroomBoard.handleMove "e2" "e4"
        (ClassroomBoard.run ClassroomBoard.initialState es)
      = (true, st',
         [ClassroomBoard.Emit "board_update"
            "rnbqkbnr/pppppppp/8/8/8/8/PPPPPPPP/RNBQKBNR w KQkq - 0 1 e2e4"])
      ∧ ClassroomBoard.fen (ClassroomBoard.game st')
        = "rnbqkbnr/pppppppp/8/8/8/8/PPPPPPPP/RNBQKBNR w KQkq - 0 1 e2e4".
Proof.
  intros es. split; [exact I |].
  destruct (proj1 (@C5_board_update_last_write_wins TextChess)
              es "e2" "e4"
              ("rnbqkbnr/pppppppp/8/8/8/8/PPPPPPPP/RNBQKBNR w KQkq - 0 1 e2e4",
               ["e2e4"])
              ("rnbqkbnr/pppppppp/8/8/8/8/PPPPPPPP/RNBQKBNR w KQkq - 0 1 e2e4",
               [])
              I eq_refl eq_refl eq_refl) as (st' & Hm & Hg).
  exists st'. rewrite Hm, Hg. split; reflexivity.
Defined.

(** ** The server: the models *)

Lemma bind_Ok {A B} (r : Result A) (k : A → Result B) (b : B) :
  r ≫= k = Ok b → ∃ a, r = Ok a ∧ k a = Ok b.
Proof. destruct r as [a|e]; [by exists a | done]. Qed.

Ltac inv_bind H :=
  repeat (let a := fresh "x" in let E := fresh "E" in
          apply bind_Ok in H as (a & E & H); simpl in H).

(** Destruct the innermost scrutinee of a [match] of the goal. *)
Ltac break_match :=
  match goal with
  | |- context [match ?x with _ => _ end] =>
      lazymatch x with
      | context [match _ with _ => _ end] => fail
      | _ => destruct x eqn:?
      end
  end.

Lemma require_Ok {A} (e : Error) (o : option A) (a : A) :
  require e o = Ok a → o = Some a.
Proof. destruct o; simpl; congruence. Qed.

Section ModelFacts.
Import Models.
Context `{Platform}.

Lemma castObjectId_Ok (s s' : string) :
  castObjectId s = Ok s' → s' = s ∧ isObjectId s = true.
Proof. unfold castObjectId. by destruct (isObjectId s); intros [=]. Qed.

Lemma castObjectId_true (s : string) :
  isObjectId s = true → castObjectId s = Ok s.
Proof. unfold castObjectId. by intros ->. Qed.

Lemma castObjectId_false (s : string) :
  isObjectId s = false → castObjectId s = Throw CastError.
Proof. unfold castObjectId. by intros ->. Qed.

Lemma traverse_castObjectId_Ok (l l' : list string) :
  traverse castObjectId l = Ok l' → l' = l.
Proof.
  revert l'. induction l as [|x l IH]; intros l'; simpl; [by intros [=] |].
  unfold mbind, Result_bind.
  destruct (castObjectId x) as [y|] eqn:Ex; [| done].
  apply castObjectId_Ok in Ex as [-> _].
  destruct (traverse castObjectId l) as [l0|]; [| done].
  intros [= <-]. by rewrite (IH l0).
Qed.

Lemma insertNew_Ok {A} (id : string) (d : A) (c c' : gmap string A) :
  insertNew id d c = Ok c' → c !! id = None ∧ c' = <[id := d]> c.
Proof. unfold insertNew. destruct (c !! id); naive_solver. Qed.

Lemma findOneAndUpdate_cases {A} (id : string) (f : A → bool)
      (u : A → A) (c : gmap string A) :
  (∃ d, c !! id = Some d ∧ f d = true
        ∧ findOneAndUpdate id f u c = (Some (u d), <[id := u d]> c))
  ∨ ((∀ d, c !! id = Some d → f d = false)
     ∧ findOneAndUpdate id f u c = (None, c)).
Proof.
  unfold findOneAndUpdate. destruct (c !! id) as [d|] eqn:E.
  - destruct (f d) eqn:Hf; [left; by exists d | right].
    split; [| done]. by intros ? [= <-].
  - right. split; [| done]. by intros ? [=].
Qed.

Lemma findOneAndDelete_cases {A} (id : string) (f : A → bool)
      (c : gmap string A) :
  (∃ d, c !! id = Some d ∧ f d = true
        ∧ findOneAndDelete id f c = (Some d, delete id c))
  ∨ ((∀ d, c !! id = Some d → f d = false)
     ∧ findOneAndDelete id f c = (None, c)).
Proof.
  unfold findOneAndDelete. destruct (c !! id) as [d|] eqn:E.
  - destruct (f d) eqn:Hf; [left; by exists d | right].
    split; [| done]. by intros ? [= <-].
  - right. split; [| done]. by intros ? [=].
Qed.

(** What a successful [UserModel.create] stores. *)
Lemma UserModel_create_Ok (env : Env) (o : Obj) (db db' : Db)
      (id : string) (u : User.t) :
  UserModel_create env o db = Ok (id, u, db') →
  users db !! id = None
  ∧ db' = setUsers (<[id := u]> (users db)) db
  ∧ requiredString o "password" = Ok (User.password u)
  ∧ (∃ r, requiredString o "role" = Ok r ∧ Role_of_string r = Some (User.role u)).
Proof.
  unfold UserModel_create. intros Hc. inv_bind Hc.
  match goal with
  | E : insertNew _ _ _ = Ok _ |- _ => apply insertNew_Ok in E as [Hnone ->]
  end.
  injection Hc as <- <- <-. simpl.
  do 3 (split; [done |]).
  match goal with
  | E : require _ (Role_of_string ?r) = Ok _ |- _ =>
      exists r; apply require_Ok in E
  end.
  by split.
Qed.

Lemma PuzzleModel_create_Ok (env : Env) (o : Obj) (db db' : Db)
      (id : string) (p : Puzzle.t) :
  PuzzleModel_create env o db = Ok (id, p, db') →
  puzzles db !! id = None ∧ db' = setPuzzles (<[id := p]> (puzzles db)) db.
Proof.
  unfold PuzzleModel_create. intros Hc. inv_bind Hc.
  match goal with
  | E : insertNew _ _ _ = Ok _ |- _ => apply insertNew_Ok in E as [Hnone ->]
  end.
  by injection Hc as <- <- <-.
Qed.

End ModelFacts.

(** ** The server: storage and routes *)

Ltac unfold_routes :=
  unfold Routes.dispatch, Routes.requireCoach, Routes.usesRequireCoach,
    Routes.handler, Routes.post_login, Routes.post_logout, Routes.get_user,
    Routes.post_students, Routes.get_students, Routes.post_puzzles,
    Routes.get_puzzle_ids, Routes.get_puzzles, Routes.post_assignments,
    Routes.get_student_puzzles, Routes.get_my_assignments,
    Routes.get_my_completed, Routes.get_my, Routes.post_assignment_complete,
    Routes.post_assignment_attempt, Routes.delete_student_puzzle,
    Routes.post_class_schedules, Routes.get_class_schedules_coach,
    Routes.get_class_schedules_student, Routes.post_class_schedule_start,
    Routes.post_class_schedule_end, Routes.post_class_schedule_attend,
    Routes.put_profile, Routes.put_preferences, Routes.get_preferences,
    Routes.post_puzzles_update, Routes.post_puzzles_delete,
    Routes.studentOnly, Routes.catch;
  unfold mbind, Result_bind; cbv beta.

Section StorageFacts.
Import Models Storage.
Context `{Platform}.

Lemma requiredString_lookup (o : Obj) (k s s' : string) :
  o !! k = Some (JS.JStr s) → requiredString o k = Ok s' → s' = s.
Proof.
  unfold requiredString. intros ->. rewrite castString_JStr. simpl.
  destruct (negb _); simpl; congruence.
Qed.

(** What a successful [createStudent] stores, whatever [data] holds. *)
Lemma createStudent_Ok (env : Env) (data : Obj) (db db' : Db)
      (uo : UserObject) :
  createStudent env data db = Ok (uo, db') →
  users db !! _id uo = None
  ∧ db' = setUsers (<[_id uo := doc uo]> (users db)) db
  ∧ User.role (doc uo) = student
  ∧ User.password (doc uo)
    = Auth.hashPassword (randomBytes16 env) "student123".
Proof.
  unfold createStudent. intros Hc. inv_bind Hc.
  destruct x as [[id u] db'']. injection Hc as <- <-. simpl.
  match goal with
  | E : UserModel_create _ _ _ = Ok _ |- _ =>
      apply UserModel_create_Ok in E as (Hnone & -> & Hpw & r & Hr & Hrole)
  end.
  do 2 (split; [done |]). split.
  - apply requiredString_lookup with (s := "student") in Hr;
      [| by simplify_map_eq].
    subst r. by injection Hrole as <-.
  - eapply requiredString_lookup; [| exact Hpw].
    by simplify_map_eq.
Qed.

Lemma createUser_Ok (env : Env) (userData : Obj) (db db' : Db)
      (uo : UserObject) :
  createUser env userData db = Ok (uo, db') →
  users db !! _id uo = None
  ∧ db' = setUsers (<[_id uo := doc uo]> (users db)) db.
Proof.
  unfold createUser. intros Hc. inv_bind Hc.
  destruct x as [[id u] db'']. injection Hc as <- <-. simpl.
  match goal with
  | E : UserModel_create _ _ _ = Ok _ |- _ =>
      apply UserModel_create_Ok in E as (Hnone & -> & _)
  end.
  done.
Qed.

Lemma users_change_grows (us us' : gmap string User.t) (id : string) :
  users_change us us' → is_Some (us !! id) → is_Some (us' !! id).
Proof.
  intros [|id' u Hn|id' u u' Hs] Hid; [done | |];
    (destruct (decide (id' = id)) as [->|Hne];
     [rewrite lookup_insert_eq; eauto | by rewrite lookup_insert_ne]).
Qed.

Lemma findOneAndUpdate_users (id : string) (f : User.t → bool)
      (g : User.t → User.t) (us : gmap string User.t) :
  users_change us (snd (findOneAndUpdate id f g us)).
Proof.
  destruct (findOneAndUpdate_cases id f g us)
    as [(d & Hd & _ & ->) | (_ & ->)]; simpl.
  - by eapply users_update.
  - apply users_same.
Qed.

Lemma exec_users (env : Env) (op : Op) (db : Db) :
  users_change (users db) (users (exec env op db)).
Proof.
  destruct op; simpl; try apply users_same.
  - destruct (createUser _ _ _) as [[uo db']|] eqn:E; [| apply users_same].
    apply createUser_Ok in E as (Hn & ->). by apply users_insert.
  - destruct (createStudent _ _ _) as [[uo db']|] eqn:E; [| apply users_same].
    apply createStudent_Ok in E as (Hn & -> & _). by apply users_insert.
  - unfold updatePreferences.
    pose proof (findOneAndUpdate_users userId (λ _, true)
      (λ u, {| User.username := User.username u;
               User.password := User.password u;
               User.name := User.name u; User.email := User.email u;
               User.avatar := User.avatar u; User.role := User.role u;
               User.preferences := preferences;
               User.createdAt := User.createdAt u |}) (users db)) as Hc.
    destruct (findOneAndUpdate _ _ _ _) as [[u|] us]; simpl in *;
      [done | apply users_same].
  - unfold updateProfile.
    match goal with
    | |- context [findOneAndUpdate ?i ?f ?g ?c] =>
        pose proof (findOneAndUpdate_users i f g c) as Hc;
        destruct (findOneAndUpdate i f g c) as [[u|] us]; simpl in *;
        [done | apply users_same]
    end.
Qed.

Lemma setupAuth_users (env : Env) (db : Db) :
  users_change (users db) (users (setupAuth env db)).
Proof.
  unfold setupAuth. destruct (getUserByUsername _ _); [apply users_same |].
  destruct (createUser _ _ _) as [[uo db']|] eqn:E; [| apply users_same].
  apply createUser_Ok in E as (Hn & ->). by apply users_insert.
Qed.

End StorageFacts.

Section RoutesFacts.
Import Models Storage Schema Routes.
Context `{Platform}.

Lemma ClassScheduleModel_create_Ok (env : Env) (data : InsertClassSchedule)
      (db db' : Db) (id : string) (s : ClassSchedule.t) :
  ClassScheduleModel_create env data db = Ok (id, s, db') →
  classSchedules db !! id = None
  ∧ db' = setClassSchedules (<[id := s]> (classSchedules db)) db
  ∧ ClassSchedule.status s = not_started.
Proof.
  unfold ClassScheduleModel_create. intros Hc. inv_bind Hc.
  match goal with
  | E : insertNew _ _ _ = Ok _ |- _ => apply insertNew_Ok in E as [Hnone ->]
  end.
  by injection Hc as <- <- <-.
Qed.

Ltac invert_creates :=
  repeat match goal with
  | E : castObjectId _ = Ok _ |- _ =>
      apply castObjectId_Ok in E as [-> ?]
  | E : createStudent _ _ _ = Ok (_, _) |- _ =>
      apply createStudent_Ok in E as (? & -> & ? & ?)
  | E : PuzzleModel_create _ _ _ = Ok (_, _, _) |- _ =>
      apply PuzzleModel_create_Ok in E as (? & ->)
  | E : ClassScheduleModel_create _ _ _ = Ok (_, _, _) |- _ =>
      apply ClassScheduleModel_create_Ok in E as (? & -> & ?)
  | E : insertNew _ _ _ = Ok _ |- _ =>
      apply insertNew_Ok in E as (? & ->)
  end.

(** Read the outcome of a conditional update or delete. *)
Ltac invert_finds :=
  repeat match goal with
  | E : findOneAndUpdate ?i ?f ?g ?c = _ |- _ =>
      destruct (findOneAndUpdate_cases i f g c)
        as [(? & ? & ? & Hfind) | (? & Hfind)];
      rewrite Hfind in E; clear Hfind; simplify_eq
  | E : findOneAndDelete ?i ?f ?c = _ |- _ =>
      destruct (findOneAndDelete_cases i f c)
        as [(? & ? & ? & Hfind) | (? & Hfind)];
      rewrite Hfind in E; clear Hfind; simplify_eq
  end.

Ltac bools :=
  repeat match goal with
  | E : negb _ = true |- _ => apply negb_true_iff in E
  | E : negb _ = false |- _ => apply negb_false_iff in E
  | E : _ && _ = true |- _ => apply andb_true_iff in E as [? ?]
  | E : String.eqb _ _ = true |- _ => apply String.eqb_eq in E
  | E : bool_decide _ = true |- _ => apply bool_decide_eq_true in E
  | E : bool_decide _ = false |- _ => apply bool_decide_eq_false in E
  end.

Lemma dispatch_users (env : Env) (user : option UserObject) (r : Request)
      (db : Db) :
  users_change (users db) (users (snd (dispatch env user r db))).
Proof.
  destruct r; unfold_routes.
  all: repeat break_match; invert_creates; simplify_eq/=.
  all: try apply users_same.
  all: try (by apply users_insert).
  all: try apply findOneAndUpdate_users.
  match goal with
  | E : findOneAndUpdate ?i ?f ?g ?c = (_, ?us) |- users_change ?c ?us =>
      pose proof (findOneAndUpdate_users i f g c) as Hc;
      by rewrite E in Hc
  end.
Qed.


Lemma dispatch_assignments (env : Env) (user : option UserObject)
      (r : Request) (db : Db) :
  assignments_change env user r (assignments db)
                     (assignments (snd (dispatch env user r db))).
Proof.
  destruct r; unfold_routes.
  all: repeat break_match; invert_creates; invert_finds; simplify_eq/=.
  all: try apply assignments_same.
  - by apply assignments_create.
  - bools. by eapply assignments_complete.
  - bools. by eapply assignments_attempt.
  - bools. by eapply assignments_delete.
Qed.


End RoutesFacts.

(** ** The server: the properties of the specification *)

Section ServerProperties.
Import Models Storage Schema Routes.
Context `{Platform}.

Lemma hasRole_false (r : Role) (user : option UserObject) :
  hasRole r user = false ↔
  user = None ∨ ∃ u, user = Some u ∧ User.role (doc u) ≠ r.
Proof.
  destruct user as [u|]; simpl.
  - rewrite bool_decide_eq_false. split.
    + intros Hn. right. by exists u.
    + by intros [[=] | (u' & [= <-] & Hn)].
  - split; [by left | done].
Qed.

Lemma coachOnly_usesRequireCoach (r : Request) :
  Spec.coachOnly r = true → usesRequireCoach r = true.
Proof. by destruct r. Qed.

(** Storage operations and the start of the server touch the users
    only. *)
Lemma exec_frame (env : Env) (op : Op) (db : Db) :
  puzzles (exec env op db) = puzzles db
  ∧ assignments (exec env op db) = assignments db
  ∧ classSchedules (exec env op db) = classSchedules db.
Proof.
  destruct op; simpl; try done.
  - destruct (createUser _ _ _) as [[uo db']|] eqn:E; [| done].
    by apply createUser_Ok in E as (_ & ->).
  - destruct (createStudent _ _ _) as [[uo db']|] eqn:E; [| done].
    by apply createStudent_Ok in E as (_ & -> & _).
  - unfold updatePreferences.
    by destruct (findOneAndUpdate _ _ _ _) as [[u|] us].
  - unfold updateProfile.
    by destruct (findOneAndUpdate _ _ _ _) as [[u|] us].
Qed.

Lemma setupAuth_frame (env : Env) (db : Db) :
  puzzles (setupAuth env db) = puzzles db
  ∧ assignments (setupAuth env db) = assignments db
  ∧ classSchedules (setupAuth env db) = classSchedules db.
Proof.
  unfold setupAuth. destruct (getUserByUsername _ _); [done |].
  destruct (createUser _ _ _) as [[uo db']|] eqn:E; [| done].
  by apply createUser_Ok in E as (_ & ->).
Qed.

(** C3. On each coach-only route the specification lists, a request
    whose session user is absent or is not a coach is answered 403 with
    "Coach access required" and leaves the database as it was, the
    handler not being run; a request of a coach is answered by the
    handler of the route. *)
Theorem C3_requireCoach_gates_coach_routes
        (env : Env) (user : option UserObject) (r : Request) (db : Db) :
  Spec.coachOnly r = true →
  ((user = None ∨ ∃ u, user = Some u ∧ User.role (doc u) ≠ coach) →
   dispatch env user r db
   = (Reply 403 (Message "Coach access required"), db))
  ∧ ((∃ u, user = Some u ∧ User.role (doc u) = coach) →
     dispatch env user r db = handler env user r db).
Proof.
  intros Hr. apply coachOnly_usesRequireCoach in Hr.
  unfold dispatch, requireCoach. rewrite Hr. split.
  - intros Hu. apply hasRole_false in Hu. by rewrite Hu.
  - intros (u & -> & Hu). simpl. by rewrite bool_decide_eq_true_2.
Qed.






(** C10. Whatever [data] holds, also a role or a password of its own, a
    student account that [createStudent] creates is stored under a new
    id with role [student] and, as password, the hexadecimal scrypt key
    of "student123" under the salt drawn for the call, a dot, and that
    salt; every user stored before is kept as it was, the other
    collections are untouched, and the state is the one the storage
    operation leaves. *)
Theorem C10_created_student_role_and_password
        (env : Env) (data : Obj) (db db' : Db) (uo : UserObject) :
  createStudent env data db = Ok (uo, db') →
  let salt := Auth.toHex (randomBytes16 env) in
  users db !! _id uo = None
  ∧ users db' !! _id uo = Some (doc uo)
  ∧ User.role (doc uo) = student
  ∧ User.password (doc uo)
    = Auth.toHex (scrypt "student123" salt 64) ++ "." ++ salt
  ∧ (∀ id, id ≠ _id uo → users db' !! id = users db !! id)
  ∧ (puzzles db' = puzzles db
     ∧ assignments db' = assignments db
     ∧ classSchedules db' = classSchedules db)
  ∧ exec env (CreateStudent data) db = db'.
Proof.
  intros Hc salt. subst salt.
  assert (He : exec env (CreateStudent data) db = db')
    by (simpl; by rewrite Hc).
  apply createStudent_Ok in Hc as (Hn & -> & Hr & Hp). simpl.
  split; [done |]. split; [by rewrite lookup_insert_eq |].
  do 2 (split; [done |]).
  split; [intros id Hne; by rewrite lookup_insert_ne |].
  done.
Qed.

Lemma step_users (e : Event) (db : Db) :
  users_change (users db) (users (step db e)).
Proof.
  destruct e; simpl.
  - apply dispatch_users.
  - apply exec_users.
  - apply setupAuth_users.
Qed.

(** C8. No request, no storage operation and no start of the server
    removes a user: the set of stored user ids only grows, over one event
    and over any sequence of events. *)
Theorem C8_users_only_grow :
  (∀ e db, dom (users db) ⊆ dom (users (step db e)))
  ∧ (∀ es db, dom (users db) ⊆ dom (users (run db es))).
Proof.
  assert (Hstep : ∀ e db, dom (users db) ⊆ dom (users (step db e))).
  { intros e db id. rewrite !elem_of_dom.
    apply users_change_grows, step_users. }
  split; [exact Hstep |].
  induction es as [|e es IH]; intros db; [done |].
  simpl. etrans; [apply Hstep | apply IH].
Qed.

Lemma completed_kept (env : Env) (user : option UserObject) (r : Request)
      (asg asg' : gmap string Assignment.t) (id : string)
      (a : Assignment.t) :
  assignments_change env user r asg asg' →
  asg !! id = Some a → Assignment.completed a = true →
  ∃ a', asg' !! id = Some a' ∧ Assignment.completed a' = true.
Proof.
  intros Hch Ha Hc.
  destruct Hch as [|id' a' Hn _|id' body u a' moves _ _ _ Ha' _ Hc' _
                   |id' body u a' moves _ _ _ Ha' _ _|sid id' a' _ Ha' _ Hc'].
  - by exists a.
  - exists a. split; [| done]. rewrite lookup_insert_ne; [done | congruence].
  - destruct (decide (id' = id)) as [->|Hne]; [congruence |].
    exists a. by rewrite lookup_insert_ne.
  - destruct (decide (id' = id)) as [->|Hne].
    + rewrite lookup_insert_eq. eexists. split; [done |]. simpl. congruence.
    + exists a. by rewrite lookup_insert_ne.
  - destruct (decide (id' = id)) as [->|Hne]; [congruence |].
    exists a. by rewrite lookup_delete_ne.
Qed.

Lemma step_completed_kept (e : Event) (db : Db) (id : string)
      (a : Assignment.t) :
  assignments db !! id = Some a → Assignment.completed a = true →
  ∃ a', assignments (step db e) !! id = Some a'
        ∧ Assignment.completed a' = true.
Proof.
  intros Ha Hc. destruct e as [env user r|env op|env]; simpl.
  - eapply completed_kept; [apply dispatch_assignments | done | done].
  - destruct (exec_frame env op db) as (_ & -> & _). by exists a.
  - destruct (setupAuth_frame env db) as (_ & -> & _). by exists a.
Qed.







End ServerProperties.

(** ** The properties on the sample data *)

Section Witnesses.
Import Models Storage Routes.

(** A listing of the students without a session is refused. *)
Lemma C3_requireCoach_gates_coach_routes_witness :
  Spec.coachOnly GetStudents = true
  ∧ dispatch (Sample.env 5 Id.x) None GetStudents (Sample.db false)
    = (Reply 403 (Message "Coach access required"), Sample.db false).
Proof.
  split; [reflexivity |].
  apply (proj1 (@C3_requireCoach_gates_coach_routes SimplePlatform
                  (Sample.env 5 Id.x) None GetStudents (Sample.db false)
                  eq_refl)).
  left. reflexivity.
Defined.




(** Data that asks for the role [coach] and a password of its own still
    creates a student with the default password. *)
Lemma C10_created_student_role_and_password_witness :
  ∃ uo db',
    createStudent (Sample.env 5 Id.s2) Sample.studentData (Sample.db false)
    = Ok (uo, db')
    ∧ _id uo = Id.s2
    ∧ User.username (doc uo) = "bob"
    ∧ users (Sample.db false) !! Id.s2 = None
    ∧ users db' !! Id.s2 = Some (doc uo)
    ∧ User.role (doc uo) = student
    ∧ User.password (doc uo)
      = Auth.toHex (simple_scrypt "student123" "73616c74" 64)
        ++ ".73616c74".
Proof.
  assert (Hc : ∃ uo db',
    createStudent (Sample.env 5 Id.s2) Sample.studentData (Sample.db false)
    = Ok (uo, db')
    ∧ _id uo = Id.s2 ∧ User.username (doc uo) = "bob").
  { do 2 eexists. split; [vm_compute; reflexivity | split; reflexivity]. }
  destruct Hc as (uo & db' & Hc & Hid & Hname).
  exists uo, db'. do 3 (split; [assumption |]).
  rewrite <- Hid.
  destruct (@C10_created_student_role_and_password SimplePlatform
              (Sample.env 5 Id.s2) Sample.studentData (Sample.db false)
              db' uo Hc) as (Hn & Hs & Hr & Hp & _).
  do 3 (split; [assumption |]). exact Hp.
Defined.

(** The start of the server on the sample database keeps its users. *)
Lemma C8_users_only_grow_witness :
  dom (users (Sample.db false))
  ⊆ dom (users (step (Sample.db false) (Startup (Sample.env 5 Id.c2)))).
Proof.
  apply (proj1 (@C8_users_only_grow SimplePlatform)).
Defined.




(** The text " e2e4  e7e8q " is accepted and yields the two moves. *)
Lemma C4_handleSolutionSubmit_validates_witness :
  let st := {| PuzzleCreator.solutionInput := " e2e4  e7e8q ";
               PuzzleCreator.solution := [];
               PuzzleCreator.currentMoveIndex := 0;
               PuzzleCreator.isPlaying := true |} in
  PuzzleCreator.solution (fst (PuzzleCreator.handleSolutionSubmit st))
  = ["e2e4"; "e7e8q"].
Proof.
  intros st.
  rewrite (proj1 (proj2 (C4_handleSolutionSubmit_validates st)));
    [reflexivity |].
  apply isValidUCI_Forall. reflexivity.
Defined.

End Witnesses.

(* ===================================================================== *)
(** * Part III: more properties of the code                               *)
(* ===================================================================== *)

(** ** server/auth.ts *)

Lemma chars_app (s t : string) :
  JS.chars (s ++ t) = (JS.chars s ++ JS.chars t)%list.
Proof. induction s as [|c s IH]; simpl; [done | by rewrite IH]. Qed.

Lemma hex_byte (b : ascii) :
  match Auth.hexValue (Auth.hexDigit (nat_of_ascii b / 16)),
        Auth.hexValue (Auth.hexDigit (nat_of_ascii b mod 16)) with
  | Some x, Some y => Some (ascii_of_nat (16 * x + y))
  | _, _ => None
  end = Some b.
Proof. by destruct b as [[] [] [] [] [] [] [] []]; vm_compute. Qed.

Lemma fromHex_toHex (bytes : list ascii) :
  Auth.fromHex (Auth.toHex bytes) = bytes.
Proof.
  induction bytes as [|b bytes IH]; [done |].
  cbn [Auth.toHex Auth.fromHex].
  pose proof (hex_byte b) as Hb.
  destruct (Auth.hexValue (Auth.hexDigit (nat_of_ascii b / 16))) as [x|];
    [| done].
  destruct (Auth.hexValue (Auth.hexDigit (nat_of_ascii b mod 16))) as [y|];
    [| done].
  injection Hb as Hb. rewrite IH. f_equal. exact Hb.
Qed.

Lemma hexDigit_lower (n : nat) :
  Auth.hexDigit n ∈ JS.chars "0123456789abcdef".
Proof.
  do 16 (destruct n as [|n]; [by apply (bool_decide_unpack _) |]).
  by apply (bool_decide_unpack _).
Qed.

(** X1. The hexadecimal text of a buffer has two lower-case digits for
    each byte, and decoding it gives the buffer back:
    [Buffer.from(buf.toString("hex"), "hex")] is [buf]. *)
Theorem X1_hex_round_trip (bytes : list ascii) :
  Auth.fromHex (Auth.toHex bytes) = bytes
  ∧ String.length (Auth.toHex bytes) = (2 * List.length bytes)%nat
  ∧ Forall (λ c, c ∈ JS.chars "0123456789abcdef")
           (JS.chars (Auth.toHex bytes)).
Proof.
  split; [apply fromHex_toHex | split].
  - induction bytes as [|b bytes IH]; [done |].
    cbn [Auth.toHex String.length List.length]. rewrite IH. lia.
  - induction bytes as [|b bytes IH]; [constructor |].
    cbn [Auth.toHex JS.chars list_ascii_of_string].
    apply Forall_cons. split; [apply hexDigit_lower |].
    apply Forall_cons. split; [apply hexDigit_lower | exact IH].
Qed.

Lemma split_from_cons (c : ascii) (l cur : list ascii) :
  ∃ p ps, Auth.split_from c cur l = p :: ps.
Proof.
  revert cur. induction l as [|x l IH]; intros cur; simpl; [eauto |].
  destruct (Ascii.eqb x c); [eauto | apply IH].
Qed.

Lemma concat_cons (sep x : string) (xs : list string) :
  xs ≠ [] → String.concat sep (x :: xs) = x ++ sep ++ String.concat sep xs.
Proof. by destruct xs. Qed.

Lemma split_from_concat (c : ascii) (l cur : list ascii) :
  String.concat (String c "") (Auth.split_from c cur l)
  = JS.str (rev cur ++ l).
Proof.
  revert cur. induction l as [|x l IH]; intros cur.
  - simpl. by rewrite app_nil_r.
  - cbn [Auth.split_from]. destruct (Ascii.eqb_spec x c) as [->|Hne].
    + destruct (split_from_cons c l []) as (p & ps & Hp).
      rewrite concat_cons by (by rewrite Hp). rewrite (IH []).
      apply chars_inj. by rewrite !chars_app, !chars_str.
    + rewrite IH. simpl. by rewrite <- app_assoc.
Qed.

Lemma split_from_pieces (c : ascii) (l cur : list ascii) :
  c ∉ cur →
  Forall (λ piece, c ∉ JS.chars piece) (Auth.split_from c cur l).
Proof.
  revert cur. induction l as [|x l IH]; intros cur Hcur.
  - simpl. constructor; [| done]. rewrite chars_str.
    by rewrite list_elem_of_In, <- in_rev, <- list_elem_of_In.
  - cbn [Auth.split_from]. destruct (Ascii.eqb_spec x c) as [->|Hne].
    + constructor; [| apply IH; apply not_elem_of_nil].
      rewrite chars_str.
      by rewrite list_elem_of_In, <- in_rev, <- list_elem_of_In.
    + apply IH. apply not_elem_of_cons. by split; [apply not_eq_sym |].
Qed.

(** X2. [s.split(c)] cuts [s] at every [c] and nowhere else: joining the
    pieces with [c] gives [s] back, no piece holds [c], and there is at
    least one piece. *)
Theorem X2_split_join (c : ascii) (s : string) :
  String.concat (String c "") (Auth.split c s) = s
  ∧ Forall (λ piece, c ∉ JS.chars piece) (Auth.split c s)
  ∧ Auth.split c s ≠ [].
Proof.
  unfold Auth.split. split; [| split].
  - rewrite split_from_concat. simpl. apply str_chars.
  - apply split_from_pieces, not_elem_of_nil.
  - by destruct (split_from_cons c (JS.chars s) []) as (p & ps & ->).
Qed.

Lemma hexDigit_not_dot (n : nat) : Auth.hexDigit n ≠ "."%char.
Proof. do 16 (destruct n as [|n]; [discriminate |]). discriminate. Qed.

Lemma toHex_no_dot (bytes : list ascii) :
  "."%char ∉ JS.chars (Auth.toHex bytes).
Proof.
  induction bytes as [|b bytes IH]; simpl; [apply not_elem_of_nil |].
  rewrite !not_elem_of_cons. repeat split; try done;
    apply not_eq_sym, hexDigit_not_dot.
Qed.

Lemma split_from_no_sep (c : ascii) (l cur : list ascii) :
  c ∉ l → Auth.split_from c cur l = [JS.str (rev cur ++ l)].
Proof.
  revert cur. induction l as [|x l IH]; intros cur Hc; simpl.
  - by rewrite app_nil_r.
  - apply not_elem_of_cons in Hc as [Hx Hl].
    destruct (Ascii.eqb_spec x c) as [->|_]; [done |].
    rewrite IH by done. simpl. by rewrite <- app_assoc.
Qed.

Lemma split_two (c : ascii) (s t : string) :
  c ∉ JS.chars s → c ∉ JS.chars t →
  Auth.split c (s ++ String c t) = [s; t].
Proof.
  intros Hs Ht. unfold Auth.split. rewrite chars_app. simpl.
  assert (Hgen : ∀ l cur, c ∉ l →
            Auth.split_from c cur (l ++ c :: JS.chars t)
            = [JS.str (rev cur ++ l); t]).
  { induction l as [|x l IH]; intros cur Hl; simpl.
    - rewrite Ascii.eqb_refl, app_nil_r.
      rewrite split_from_no_sep by done. simpl. by rewrite str_chars.
    - apply not_elem_of_cons in Hl as [Hx Hl].
      destruct (Ascii.eqb_spec x c) as [->|_]; [done |].
      rewrite IH by done. simpl. by rewrite <- app_assoc. }
  rewrite Hgen by done. simpl. by rewrite str_chars.
Qed.

Section AuthFacts.
Context `{Platform}.

Lemma comparePasswords_hashed (randomBytes : list ascii)
      (password supplied : string) :
  Auth.comparePasswords supplied (Auth.hashPassword randomBytes password)
  = Auth.timingSafeEqual
      (scrypt password (Auth.toHex randomBytes) 64)
      (scrypt supplied (Auth.toHex randomBytes) 64).
Proof.
  unfold Auth.comparePasswords, Auth.hashPassword. cbv zeta.
  change (Auth.toHex (scrypt password (Auth.toHex randomBytes) 64)
          ++ "." ++ Auth.toHex randomBytes)
    with (Auth.toHex (scrypt password (Auth.toHex randomBytes) 64)
          ++ String "." (Auth.toHex randomBytes)).
  rewrite split_two by apply toHex_no_dot.
  by rewrite fromHex_toHex.
Qed.

Lemma comparePasswords_own (randomBytes : list ascii) (password : string) :
  Auth.comparePasswords password (Auth.hashPassword randomBytes password)
  = Ok true.
Proof.
  rewrite comparePasswords_hashed. unfold Auth.timingSafeEqual.
  by rewrite Nat.eqb_refl, bool_decide_eq_true_2.
Qed.

(** X3. A password verifies against its own hash, whatever salt was
    drawn; another password verifies exactly when it derives the same
    key, provided its key has the same length (else the comparison
    raises). *)
Theorem X3_comparePasswords_hashPassword
        (randomBytes : list ascii) (password : string) :
  Auth.comparePasswords password (Auth.hashPassword randomBytes password)
  = Ok true
  ∧ ∀ supplied,
      let salt := Auth.toHex randomBytes in
      Auth.comparePasswords supplied (Auth.hashPassword randomBytes password)
      = if (List.length (scrypt password salt 64)
            =? List.length (scrypt supplied salt 64))%nat
        then Ok (bool_decide (scrypt password salt 64
                              = scrypt supplied salt 64))
        else Throw RangeError.
Proof.
  split; [apply comparePasswords_own |].
  intros supplied salt. by rewrite comparePasswords_hashed.
Qed.

End AuthFacts.

(** ** server/storage.ts *)

Section MoreStorageFacts.
Import Models Storage.
Context `{Platform}.

Lemma getUserByUsername_Some (n : string) (db : Db) (uo : UserObject) :
  getUserByUsername n db = Some uo →
  users db !! _id uo = Some (doc uo) ∧ User.username (doc uo) = n.
Proof.
  unfold getUserByUsername.
  destruct (List.find _ _) as [[id u]|] eqn:E; [| done].
  intros [= <-]. apply find_some in E as [Hin Hn]. simpl in *.
  apply String.eqb_eq in Hn.
  by apply list_elem_of_In, elem_of_map_to_list in Hin.
Qed.

Lemma getUserByUsername_None (n : string) (db : Db) :
  getUserByUsername n db = None ↔
  ∀ id u, users db !! id = Some u → User.username u ≠ n.
Proof.
  unfold getUserByUsername. split.
  - destruct (List.find _ _) as [[id u]|] eqn:E; [done |]. intros _ id u Hu.
    apply elem_of_map_to_list, list_elem_of_In in Hu.
    pose proof (find_none _ _ E _ Hu) as Hn. simpl in Hn.
    by apply String.eqb_neq in Hn.
  - intros Hall. destruct (List.find _ _) as [[id u]|] eqn:E; [| done].
    apply find_some in E as [Hin Hn]. simpl in *.
    apply String.eqb_eq in Hn.
    apply list_elem_of_In, elem_of_map_to_list in Hin.
    by destruct (Hall id u Hin).
Qed.

Lemma getUserByUsername_only (n : string) (db : Db) (id : string)
      (u : User.t) :
  users db !! id = Some u → User.username u = n →
  (∀ j v, users db !! j = Some v → User.username v = n → j = id) →
  getUserByUsername n db = Some (mkUserObject id u).
Proof.
  intros Hu Hn Honly.
  destruct (getUserByUsername n db) as [[id' u']|] eqn:E.
  - apply getUserByUsername_Some in E as [Hu' Hn']. simpl in *.
    assert (id' = id) as -> by by eapply Honly.
    congruence.
  - by destruct (proj1 (getUserByUsername_None n db) E id u Hu).
Qed.

(** X4. [getUserByUsername] answers a stored user of that name, with its
    id; it answers [null] exactly when no stored user has the name; and
    while usernames are unique it finds every stored user by its name. *)
Theorem X4_getUserByUsername_finds (n : string) (db : Db) :
  (∀ uo, getUserByUsername n db = Some uo →
         users db !! _id uo = Some (doc uo) ∧ User.username (doc uo) = n)
  ∧ (getUserByUsername n db = None ↔
     ∀ id u, users db !! id = Some u → User.username u ≠ n)
  ∧ (unique_usernames (users db) →
     ∀ id u, users db !! id = Some u → User.username u = n →
             getUserByUsername n db = Some (mkUserObject id u)).
Proof.
  split; [apply getUserByUsername_Some | split].
  - apply getUserByUsername_None.
  - intros Huniq id u Hu Hn. apply getUserByUsername_only; [done .. |].
    intros j v Hv Hn'. eapply Huniq; [done | done | congruence].
Qed.

(** X5. [getStudents] lists exactly the stored users whose role is
    [student], each once and with its id. *)
Theorem X5_getStudents_lists_students (db : Db) :
  (∀ uo, uo ∈ getStudents db ↔
         users db !! _id uo = Some (doc uo)
         ∧ User.role (doc uo) = student)
  ∧ NoDup (getStudents db).
Proof.
  unfold getStudents, find. split.
  - intros uo. rewrite list_elem_of_fmap. split.
    + intros ([id u] & -> & Hin). simpl.
      apply list_elem_of_In, filter_In in Hin as [Hin Hr]. simpl in Hr.
      apply bool_decide_eq_true in Hr.
      by apply list_elem_of_In, elem_of_map_to_list in Hin.
    + intros [Hu Hr]. exists (_id uo, doc uo). split; [by destruct uo |].
      apply list_elem_of_In, filter_In. split.
      * by apply list_elem_of_In, elem_of_map_to_list.
      * simpl. by apply bool_decide_eq_true.
  - apply NoDup_fmap_2.
    + intros [i u] [j v] [= -> ->]. done.
    + apply NoDup_ListNoDup, List.NoDup_filter, NoDup_ListNoDup,
        NoDup_map_to_list.
Qed.

End MoreStorageFacts.

(** ** server/routes.ts: what the events keep *)

Ltac read_bools :=
  repeat match goal with
  | E : negb _ = true |- _ => apply negb_true_iff in E
  | E : negb _ = false |- _ => apply negb_false_iff in E
  | E : _ && _ = true |- _ => apply andb_true_iff in E as [? ?]
  | E : String.eqb _ _ = true |- _ => apply String.eqb_eq in E
  | E : bool_decide _ = true |- _ => apply bool_decide_eq_true in E
  | E : bool_decide _ = false |- _ => apply bool_decide_eq_false in E
  | E : Routes.isBefore _ _ = false |- _ =>
      unfold Routes.isBefore in E; apply Z.ltb_ge in E
  | E : Routes.isBefore _ _ = true |- _ =>
      unfold Routes.isBefore in E; apply Z.ltb_lt in E
  end.

Ltac read_finds :=
  repeat match goal with
  | E : Models.findOneAndUpdate ?i ?f ?g ?c = _ |- _ =>
      destruct (findOneAndUpdate_cases i f g c)
        as [(? & ? & ? & Hfind) | (? & Hfind)];
      rewrite Hfind in E; clear Hfind; simplify_eq
  | E : Models.findOneAndDelete ?i ?f ?c = _ |- _ =>
      destruct (findOneAndDelete_cases i f c)
        as [(? & ? & ? & Hfind) | (? & Hfind)];
      rewrite Hfind in E; clear Hfind; simplify_eq
  end.

Section EvolutionFacts.
Import Models Storage Schema Routes.
Context `{Platform}.

Lemma UserModel_create_free (env : Env) (o : Obj) (db db' : Db)
      (id : string) (u : User.t) :
  UserModel_create env o db = Ok (id, u, db') →
  ∀ j v, users db !! j = Some v → User.username v ≠ User.username u.
Proof.
  unfold UserModel_create. intros Hc. inv_bind Hc.
  match goal with
  | E : insertNew _ _ _ = Ok _ |- _ => apply insertNew_Ok in E as [Hnone ->]
  end.
  injection Hc as <- <- <-. simpl.
  match goal with
  | E : guard _ ?b = Ok _ |- _ => destruct b eqn:Hg; [| discriminate E]
  end.
  apply negb_true_iff, bool_decide_eq_false in Hg.
  intros j v Hv Heq. apply Hg, Exists_exists.
  exists (j, v). split; [by apply elem_of_map_to_list | done].
Qed.

Lemma createStudent_free (env : Env) (data : Obj) (db db' : Db)
      (uo : UserObject) :
  createStudent env data db = Ok (uo, db') →
  ∀ j v, users db !! j = Some v → User.username v ≠ User.username (doc uo).
Proof.
  unfold createStudent. intros Hc. inv_bind Hc.
  destruct x as [[id u] db'']. injection Hc as <- <-. simpl.
  by eapply UserModel_create_free.
Qed.

Lemma createUser_free (env : Env) (userData : Obj) (db db' : Db)
      (uo : UserObject) :
  createUser env userData db = Ok (uo, db') →
  ∀ j v, users db !! j = Some v → User.username v ≠ User.username (doc uo).
Proof.
  unfold createUser. intros Hc. inv_bind Hc.
  destruct x as [[id u] db'']. injection Hc as <- <-. simpl.
  by eapply UserModel_create_free.
Qed.

Lemma findOneAndUpdate_users_step (id : string) (f : User.t → bool)
      (g : User.t → User.t) (us : gmap string User.t) :
  (∀ u, User.username (g u) = User.username u
        ∧ User.role (g u) = User.role u
        ∧ User.createdAt (g u) = User.createdAt u) →
  users_step us (snd (findOneAndUpdate id f g us)).
Proof.
  intros Hg.
  destruct (findOneAndUpdate_cases id f g us)
    as [(d & Hd & _ & ->) | (_ & ->)]; simpl.
  - destruct (Hg d) as (? & ? & ?). by eapply users_step_update.
  - apply users_step_same.
Qed.

Lemma dispatch_users_step (env : Env) (user : option UserObject)
      (r : Request) (db : Db) :
  users_step (users db) (users (snd (dispatch env user r db))).
Proof.
  destruct r; unfold_routes.
  all: repeat break_match.
  all: repeat match goal with
       | E : createStudent _ _ _ = Ok (_, _) |- _ =>
           pose proof (createStudent_free _ _ _ _ _ E);
           apply createStudent_Ok in E as (? & -> & ? & ?)
       | E : PuzzleModel_create _ _ _ = Ok (_, _, _) |- _ =>
           apply PuzzleModel_create_Ok in E as (? & ->)
       | E : ClassScheduleModel_create _ _ _ = Ok (_, _, _) |- _ =>
           apply ClassScheduleModel_create_Ok in E as (? & -> & ?)
       | E : insertNew _ _ _ = Ok _ |- _ =>
           apply insertNew_Ok in E as (? & ->)
       end; simplify_eq/=.
  all: try apply users_step_same.
  all: try (by apply users_step_insert).
  all: try (by apply findOneAndUpdate_users_step).
  match goal with
  | E : findOneAndUpdate ?i ?f ?g ?c = (_, ?us) |- users_step ?c ?us =>
      pose proof (findOneAndUpdate_users_step i f g c) as Hc;
      rewrite E in Hc; by apply Hc
  end.
Qed.

Lemma exec_users_step (env : Env) (op : Op) (db : Db) :
  users_step (users db) (users (exec env op db)).
Proof.
  destruct op; simpl; try apply users_step_same.
  - destruct (createUser _ _ _) as [[uo db']|] eqn:E;
      [| apply users_step_same].
    pose proof (createUser_free _ _ _ _ _ E).
    apply createUser_Ok in E as (Hn & ->). by apply users_step_insert.
  - destruct (createStudent _ _ _) as [[uo db']|] eqn:E;
      [| apply users_step_same].
    pose proof (createStudent_free _ _ _ _ _ E).
    apply createStudent_Ok in E as (Hn & -> & _). by apply users_step_insert.
  - unfold updatePreferences.
    match goal with
    | |- context [findOneAndUpdate ?i ?f ?g ?c] =>
        pose proof (findOneAndUpdate_users_step i f g c) as Hc;
        destruct (findOneAndUpdate i f g c) as [[u|] us]; simpl in *;
        [by apply Hc | apply users_step_same]
    end.
  - unfold updateProfile.
    match goal with
    | |- context [findOneAndUpdate ?i ?f ?g ?c] =>
        pose proof (findOneAndUpdate_users_step i f g c) as Hc;
        destruct (findOneAndUpdate i f g c) as [[u|] us]; simpl in *;
        [by apply Hc | apply users_step_same]
    end.
Qed.

Lemma setupAuth_users_step (env : Env) (db : Db) :
  users_step (users db) (users (setupAuth env db)).
Proof.
  unfold setupAuth.
  destruct (getUserByUsername _ _); [apply users_step_same |].
  destruct (createUser _ _ _) as [[uo db']|] eqn:E; [| apply users_step_same].
  pose proof (createUser_free _ _ _ _ _ E).
  apply createUser_Ok in E as (Hn & ->). by apply users_step_insert.
Qed.

Lemma step_users_step (e : Event) (db : Db) :
  users_step (users db) (users (step db e)).
Proof.
  destruct e; simpl.
  - apply dispatch_users_step.
  - apply exec_users_step.
  - apply setupAuth_users_step.
Qed.

Lemma users_step_unique (us us' : gmap string User.t) :
  users_step us us' → unique_usernames us → unique_usernames us'.
Proof.
  intros [|id u Hn Hfree|id u u' Hu Hname _ _] Huniq; [done | |];
    intros i j a b Ha Hb Hab;
    destruct (decide (id = i)) as [Ei|Hi], (decide (id = j)) as [Ej|Hj];
    try congruence; subst;
    rewrite ?lookup_insert_eq in Ha; rewrite ?lookup_insert_eq in Hb;
    try rewrite lookup_insert_ne in Ha by done;
    try rewrite lookup_insert_ne in Hb by done; simplify_eq.
  - by destruct (Hfree j b Hb).
  - by destruct (Hfree i a Ha).
  - by eapply Huniq.
  - eapply Huniq; [done | done | congruence].
  - eapply Huniq; [done | done | congruence].
  - by eapply Huniq.
Qed.

(** X6. Usernames stay unique: every event keeps the property that no
    two stored users share a username, so it holds after every sequence
    of events from a database that has it, the empty one among them. *)
Theorem X6_usernames_stay_unique :
  (∀ e db, unique_usernames (users db) →
           unique_usernames (users (step db e)))
  ∧ (∀ es db, unique_usernames (users db) →
              unique_usernames (users (run db es)))
  ∧ (∀ es, unique_usernames (users (run emptyDb es))).
Proof.
  assert (Hstep : ∀ e db, unique_usernames (users db) →
                          unique_usernames (users (step db e))).
  { intros e db. apply users_step_unique, step_users_step. }
  assert (Hrun : ∀ es db, unique_usernames (users db) →
                          unique_usernames (users (run db es))).
  { induction es as [|e es IH]; intros db Hu; [done |].
    simpl. by apply IH, Hstep. }
  split; [exact Hstep | split; [exact Hrun |]].
  intros es. apply Hrun. intros i j u v Hu. simpl in Hu.
  by rewrite lookup_empty in Hu.
Qed.

(** X7. No event renames a user, changes its role or its creation time:
    a stored user is still stored afterwards, with the same username,
    role and [createdAt], over every sequence of events. *)
Theorem X7_user_identity_is_kept :
  ∀ es db id u,
    users db !! id = Some u →
    ∃ u', users (run db es) !! id = Some u'
          ∧ User.username u' = User.username u
          ∧ User.role u' = User.role u
          ∧ User.createdAt u' = User.createdAt u.
Proof.
  induction es as [|e es IH]; intros db id u Hu; [by exists u |].
  simpl.
  assert (Hstep : ∃ u1, users (step db e) !! id = Some u1
          ∧ User.username u1 = User.username u
          ∧ User.role u1 = User.role u
          ∧ User.createdAt u1 = User.createdAt u).
  { destruct (step_users_step e db) as [|id' v Hn _|id' v v' Hv Hname Hrole Hc].
    - by exists u.
    - exists u. rewrite lookup_insert_ne; [done | congruence].
    - destruct (decide (id' = id)) as [->|Hne].
      + exists v'. rewrite lookup_insert_eq. simplify_eq. done.
      + exists u. by rewrite lookup_insert_ne. }
  destruct Hstep as (u1 & Hu1 & Hn1 & Hr1 & Hc1).
  destruct (IH _ _ _ Hu1) as (u' & Hu' & Hn' & Hr' & Hc').
  exists u'. split; [done |]. split; [congruence |]. split; congruence.
Qed.

End EvolutionFacts.

Section ScheduleFacts.
Import Models Storage Schema Routes.
Context `{Platform}.

Lemma existsb_eqb_elem (x : string) (l : list string) :
  existsb (String.eqb x) l = true ↔ x ∈ l.
Proof.
  rewrite existsb_exists. split.
  - intros (y & Hin & Heq). apply String.eqb_eq in Heq as ->.
    by apply list_elem_of_In.
  - intros Hin. exists x. split; [by apply list_elem_of_In |].
    apply String.eqb_refl.
Qed.

Lemma hasRole_true (r : Role) (user : option UserObject) :
  hasRole r user = true → ∃ u, user = Some u ∧ User.role (doc u) = r.
Proof.
  destruct user as [u|]; [| done]. simpl. intros Hr.
  apply bool_decide_eq_true in Hr. by exists u.
Qed.

Lemma lookup_setProp_ne (k k' : string) (v : option JS.JSON) (o : Obj) :
  k ≠ k' → setProp k v o !! k' = o !! k'.
Proof.
  intros Hne. unfold setProp. destruct v.
  - by rewrite lookup_insert_ne.
  - by rewrite lookup_delete_ne.
Qed.

Lemma lookup_setProp_eq (k : string) (v : option JS.JSON) (o : Obj) :
  setProp k v o !! k = v.
Proof.
  unfold setProp. destruct v.
  - by rewrite lookup_insert_eq.
  - by rewrite lookup_delete_eq.
Qed.

(** What the parse reads is what the object holds. *)
Lemma insertClassScheduleSchema_parse_Ok (o : Obj)
      (data : InsertClassSchedule) :
  insertClassScheduleSchema_parse o = Ok data →
  o !! "coachId" = Some (JS.JStr (ics_coachId data))
  ∧ o !! "meetingUrl" = Some (JS.JStr (ics_meetingUrl data))
  ∧ (∃ p, o !! "meetingProvider" = Some (JS.JStr p)
          ∧ MeetingProvider_of_string p = Some (ics_meetingProvider data))
  ∧ o !! "title" = Some (JS.JStr (ics_title data))
  ∧ ics_title data ≠ "".
Proof.
  unfold insertClassScheduleSchema_parse. intros Hp. inv_bind Hp.
  injection Hp as <-. simpl.
  unfold zStringMin, zUrl, zProvider in *.
  repeat match goal with
  | E : mbind _ _ = Ok _ |- _ => inv_bind E; simplify_eq
  end.
  unfold zString in *.
  repeat match goal with
  | E : match ?o !! ?k with _ => _ end = Ok _ |- _ =>
      destruct (o !! k) as [[]|] eqn:?; simplify_eq
  | E : require _ _ = Ok _ |- _ => apply require_Ok in E
  end.
  all: split; [done |]; split; [done |]; split; [by eexists |];
    split; [done |].
  all: intros ->; simpl in *; discriminate.
Qed.

Lemma ClassScheduleModel_create_fields (env : Env)
      (data : InsertClassSchedule) (db db' : Db) (id : string)
      (s : ClassSchedule.t) :
  ClassScheduleModel_create env data db = Ok (id, s, db') →
  id = newObjectId env
  ∧ ClassSchedule.title s = ics_title data
  ∧ ClassSchedule.coachId s = ics_coachId data
  ∧ ClassSchedule.meetingUrl s = ics_meetingUrl data
  ∧ ClassSchedule.meetingProvider s = ics_meetingProvider data
  ∧ ClassSchedule.status s = not_started
  ∧ ClassSchedule.actualStartTime s = None
  ∧ ClassSchedule.actualEndTime s = None
  ∧ ClassSchedule.attendees s = []
  ∧ ClassSchedule.createdAt s = now env.
Proof.
  unfold ClassScheduleModel_create. intros Hc. inv_bind Hc.
  match goal with
  | E : castObjectId _ = Ok _ |- _ => apply castObjectId_Ok in E as [-> _]
  end.
  by injection Hc as <- <- <-.
Qed.

Lemma userId_Ok (user : option UserObject) (uid : string) :
  userId user = Ok uid → ∃ u, user = Some u ∧ _id u = uid.
Proof. destruct user as [u|]; [| done]. intros [= <-]. by exists u. Qed.

Lemma dispatch_schedules_step (env : Env) (user : option UserObject)
      (r : Request) (db : Db) :
  schedules_step env user (classSchedules db)
                 (classSchedules (snd (dispatch env user r db))).
Proof.
  destruct r; unfold_routes.
  all: repeat break_match.
  all: repeat match goal with
       | E : createStudent _ _ _ = Ok (_, _) |- _ =>
           apply createStudent_Ok in E as (? & -> & ? & ?)
       | E : PuzzleModel_create _ _ _ = Ok (_, _, _) |- _ =>
           apply PuzzleModel_create_Ok in E as (? & ->)
       | E : ClassScheduleModel_create _ _ _ = Ok (_, _, _) |- _ =>
           pose proof (ClassScheduleModel_create_fields _ _ _ _ _ _ E);
           apply ClassScheduleModel_create_Ok in E as (? & -> & ?)
       | E : insertNew _ _ _ = Ok _ |- _ =>
           apply insertNew_Ok in E as (? & ->)
       end; read_finds; simplify_eq/=.
  all: try apply schedules_step_same.
  - (* create *)
    read_bools.
    match goal with
    | E : hasRole coach user = true |- _ =>
        apply hasRole_true in E as (u & -> & Hu)
    end.
    match goal with
    | E : userId _ = Ok _ |- _ => apply userId_Ok in E as (u' & [= <-] & <-)
    end.
    match goal with
    | E : insertClassScheduleSchema_parse _ = Ok _ |- _ =>
        apply insertClassScheduleSchema_parse_Ok in E as (Hco & _)
    end.
    rewrite !lookup_setProp_ne in Hco by done.
    rewrite lookup_insert_ne, lookup_insert_ne, lookup_insert_eq in Hco
      by done.
    destruct_and!. eapply schedules_step_create; try done. congruence.
  - (* start *)
    read_bools.
    match goal with
    | E : hasRole coach user = true |- _ =>
        apply hasRole_true in E as (u & -> & Hu)
    end.
    simplify_eq/=. by eapply schedules_step_start.
  - (* end *)
    read_bools.
    match goal with
    | E : hasRole coach user = true |- _ =>
        apply hasRole_true in E as (u & -> & Hu)
    end.
    simplify_eq/=. by eapply schedules_step_end.
  - (* attend *)
    read_bools.
    eapply schedules_step_attend; try done.
    + by apply existsb_eqb_elem.
    + intros Hin. apply existsb_eqb_elem in Hin. congruence.
Qed.

End ScheduleFacts.

Section ScheduleProperties.
Import Models Storage Schema Routes.
Context `{Platform}.







Lemma addToSet_new (id : string) (l : list string) :
  id ∉ l → addToSet id l = (l ++ [id])%list.
Proof.
  intros Hn. unfold addToSet.
  destruct (existsb (String.eqb id) l) eqn:E; [| done].
  by apply existsb_eqb_elem in E.
Qed.


End ScheduleProperties.

Ltac read_creates :=
  repeat match goal with
  | E : Models.castObjectId _ = Ok _ |- _ =>
      apply castObjectId_Ok in E as [-> ?]
  | E : Storage.createStudent _ _ _ = Ok (_, _) |- _ =>
      apply createStudent_Ok in E as (? & -> & ? & ?)
  | E : Models.PuzzleModel_create _ _ _ = Ok (_, _, _) |- _ =>
      apply PuzzleModel_create_Ok in E as (? & ->)
  | E : Routes.ClassScheduleModel_create _ _ _ = Ok (_, _, _) |- _ =>
      apply ClassScheduleModel_create_Ok in E as (? & -> & ?)
  | E : Models.insertNew _ _ _ = Ok _ |- _ =>
      apply insertNew_Ok in E as (? & ->)
  end.

Section AccessFacts.
Import Models Storage Schema Routes.
Context `{Platform}.

(** X10. A request without a logged-in user changes nothing, and unless
    it is a login, a logout or the puzzle listing it is answered 401 or
    403. *)
Theorem X10_anonymous_requests_change_nothing (env : Env) (r : Request)
        (db : Db) :
  snd (dispatch env None r db) = db
  ∧ (public r = false →
     ∃ b, fst (dispatch env None r db) = Reply 401 b
          ∨ fst (dispatch env None r db) = Reply 403 b).
Proof.
  split.
  - destruct r; unfold_routes; simpl; repeat break_match; by simplify_eq/=.
  - destruct r; simpl; try discriminate; intros _; unfold_routes; simpl;
      eauto.
Qed.

(** X11. Whoever sends it, a login, a logout or a GET request leaves the
    database as it found it. *)
Theorem X11_reads_change_nothing (env : Env) (user : option UserObject)
        (r : Request) (db : Db) :
  readOnly r = true → snd (dispatch env user r db) = db.
Proof.
  destruct r; simpl; try discriminate; intros _; unfold_routes; simpl;
    repeat break_match; by simplify_eq/=.
Qed.

End AccessFacts.

Section StudentFacts.
Import Models Storage Schema Routes.
Context `{Platform}.

(** X12. What a logged-in student can change: no puzzle; no user but
    the one of the session, and no user is added or removed; no
    assignment of another student, and no assignment is added or removed;
    no class schedule other than by being added at the end of the
    attendees of a class the student is enrolled in. *)
Theorem X12_student_requests_are_confined (env : Env) (u : UserObject)
        (r : Request) (db : Db) :
  User.role (doc u) = student →
  let db' := snd (dispatch env (Some u) r db) in
  puzzles db' = puzzles db
  ∧ (∀ id, match users db !! id with
           | Some v => ∃ v', users db' !! id = Some v'
                             ∧ (v' = v ∨ id = _id u)
           | None => users db' !! id = None
           end)
  ∧ (∀ id, match assignments db !! id with
           | Some a => ∃ a', assignments db' !! id = Some a'
                             ∧ (a' = a ∨ Assignment.studentId a = _id u)
           | None => assignments db' !! id = None
           end)
  ∧ (∀ id, match classSchedules db !! id with
           | Some s =>
               classSchedules db' !! id = Some s
               ∨ (_id u ∈ ClassSchedule.studentIds s
                  ∧ classSchedules db' !! id
                    = Some (setStatus (ClassSchedule.status s)
                              (λ b, b) (λ e, e)
                              (λ a, (a ++ [_id u])%list) s))
           | None => classSchedules db' !! id = None
           end).
Proof.
  intros Hu db'. subst db'.
  assert (Hc : bool_decide (User.role (doc u) = coach) = false).
  { apply bool_decide_eq_false. rewrite Hu. discriminate. }
  assert (Hs : bool_decide (User.role (doc u) = student) = true).
  { by apply bool_decide_eq_true. }
  assert (Hrefl : ∀ db : Db,
    puzzles db = puzzles db
    ∧ (∀ id, match users db !! id with
             | Some v => ∃ v', users db !! id = Some v'
                               ∧ (v' = v ∨ id = _id u)
             | None => users db !! id = None
             end)
    ∧ (∀ id, match assignments db !! id with
             | Some a => ∃ a', assignments db !! id = Some a'
                               ∧ (a' = a ∨ Assignment.studentId a = _id u)
             | None => assignments db !! id = None
             end)
    ∧ (∀ id, match classSchedules db !! id with
             | Some s =>
                 classSchedules db !! id = Some s
                 ∨ (_id u ∈ ClassSchedule.studentIds s
                    ∧ classSchedules db !! id
                      = Some (setStatus (ClassSchedule.status s)
                                (λ b, b) (λ e, e)
                                (λ a, (a ++ [_id u])%list) s))
             | None => classSchedules db !! id = None
             end)).
  { intros d. split; [done |]. split; [| split]; intros id.
    - destruct (users d !! id); eauto.
    - destruct (assignments d !! id); eauto.
    - destruct (classSchedules d !! id); eauto. }
  destruct r; unfold_routes; simpl; rewrite ?Hc, ?Hs; simpl.
  all: repeat break_match; read_creates; read_finds; simplify_eq/=.
  all: try apply Hrefl.
  all: destruct (Hrefl db) as (Hp & Hus & Has & Hcs).
  all: try match goal with
       | |- context [findOneAndUpdate ?i ?f ?g ?c] =>
           destruct (findOneAndUpdate_cases i f g c)
             as [(? & ? & ? & ->) | (? & ->)]; simpl
       end.
  all: split; [done |]; split; [| split]; intros id;
    try apply Hus; try apply Has; try apply Hcs.
  all: match goal with
       | |- context [<[?k := _]> _ !! ?j] =>
           destruct (decide (k = j)) as [E|Hne];
           [rewrite <- E; rewrite ?lookup_insert_eq
           |rewrite ?lookup_insert_ne by done;
            try apply Hus; try apply Has; try apply Hcs]
       end.
  all: read_bools.
  all: repeat match goal with
       | E : ?m !! ?j = Some _ |- context [?m !! ?j] => rewrite E
       end.
  all: try (eexists; split; [done |]; by right).
  right. split; [by apply existsb_eqb_elem |].
  unfold setStatus. rewrite addToSet_new; [done |].
  intros Hin. apply existsb_eqb_elem in Hin. congruence.
Qed.

End StudentFacts.

Section AssignmentFacts.
Import Models Storage Schema Routes.
Context `{Platform}.

Lemma same_assignment_refl (a : Assignment.t) : same_assignment a a.
Proof. by repeat split. Qed.

Lemma step_assignment (e : Event) (db : Db) (id : string)
      (a a' : Assignment.t) :
  assignments db !! id = Some a →
  assignments (step db e) !! id = Some a' →
  same_assignment a a'
  ∧ (Assignment.attempts a' = Assignment.attempts a
     ∨ ∃ moves,
         Assignment.attempts a'
         = (Assignment.attempts a
            ++ [{| Attempt.moves := moves;
                   Attempt.timestamp := clock e |}])%list).
Proof.
  intros Ha Ha'.
  destruct e as [env user r|env op|env]; simpl in *.
  - destruct (dispatch_assignments env user r db)
      as [|id' a1 Hn _|id' body u a1 moves _ _ _ Ha1 _ _ _
          |id' body u a1 moves _ _ _ Ha1 _ _|sid id' a1 _ Ha1 _ _].
    + simplify_eq. split; [apply same_assignment_refl | by left].
    + rewrite lookup_insert_ne in Ha' by congruence. simplify_eq.
      split; [apply same_assignment_refl | by left].
    + destruct (decide (id' = id)) as [->|Hne].
      * rewrite lookup_insert_eq in Ha'. simplify_eq.
        split; [by repeat split | right; by eexists].
      * rewrite lookup_insert_ne in Ha' by done. simplify_eq.
        split; [apply same_assignment_refl | by left].
    + destruct (decide (id' = id)) as [->|Hne].
      * rewrite lookup_insert_eq in Ha'. simplify_eq.
        split; [by repeat split | right; by eexists].
      * rewrite lookup_insert_ne in Ha' by done. simplify_eq.
        split; [apply same_assignment_refl | by left].
    + destruct (decide (id' = id)) as [->|Hne].
      * by rewrite lookup_delete_eq in Ha'.
      * rewrite lookup_delete_ne in Ha' by done. simplify_eq.
        split; [apply same_assignment_refl | by left].
  - destruct (exec_frame env op db) as (_ & E & _). rewrite E in Ha'.
    simplify_eq. split; [apply same_assignment_refl | by left].
  - destruct (setupAuth_frame env db) as (_ & E & _). rewrite E in Ha'.
    simplify_eq. split; [apply same_assignment_refl | by left].
Qed.

(** X13. An assignment is only ever appended to. Over one event an
    assignment that is still stored keeps its puzzle, its student and
    the time it was assigned, and its attempts are the same or have one
    more attempt at the end, stamped with the time of the request. Over
    every sequence of events a completed assignment is still stored with
    the same puzzle, student and assignment time, still completed, and
    the attempts it had are a prefix of the attempts it has. *)
Theorem X13_assignments_are_append_only :
  (∀ e db id a a',
     assignments db !! id = Some a →
     assignments (step db e) !! id = Some a' →
     same_assignment a a'
     ∧ (Assignment.attempts a' = Assignment.attempts a
        ∨ ∃ moves,
            Assignment.attempts a'
            = (Assignment.attempts a
               ++ [{| Attempt.moves := moves;
                      Attempt.timestamp := clock e |}])%list))
  ∧ (∀ es db id a,
       assignments db !! id = Some a → Assignment.completed a = true →
       ∃ a', assignments (run db es) !! id = Some a'
             ∧ Assignment.completed a' = true
             ∧ same_assignment a a'
             ∧ Assignment.attempts a `prefix_of` Assignment.attempts a').
Proof.
  split; [apply step_assignment |].
  induction es as [|e es IH]; intros db id a Ha Hc.
  - exists a. split; [done |]. split; [done |].
    split; [apply same_assignment_refl | done].
  - destruct (step_completed_kept e db id a Ha Hc) as (a1 & Ha1 & Hc1).
    destruct (step_assignment e db id a a1 Ha Ha1) as (Hs1 & Hat1).
    destruct (IH _ _ _ Ha1 Hc1) as (a' & Ha' & Hc' & Hs' & Hp').
    exists a'. split; [done |]. split; [done |]. split.
    + unfold same_assignment in *. destruct_and!. repeat split; congruence.
    + etrans; [| exact Hp'].
      destruct Hat1 as [->|(moves & ->)]; [done |]. by apply prefix_app_r.
Qed.

Lemma PuzzleModel_create_createdBy (env : Env) (o : Obj) (db db' : Db)
      (id : string) (p : Puzzle.t) :
  PuzzleModel_create env o db = Ok (id, p, db') →
  o !! "createdBy" = Some (JS.JStr (Puzzle.createdBy p)).
Proof.
  unfold PuzzleModel_create. intros Hc. inv_bind Hc.
  injection Hc as <- <- <-. simpl.
  destruct (o !! "createdBy") as [[]|]; simplify_eq.
  match goal with
  | E : castObjectId _ = Ok _ |- _ => by apply castObjectId_Ok in E as [-> _]
  end.
Qed.

(** X14. Whatever the body of the request says, a puzzle that appears
    in the database was created by the request of a logged-in coach and
    has that coach as [createdBy]. *)
Theorem X14_new_puzzle_is_owned_by_its_coach (env : Env)
        (user : option UserObject) (r : Request) (db : Db) (id : string)
        (p : Puzzle.t) :
  puzzles db !! id = None →
  puzzles (snd (dispatch env user r db)) !! id = Some p →
  ∃ u body, user = Some u ∧ r = PostPuzzles body
            ∧ User.role (doc u) = coach
            ∧ Puzzle.createdBy p = _id u.
Proof.
  intros Hn. destruct r; unfold_routes.
  all: repeat break_match; read_finds; simplify_eq/=.
  all: try (intros Hp; congruence).
  all: try (intros Hp; rewrite ?lookup_delete_None in Hp; congruence).
  all: try (read_creates; simpl; intros Hp; congruence).
  - read_bools.
    match goal with
    | E : hasRole coach user = true |- _ =>
        apply hasRole_true in E as (u & -> & Hu)
    end.
    match goal with
    | E : PuzzleModel_create _ _ _ = Ok _ |- _ =>
        pose proof (PuzzleModel_create_createdBy _ _ _ _ _ _ E) as Hby;
        apply PuzzleModel_create_Ok in E as (Hfree & ->)
    end.
    rewrite lookup_insert_eq in Hby. simplify_eq/=.
    intros Hp. destruct (decide (s = id)) as [->|Hne].
    + rewrite lookup_insert_eq in Hp. simplify_eq. by exists u, body.
    + rewrite lookup_insert_ne in Hp by done. congruence.
  - intros Hp. destruct (decide (s = id)) as [->|Hne]; [congruence |].
    rewrite lookup_insert_ne in Hp by done. congruence.
  - intros Hp. apply lookup_delete_Some in Hp as [_ Hp]. congruence.
Qed.

End AssignmentFacts.

Section CreationFacts.
Import Models Storage Schema Routes.
Context `{Platform}.

(** X15. A class schedule that appears in the database was created by
    the request of a logged-in coach: it belongs to that coach whatever
    the body says, it has not started, nobody attends it, and its
    meeting link and provider are those of the body or, where the body
    has none, the defaults the coach has stored. *)
Theorem X15_new_schedule_belongs_to_its_coach (env : Env)
        (user : option UserObject) (r : Request) (db : Db) (id : string)
        (s : ClassSchedule.t) :
  classSchedules db !! id = None →
  classSchedules (snd (dispatch env user r db)) !! id = Some s →
  ∃ u body,
    user = Some u ∧ r = PostClassSchedules body
    ∧ User.role (doc u) = coach
    ∧ id = newObjectId env
    ∧ ClassSchedule.coachId s = _id u
    ∧ ClassSchedule.status s = not_started
    ∧ ClassSchedule.actualStartTime s = None
    ∧ ClassSchedule.actualEndTime s = None
    ∧ ClassSchedule.attendees s = []
    ∧ ClassSchedule.createdAt s = now env
    ∧ ClassSchedule.title s ≠ ""
    ∧ let preferences :=
        default noPreferences (User.preferences <$> users db !! _id u) in
      JS.or_else (body !! "meetingUrl")
                 (JS.JStr <$> defaultMeetingUrl preferences)
      = Some (JS.JStr (ClassSchedule.meetingUrl s))
      ∧ ∃ p, JS.or_else (body !! "meetingProvider")
                        (JS.JStr ∘ providerName <$>
                           defaultMeetingProvider preferences)
             = Some (JS.JStr p)
             ∧ MeetingProvider_of_string p
               = Some (ClassSchedule.meetingProvider s).
Proof.
  intros Hn. destruct r; unfold_routes.
  all: repeat break_match; read_finds; simplify_eq/=.
  all: try (intros Hp; congruence).
  all: try (read_creates; simpl; intros Hp; congruence).
  all: try (intros Hp;
            match goal with
            | E : <[?k := _]> _ !! ?j = Some _ |- _ =>
                destruct (decide (k = j)) as [->|Hne];
                [congruence
                |rewrite lookup_insert_ne in E by done; congruence]
            end).
  read_bools.
  match goal with
  | E : hasRole coach user = true |- _ =>
      apply hasRole_true in E as (u & -> & Hu)
  end.
  match goal with
  | E : userId _ = Ok _ |- _ => apply userId_Ok in E as (u' & [= <-] & <-)
  end.
  match goal with
  | E : insertClassScheduleSchema_parse _ = Ok _ |- _ =>
      apply insertClassScheduleSchema_parse_Ok
        in E as (Hco & Hurl & (p & Hp & Hp') & Hti & Hne)
  end.
  match goal with
  | E : ClassScheduleModel_create _ _ _ = Ok _ |- _ =>
      pose proof (ClassScheduleModel_create_fields _ _ _ _ _ _ E) as Hf;
      apply ClassScheduleModel_create_Ok in E as (Hfree & -> & _)
  end.
  rewrite lookup_setProp_eq in Hurl.
  rewrite lookup_setProp_ne, lookup_setProp_eq in Hp by done.
  rewrite !lookup_setProp_ne in Hco by done.
  rewrite lookup_insert_ne, lookup_insert_ne, lookup_insert_eq in Hco
    by done.
  destruct Hf as (-> & Hf1 & Hf2 & Hf3 & Hf4 & Hf5 & Hf6 & Hf7 & Hf8 & Hf9).
  simpl. intros Hs. destruct (decide (newObjectId env = id)) as [<-|Hne'];
    [| rewrite lookup_insert_ne in Hs by done; congruence].
  rewrite lookup_insert_eq in Hs. simplify_eq.
  exists u, body. do 11 (split; [done || congruence |]).
  cbv zeta. split; [by rewrite Hf3 |]. exists p. by rewrite Hf4.
Qed.

(** X16. An assignment that appears in the database was created by the
    request of a logged-in coach for a puzzle and a user that were stored
    at that time, the user being a student; it is incomplete, has no
    attempts and carries the time of the request. *)
Theorem X16_new_assignment_refers_to_stored_documents (env : Env)
        (user : option UserObject) (r : Request) (db : Db) (id : string)
        (a : Assignment.t) :
  assignments db !! id = None →
  assignments (snd (dispatch env user r db)) !! id = Some a →
  (∃ u body, user = Some u ∧ r = PostAssignments body
             ∧ User.role (doc u) = coach)
  ∧ id = newObjectId env
  ∧ is_Some (puzzles db !! Assignment.puzzleId a)
  ∧ (∃ v, users db !! Assignment.studentId a = Some v
          ∧ User.role v = student)
  ∧ Assignment.completed a = false
  ∧ Assignment.attempts a = []
  ∧ Assignment.assignedAt a = now env.
Proof.
  intros Hn. destruct r; unfold_routes.
  all: repeat break_match; read_finds; simplify_eq/=.
  all: try (intros Hp; congruence).
  all: try (read_creates; simpl; intros Hp; congruence).
  all: try (intros Hp;
            match goal with
            | E : <[?k := _]> _ !! ?j = Some _ |- _ =>
                destruct (decide (k = j)) as [->|Hne];
                [congruence
                |rewrite lookup_insert_ne in E by done; congruence]
            end).
  all: try (intros Hp; apply lookup_delete_Some in Hp as [_ Hp];
            congruence).
  read_creates. read_bools.
  match goal with
  | E : hasRole coach user = true |- _ =>
      apply hasRole_true in E as (c & -> & Hc)
  end.
  match goal with
  | E : getUser _ _ = Some _ |- _ =>
      unfold getUser in E; apply fmap_Some in E as (v & Hv & ->)
  end.
  intros Ha. destruct (decide (newObjectId env = id)) as [<-|Hne];
    [| rewrite lookup_insert_ne in Ha by done; congruence].
  rewrite lookup_insert_eq in Ha. simplify_eq/=.
  split; [by exists c, body |]. split; [done |]. split; [done |].
  split; [by exists v |]. done.
Qed.

End CreationFacts.

Section LoginFacts.
Import Models Storage Schema Routes.
Context `{Platform}.

(** X17. A login is answered 200 only with a stored user that has the
    given name and whose stored hash verifies the given password, both
    not empty; every other login is answered 401, or not at all when the
    comparison raises. *)
Theorem X17_login_verifies_the_stored_hash (env : Env)
        (user : option UserObject) (n p : option string) (db : Db) :
  let out := fst (dispatch env user (PostLogin n p) db) in
  (∀ b, out = Reply 200 b →
     ∃ uo name pw,
       b = JsonUser (Some uo) ∧ n = Some name ∧ p = Some pw
       ∧ name ≠ "" ∧ pw ≠ ""
       ∧ users db !! _id uo = Some (doc uo)
       ∧ User.username (doc uo) = name
       ∧ Auth.comparePasswords pw (User.password (doc uo)) = Ok true)
  ∧ ((∃ uo, out = Reply 200 (JsonUser (Some uo)))
     ∨ out = Reply 401 (Message "Invalid credentials")
     ∨ out = NoReply).
Proof.
  intros out. subst out. unfold_routes. simpl.
  destruct n as [name|], p as [pw|]; simpl;
    try (split; [by intros b [=] | by right; left]).
  destruct (String.eqb_spec name ""), (String.eqb_spec pw ""); simpl;
    try (split; [by intros b [=] | by right; left]).
  destruct (getUserByUsername name db) as [uo|] eqn:E;
    [| split; [by intros b [=] | by right; left]].
  apply getUserByUsername_Some in E as [Hu Hn].
  destruct (Auth.comparePasswords pw (User.password (doc uo)))
    as [[]|] eqn:Hc; simpl.
  - split; [| left; by exists uo]. intros b [= <-]. by exists uo, name, pw.
  - split; [by intros b [=] | by right; left].
  - split; [by intros b [=] | by right; right].
Qed.

Lemma requiredString_Ok (o : Obj) (k s : string) :
  requiredString o k = Ok s → s ≠ "".
Proof.
  unfold requiredString. intros Hr.
  destruct (o !! k) as [v|]; [| done].
  assert (Hb : (s' ← require CastError (castString v);
                _ ← guard ValidationError (negb (String.eqb s' ""));
                Ok s') = Ok s) by (by destruct v).
  clear Hr. inv_bind Hb. injection Hb as <-.
  match goal with
  | E : guard _ ?b = Ok _ |- _ => destruct b eqn:Hg; [| discriminate E]
  end.
  apply negb_true_iff in Hg. by apply String.eqb_neq in Hg.
Qed.

Lemma UserModel_create_username (env : Env) (o : Obj) (db db' : Db)
      (id : string) (u : User.t) :
  UserModel_create env o db = Ok (id, u, db') →
  User.username u ≠ "".
Proof.
  unfold UserModel_create. intros Hc. inv_bind Hc.
  injection Hc as <- <- <-. simpl.
  by eapply requiredString_Ok.
Qed.

Lemma createStudent_username (env : Env) (data : Obj) (db db' : Db)
      (uo : UserObject) :
  createStudent env data db = Ok (uo, db') → User.username (doc uo) ≠ "".
Proof.
  unfold createStudent. intros Hc. inv_bind Hc.
  destruct x as [[id u] db'']. injection Hc as <- <-. simpl.
  by eapply UserModel_create_username.
Qed.

Lemma createUser_username (env : Env) (userData : Obj) (db db' : Db)
      (uo : UserObject) :
  createUser env userData db = Ok (uo, db') → User.username (doc uo) ≠ "".
Proof.
  unfold createUser. intros Hc. inv_bind Hc.
  destruct x as [[id u] db'']. injection Hc as <- <-. simpl.
  by eapply UserModel_create_username.
Qed.

Lemma login_ok (env : Env) (user : option UserObject) (db : Db)
      (uo : UserObject) (pw : string) :
  users db !! _id uo = Some (doc uo) →
  (∀ j v, users db !! j = Some v →
          User.username v = User.username (doc uo) → j = _id uo) →
  User.username (doc uo) ≠ "" → pw ≠ "" →
  Auth.comparePasswords pw (User.password (doc uo)) = Ok true →
  dispatch env user (PostLogin (Some (User.username (doc uo))) (Some pw)) db
  = (Reply 200 (JsonUser (Some uo)), db).
Proof.
  intros Hu Honly Hn Hp Hc. unfold_routes. simpl.
  apply String.eqb_neq in Hn, Hp. rewrite Hn, Hp. simpl.
  rewrite (getUserByUsername_only _ db (_id uo) (doc uo)) by done.
  simpl. rewrite Hc. by destruct uo.
Qed.

(** X18. A student [createStudent] has created can log in with the
    default password: in the state the operation leaves, a login with
    the username of the new user and "student123" is answered 200 with
    that user, and changes nothing. *)
Theorem X18_created_student_can_log_in (env env' : Env)
        (user' : option UserObject) (data : Obj) (db db' : Db)
        (created : UserObject) :
  createStudent env data db = Ok (created, db') →
  dispatch env' user'
    (PostLogin (Some (User.username (doc created))) (Some "student123")) db'
  = (Reply 200 (JsonUser (Some created)), db').
Proof.
  intros Hc.
  pose proof (createStudent_free _ _ _ _ _ Hc) as Hfree.
  pose proof (createStudent_username _ _ _ _ _ Hc) as Hname.
  apply createStudent_Ok in Hc as (Hnone & -> & Hrole & Hpw).
  rewrite login_ok; [done | | | done | done |].
  - simpl. by rewrite lookup_insert_eq.
  - simpl. intros j w Hw Hn.
    destruct (decide (_id created = j)) as [->|Hne]; [done |].
    rewrite lookup_insert_ne in Hw by done. by destruct (Hfree j w Hw).
  - rewrite Hpw. apply comparePasswords_own.
Qed.

End LoginFacts.

Section StartupFacts.
Import Models Storage Schema Routes.
Context `{Platform}.

Lemma requiredString_JStr (o : Obj) (k s : string) :
  o !! k = Some (JS.JStr s) → s ≠ "" → requiredString o k = Ok s.
Proof.
  intros Hk Hs. unfold requiredString. rewrite Hk, castString_JStr. simpl.
  apply String.eqb_neq in Hs. by rewrite Hs.
Qed.

Lemma hashPassword_not_empty (randomBytes : list ascii) (password : string) :
  Auth.hashPassword randomBytes password ≠ "".
Proof.
  unfold Auth.hashPassword. cbv zeta.
  by destruct (Auth.toHex (scrypt password (Auth.toHex randomBytes) 64)).
Qed.

Lemma UserModel_create_strings (env : Env) (o : Obj) (db : Db)
      (n pw nm r : string) (role : Role) :
  o !! "_id" = None →
  o !! "username" = Some (JS.JStr n) → n ≠ "" →
  o !! "password" = Some (JS.JStr pw) → pw ≠ "" →
  o !! "name" = Some (JS.JStr nm) → nm ≠ "" →
  o !! "email" = None → o !! "avatar" = None →
  o !! "role" = Some (JS.JStr r) → Role_of_string r = Some role →
  o !! "preferences" = Some (JS.JObj []) →
  o !! "createdAt" = None →
  UserModel_create env o db
  = let u := {| User.username := n; User.password := pw;
                User.name := nm; User.email := None;
                User.avatar := None; User.role := role;
                User.preferences := noPreferences;
                User.createdAt := now env |} in
    if bool_decide (Exists (λ kv, User.username (snd kv) = n)
                           (map_to_list (users db)))
    then Throw DuplicateKey
    else match users db !! newObjectId env with
         | Some _ => Throw DuplicateKey
         | None => Ok (newObjectId env, u,
                       setUsers (<[newObjectId env := u]> (users db)) db)
         end.
Proof.
  intros Hid Hn Hn' Hpw Hpw' Hnm Hnm' Hem Hav Hr Hr' Hpr Hcr.
  assert (Hr'' : r ≠ "") by (intros ->; discriminate).
  unfold UserModel_create, idOf, optionalString, dateOrNow.
  rewrite Hid, Hem, Hav, Hcr, Hpr.
  rewrite (requiredString_JStr o "username" n),
    (requiredString_JStr o "password" pw),
    (requiredString_JStr o "name" nm),
    (requiredString_JStr o "role" r) by done.
  simpl. rewrite Hr'. simpl.
  destruct (bool_decide _); simpl; [done |].
  unfold insertNew. by destruct (users db !! newObjectId env).
Qed.

Lemma free_username (n : string) (db : Db) :
  getUserByUsername n db = None →
  bool_decide (Exists (λ kv, User.username (snd kv) = n)
                      (map_to_list (users db))) = false.
Proof.
  intros Hnone. apply bool_decide_eq_false. intros Hex.
  apply Exists_exists in Hex as ([j v] & Hin & Hn).
  apply elem_of_map_to_list in Hin.
  by destruct (proj1 (getUserByUsername_None n db) Hnone j v Hin).
Qed.

Lemma setupAuth_creates (env : Env) (db : Db) :
  getUserByUsername "coach" db = None →
  users db !! newObjectId env = None →
  setupAuth env db
  = setUsers
      (<[newObjectId env :=
           {| User.username := "coach";
              User.password :=
                Auth.hashPassword (randomBytes16 env) "coach123";
              User.name := "Head Coach"; User.email := None;
              User.avatar := None; User.role := coach;
              User.preferences := noPreferences;
              User.createdAt := now env |}]> (users db)) db.
Proof.
  intros Hnone Hfree. unfold setupAuth. rewrite Hnone.
  unfold createUser. cbv zeta.
  erewrite (UserModel_create_strings env _ db "coach" _ "Head Coach" "coach"
              coach);
    try (by simplify_map_eq); try apply hashPassword_not_empty.
  cbv zeta. by rewrite (free_username _ _ Hnone), Hfree.
Qed.

(** X19. The start of the server seeds the default coach once. On a
    database with no user named "coach", and with the generated id
    unused, [setupAuth] adds one user, named "coach" with role [coach],
    and a login as "coach" with "coach123" is then answered 200 with that
    user. Whenever a user named "coach" is stored, [setupAuth] changes
    nothing; so starting again after a seeding changes nothing. *)
Theorem X19_setupAuth_seeds_the_default_coach (env env' : Env)
        (user : option UserObject) (db : Db) :
  (getUserByUsername "coach" db = None →
   users db !! newObjectId env = None →
   ∃ c, setupAuth env db
        = setUsers (<[newObjectId env := c]> (users db)) db
        ∧ User.username c = "coach" ∧ User.role c = coach
        ∧ User.name c = "Head Coach"
        ∧ dispatch env' user (PostLogin (Some "coach") (Some "coach123"))
                   (setupAuth env db)
          = (Reply 200 (JsonUser (Some (mkUserObject (newObjectId env) c))),
             setupAuth env db)
        ∧ setupAuth env' (setupAuth env db) = setupAuth env db)
  ∧ (getUserByUsername "coach" db ≠ None → setupAuth env db = db).
Proof.
  split.
  - intros Hnone Hfree. rewrite setupAuth_creates by done.
    eexists. split; [done |]. do 3 (split; [done |]).
    set (c := {| User.username := "coach" |}).
    set (db' := setUsers _ db).
    assert (Hlogin :
      dispatch env' user (PostLogin (Some "coach") (Some "coach123")) db'
      = (Reply 200 (JsonUser (Some (mkUserObject (newObjectId env) c))),
         db')).
    { apply (login_ok env' user db' (mkUserObject (newObjectId env) c)).
      - simpl. by rewrite lookup_insert_eq.
      - simpl. intros j v Hv Hn.
        destruct (decide (newObjectId env = j)) as [->|Hne]; [done |].
        rewrite lookup_insert_ne in Hv by done.
        by destruct (proj1 (getUserByUsername_None _ db) Hnone j v Hv).
      - done.
      - done.
      - apply comparePasswords_own. }
    split; [exact Hlogin |].
    unfold setupAuth.
    rewrite (getUserByUsername_only "coach" db' (newObjectId env) c);
      [done | subst db'; simpl; by rewrite lookup_insert_eq | done |].
    subst db'. simpl. intros j v Hv Hn.
    destruct (decide (newObjectId env = j)) as [->|Hne]; [done |].
    rewrite lookup_insert_ne in Hv by done.
    by destruct (proj1 (getUserByUsername_None _ db) Hnone j v Hv).
  - intros Hsome. unfold setupAuth.
    by destruct (getUserByUsername "coach" db).
Qed.

End StartupFacts.

Section AccountFacts.
Import Models Storage Schema Routes.
Context `{Platform}.

Lemma taken_username (n : string) (db : Db) (uo : UserObject) :
  getUserByUsername n db = Some uo →
  bool_decide (Exists (λ kv, User.username (snd kv) = n)
                      (map_to_list (users db))) = true.
Proof.
  intros Hsome. apply getUserByUsername_Some in Hsome as [Hu Hn].
  apply bool_decide_eq_true, Exists_exists.
  exists (_id uo, doc uo). split; [| done]. by apply elem_of_map_to_list.
Qed.

(** X20. [createStudent], given a username and a name that are not
    empty and no id, email, avatar or creation time, creates the student
    when the username and the generated id are free: the new user has
    that username and name, the role [student] and the hash of
    "student123" whatever role or password the data holds, and no
    preferences. When the username is taken (or the id is in use) it
    raises the duplicate-key error. The route [POST /api/students] does
    not get that far: the schema it names is not among the imports of
    the routes file, so that the request of a coach is answered 400
    whatever its body and changes nothing. *)
Theorem X20_createStudent_creates_or_refuses (env : Env) (u : UserObject)
        (data body : Obj) (db : Db) (n nm : string) :
  data !! "username" = Some (JS.JStr n) → n ≠ "" →
  data !! "name" = Some (JS.JStr nm) → nm ≠ "" →
  data !! "_id" = None → data !! "email" = None →
  data !! "avatar" = None → data !! "createdAt" = None →
  User.role (doc u) = coach →
  createStudent env data db
  = match getUserByUsername n db, users db !! newObjectId env with
    | None, None =>
        let s := {| User.username := n;
                    User.password :=
                      Auth.hashPassword (randomBytes16 env) "student123";
                    User.name := nm; User.email := None;
                    User.avatar := None; User.role := student;
                    User.preferences := noPreferences;
                    User.createdAt := now env |} in
        Ok (mkUserObject (newObjectId env) s,
            setUsers (<[newObjectId env := s]> (users db)) db)
    | _, _ => Throw DuplicateKey
    end
  ∧ dispatch env (Some u) (PostStudents body) db
    = (Reply 400 (ErrorMessage ReferenceError), db).
Proof.
  intros Hn Hn' Hnm Hnm' Hid Hem Hav Hcr Hu. split.
  - unfold createStudent. cbv zeta.
    erewrite (UserModel_create_strings env _ db n _ nm "student" student);
      try (by simplify_map_eq); try apply hashPassword_not_empty.
    cbv zeta.
    destruct (getUserByUsername n db) as [uo|] eqn:E.
    + by rewrite (taken_username _ _ _ E).
    + rewrite (free_username _ _ E).
      by destruct (users db !! newObjectId env).
  - unfold_routes. simpl. by rewrite (bool_decide_eq_true_2 _ Hu).
Qed.

(** X21. The stored password of a user changes only by a profile update
    of that user that carries the current password and a new one, and
    only when the current password verifies against the stored hash; the
    new hash is the one of the new password under the salt drawn for the
    request, so the new password verifies from then on. *)
Theorem X21_password_changes_only_with_the_current_one (env : Env)
        (user : option UserObject) (r : Request) (db : Db) (id : string)
        (v v' : User.t) :
  users db !! id = Some v →
  users (snd (dispatch env user r db)) !! id = Some v' →
  User.password v' ≠ User.password v →
  ∃ u body data cur new,
    user = Some u ∧ id = _id u ∧ r = PutProfile body
    ∧ updateProfileSchema_parse body = Ok data
    ∧ currentPassword data = Some cur ∧ newPassword data = Some new
    ∧ Auth.comparePasswords cur (User.password v) = Ok true
    ∧ User.password v' = Auth.hashPassword (randomBytes16 env) new
    ∧ Auth.comparePasswords new (User.password v') = Ok true.
Proof.
  intros Hv. destruct r; unfold_routes.
  all: repeat break_match; read_creates; read_finds; simplify_eq/=.
  all: try (intros Hv' Hne; congruence).
  all: try match goal with
       | |- context [findOneAndUpdate ?i ?f ?g ?c] =>
           destruct (findOneAndUpdate_cases i f g c)
             as [(? & ? & ? & ->) | (? & ->)]; simpl
       end.
  all: try (intros Hv' Hne; congruence).
  all: intros Hv' Hne.
  all: match goal with
       | E : <[?k := _]> _ !! ?j = Some _ |- _ =>
           destruct (decide (k = j)) as [E0|Hne'];
           [rewrite <- E0 in *; rewrite lookup_insert_eq in E
           |rewrite lookup_insert_ne in E by done; congruence]
       end.
  all: simplify_eq/=.
  all: try done.
  apply negb_false_iff in Heqb0 as ->.
  exists u, body, a, s, s0. do 7 (split; [done |]). split; [done |].
  apply comparePasswords_own.
Qed.

(** X22. What a coach stores with [PUT /api/preferences] is what
    [GET /api/preferences] answers afterwards, and the update touches
    nothing of the user but the preferences and no other user. A body
    the schema rejects is answered 400 and changes nothing. *)
Theorem X22_preferences_round_trip (env env' : Env) (u : UserObject)
        (body : Obj) (db : Db) (v : User.t) :
  User.role (doc u) = coach →
  users db !! _id u = Some v →
  let out := dispatch env (Some u) (PutPreferences body) db in
  match updatePreferencesSchema_parse body with
  | Ok (p, url) =>
      let prefs := {| defaultMeetingProvider := Some p;
                      defaultMeetingUrl := Some url |} in
      out = (Reply 200 (JsonUser
                          (Some (mkUserObject (_id u)
                                   (setUserPreferences prefs v)))),
             setUsers (<[_id u := setUserPreferences prefs v]> (users db))
                      db)
      ∧ dispatch env' (Some u) GetPreferences (snd out)
        = (Reply 200 (JsonPreferences prefs), snd out)
  | Throw e => out = (Reply 400 (ErrorMessage e), db)
  end.
Proof.
  intros Hu Hv out. subst out. unfold_routes. simpl.
  rewrite (bool_decide_eq_true_2 _ Hu). simpl.
  destruct (updatePreferencesSchema_parse body) as [[p url]|e]; [| done].
  unfold findOneAndUpdate. rewrite Hv. simpl.
  split; [done |]. by rewrite lookup_insert_eq.
Qed.

End AccountFacts.

Section ListingFacts.
Import Models Storage Schema Routes.
Context `{Platform}.

Lemma traverse_Ok {A B} (f : A → Result B) (l : list A) (bs : list B) :
  traverse f l = Ok bs ↔ Forall2 (λ a b, f a = Ok b) l bs.
Proof.
  revert bs. induction l as [|a l IH]; intros bs; simpl.
  - split; [intros [= <-]; constructor | by inversion 1].
  - unfold mbind, Result_bind. split.
    + destruct (f a) as [b|] eqn:Ha; [| done].
      destruct (traverse f l) as [bs'|] eqn:Hl; [| done].
      intros [= <-]. constructor; [done |]. by apply IH.
    + inversion 1 as [|? b ? bs' Ha Hl]; subst. rewrite Ha.
      apply IH in Hl. by rewrite Hl.
Qed.

Lemma traverse_Throw {A B} (f : A → Result B) (l : list A) (x : A)
      (e : Error) :
  x ∈ l → f x = Throw e → (∀ y e', f y = Throw e' → e' = e) →
  traverse f l = Throw e.
Proof.
  intros Hin Hx Hall. induction l as [|a l IH]; [by apply elem_of_nil in Hin |].
  simpl. unfold mbind, Result_bind.
  destruct (f a) as [b|e'] eqn:Ha; [| by rewrite (Hall _ _ Ha)].
  apply elem_of_cons in Hin as [->|Hin]; [congruence |].
  by rewrite (IH Hin).
Qed.

Lemma populate_missing (db : Db) (l : list (string * Assignment.t))
      (id : string) (a : Assignment.t) :
  (id, a) ∈ l → puzzles db !! Assignment.puzzleId a = None →
  populate db l = Throw TypeError.
Proof.
  intros Hin Hnone. unfold populate.
  eapply traverse_Throw; [exact Hin | simpl; by rewrite Hnone |].
  intros [j b] e'. simpl.
  destruct (puzzles db !! Assignment.puzzleId b); simpl; congruence.
Qed.

Lemma populate_Ok (db : Db) (l : list (string * Assignment.t)) :
  (∀ id a, (id, a) ∈ l → is_Some (puzzles db !! Assignment.puzzleId a)) →
  ∃ sps, populate db l = Ok sps
         ∧ ∀ sp, sp ∈ sps ↔
                 (sp_id sp, sp_assignment sp) ∈ l
                 ∧ puzzles db !! Assignment.puzzleId (sp_assignment sp)
                   = Some (sp_puzzle sp).
Proof.
  unfold populate. induction l as [|[id a] l IH]; intros Hall.
  - exists []. split; [done |]. intros sp. split.
    + by intros Hin%elem_of_nil.
    + by intros [Hin%elem_of_nil _].
  - destruct IH as (sps & Hsps & Hiff).
    { intros j b Hin. apply (Hall j b). by right. }
    destruct (Hall id a) as [p Hp]; [by left |].
    exists (mkStudentPuzzle id a p :: sps). split.
    + simpl. rewrite Hp. simpl. unfold mbind, Result_bind in *.
      by rewrite Hsps.
    + intros sp. rewrite elem_of_cons, Hiff, elem_of_cons. split.
      * intros [->|[Hin Hq]]; [by split; [left |] | by split; [right |]].
      * intros [[[= Hi Ha]|Hin] Hq].
        -- left. destruct sp as [i' a' p']. simpl in *. subst.
           congruence.
        -- by right.
Qed.

Lemma elem_of_find {A} (f : string → A → bool) (c : gmap string A)
      (id : string) (a : A) :
  (id, a) ∈ find f c ↔ c !! id = Some a ∧ f id a = true.
Proof.
  unfold find. rewrite list_elem_of_In, filter_In, <- list_elem_of_In.
  by rewrite elem_of_map_to_list.
Qed.

(** X23. The listing of a student's pending (or completed) assignments
    answers 200 with exactly the stored assignments of that student with
    that flag, each with its puzzle, when every such assignment still
    has its puzzle. As soon as one of them refers to a puzzle that is no
    longer stored, the whole listing is answered 500. *)
Theorem X23_student_listing (env : Env) (u : UserObject) (c : bool)
        (db : Db) :
  User.role (doc u) = student →
  let r := if c then GetMyCompleted else GetMyAssignments in
  let mine id a :=
    assignments db !! id = Some a
    ∧ Assignment.studentId a = _id u ∧ Assignment.completed a = c in
  ((∃ id a, mine id a ∧ puzzles db !! Assignment.puzzleId a = None) →
   dispatch env (Some u) r db = (Reply 500 (ErrorMessage TypeError), db))
  ∧ ((∀ id a, mine id a → is_Some (puzzles db !! Assignment.puzzleId a)) →
     ∃ l, dispatch env (Some u) r db = (Reply 200 (JsonStudentPuzzles l), db)
          ∧ ∀ sp, sp ∈ l ↔
                  mine (sp_id sp) (sp_assignment sp)
                  ∧ puzzles db !! Assignment.puzzleId (sp_assignment sp)
                    = Some (sp_puzzle sp)).
Proof.
  intros Hu r mine.
  assert (Hd : dispatch env (Some u) r db = get_my c (Some u) db).
  { subst r. by destruct c. }
  assert (Hmine : ∀ id a,
    (id, a) ∈ find (λ _ a, String.eqb (Assignment.studentId a) (_id u)
                           && Bool.eqb (Assignment.completed a) c)
                   (assignments db)
    ↔ mine id a).
  { intros id a. rewrite elem_of_find, andb_true_iff, String.eqb_eq.
    unfold mine. rewrite eqb_true_iff. tauto. }
  rewrite Hd. unfold get_my, studentOnly, catch.
  rewrite (bool_decide_eq_true_2 _ Hu). simpl.
  unfold mbind, Result_bind. split.
  - intros (id & a & Hm & Hnone).
    rewrite (populate_missing db _ id a); [done | by apply Hmine | done].
  - intros Hall.
    destruct (populate_Ok db
                (find (λ _ a, String.eqb (Assignment.studentId a) (_id u)
                              && Bool.eqb (Assignment.completed a) c)
                      (assignments db))) as (sps & -> & Hiff).
    { intros id a Hin. apply (Hall id a). by apply Hmine. }
    exists sps. split; [done |]. intros sp. by rewrite Hiff, Hmine.
Qed.

End ListingFacts.

(** ** The puzzle creator panel *)

Lemma elem_of_dedupe_from (seen l : list string) (x : string) :
  x ∈ dedupe_from seen l ↔ x ∈ l ∧ x ∉ seen.
Proof.
  revert seen. induction l as [|y l IH]; intros seen; simpl.
  - split; [by intros Hin%elem_of_nil | by intros [Hin%elem_of_nil _]].
  - case_bool_decide as Hy.
    + rewrite IH. split.
      * intros [Hin Hn]. split; [by right | done].
      * intros [Hin Hn]. apply elem_of_cons in Hin as [->|Hin]; [done |].
        by split.
    + split.
      * intros Hin. apply elem_of_cons in Hin as [->|Hin].
        -- split; [by left | done].
        -- apply IH in Hin as [Hin Hn].
           apply not_elem_of_cons in Hn as [Hne Hn].
           split; [by right | done].
      * intros [Hin Hn].
        destruct (decide (x = y)) as [->|Hne]; [by left |].
        right. apply IH.
        apply elem_of_cons in Hin as [Hin|Hin]; [done |].
        split; [done |]. by apply not_elem_of_cons.
Qed.

Lemma NoDup_dedupe_from (seen l : list string) : NoDup (dedupe_from seen l).
Proof.
  revert seen. induction l as [|y l IH]; intros seen; simpl; [constructor |].
  case_bool_decide as Hy; [apply IH |].
  constructor; [| apply IH].
  intros Hin. apply elem_of_dedupe_from in Hin as [_ Hn].
  apply not_elem_of_cons in Hn as [Hne _]. done.
Qed.

Lemma words_from_words (cur l : list ascii) :
  Forall (λ c, JS.isWhiteSpace c = false) cur →
  Forall (λ t, isWord t = true) (Spec.words_from cur l).
Proof.
  assert (Hword : ∀ cur, cur ≠ [] →
            Forall (λ c, JS.isWhiteSpace c = false) cur →
            isWord (JS.str (rev cur)) = true).
  { intros cur' Hne Hall. unfold isWord. rewrite chars_str.
    apply andb_true_iff. split.
    - destruct (rev cur') as [|c r] eqn:E; [| done].
      apply (f_equal (@rev ascii)) in E. rewrite rev_involutive in E.
      by destruct Hne.
    - apply forallb_forall. intros c Hc. apply in_rev in Hc.
      rewrite Forall_forall in Hall.
      apply list_elem_of_In, Hall in Hc. by rewrite Hc. }
  revert cur. induction l as [|c l IH]; intros cur Hcur; simpl.
  - destruct cur as [|x cur]; [constructor |].
    constructor; [by apply Hword | constructor].
  - destruct (JS.isWhiteSpace c) eqn:Hc.
    + destruct cur as [|x cur]; [by apply IH |].
      constructor; [by apply Hword | by apply IH].
    + apply IH. by constructor.
Qed.

Lemma words_nil (l : list ascii) :
  Spec.words_from [] l = [] → Forall (λ c, JS.isWhiteSpace c = true) l.
Proof.
  induction l as [|c l IH]; [constructor |]. simpl.
  destruct (JS.isWhiteSpace c) eqn:Hc.
  - intros Hl. constructor; [done | by apply IH].
  - destruct (words_from_pending c [] l) as (w & ws & ->). done.
Qed.

Lemma trimStart_ws (l : list ascii) :
  Forall (λ c, JS.isWhiteSpace c = true) l → JS.trimStart l = [].
Proof. induction 1 as [|c l Hc _ IH]; [done |]. simpl. by rewrite Hc. Qed.

Lemma split_ws_trim_not_blank (s : string) :
  JS.trim s ≠ "" →
  JS.split_ws (JS.trim s) = Spec.words s
  ∧ Forall (λ t, isWord t = true) (Spec.words s).
Proof.
  intros Hne. split; [| by apply words_from_words].
  rewrite split_ws_trim_words.
  destruct (Spec.words s) eqn:E; [| done].
  destruct Hne. unfold JS.trim.
  by rewrite (trimStart_ws _ (words_nil _ E)).
Qed.

Section PanelFacts.
Import ClassroomBoard PuzzleCreatorPanel.
Context `{ChessJs}.

Lemma initialState_ok : panel_ok initialState.
Proof.
  split; simpl; try done; try constructor; unfold lastIndex; simpl; lia.
Qed.

Lemma step_ok (st : State) (e : Event) :
  panel_ok st → panel_ok (fst (step st e)).
Proof.
  intros Hok. pose proof Hok as [Hsol Hnd Hw Hidx Hpl].
  unfold lastIndex in Hidx.
  destruct e; simpl.
  - by split.
  - by split.
  - by split.
  - (* setPosition *)
    unfold setPosition. destruct (new_Chess_from (fen st)); [| first [exact Hok | by split]].
    split; simpl; try done; unfold lastIndex; simpl; lia.
  - (* handleSolutionSubmit *)
    unfold handleSolutionSubmit, PuzzleCreator.handleSolutionSubmit.
    destruct (PuzzleCreator.isValidUCI (JS.split_ws _)) eqn:Hv; simpl;
      [| first [exact Hok | by split]].
    split; simpl; try done; unfold lastIndex; simpl; lia.
  - (* resetBoard *)
    split; simpl; try done; unfold lastIndex; simpl; lia.
  - (* handleThemesSubmit *)
    unfold handleThemesSubmit.
    destruct (String.eqb_spec (JS.trim (themesInput st)) "") as [E|E];
      simpl; [first [exact Hok | by split] |].
    destruct (split_ws_trim_not_blank _ E) as [-> Hwords].
    split; simpl; try done; [apply NoDup_dedupe_from |].
    apply Forall_forall. intros t Ht.
    apply elem_of_dedupe_from in Ht as [Ht _].
    apply elem_of_app in Ht as [Ht|Ht].
    + by eapply Forall_forall in Hw.
    + by eapply Forall_forall in Hwords.
  - (* removeTheme *)
    split; simpl; try done.
    + by apply NoDup_ListNoDup, List.NoDup_filter, NoDup_ListNoDup.
    + apply Forall_forall. intros t Ht.
      apply list_elem_of_In, filter_In in Ht as [Ht _].
      apply list_elem_of_In in Ht. by eapply Forall_forall in Hw.
  - first [exact Hok | by split].
  - (* togglePlay *)
    unfold togglePlay.
    destruct (List.length _ =? 0)%nat eqn:El; simpl; [first [exact Hok | by split] |].
    split; simpl; try done. intros _ Hn. by rewrite Hn in El.
  - (* nextMove *)
    unfold nextMove, lastIndex. cbv zeta.
    destruct (_ <? _) eqn:El; simpl; [| first [exact Hok | by split]].
    apply Z.ltb_lt in El. split; simpl; try done; unfold lastIndex; simpl; lia.
  - (* previousMove *)
    unfold previousMove. cbv zeta.
    destruct (_ <? _) eqn:El; simpl; [| first [exact Hok | by split]].
    apply Z.ltb_lt in El. split; simpl; try done; unfold lastIndex; simpl; lia.
  - (* autoplayTick *)
    unfold autoplayTick, lastIndex. cbv zeta.
    destruct (PuzzleCreator.isPlaying (form st)) eqn:Ep; simpl; [| first [exact Hok | by split]].
    destruct (_ <? _) eqn:El; simpl; [| first [exact Hok | by split]].
    apply Z.ltb_lt in El.
    destruct (_ <=? _) eqn:El'; simpl.
    + split; simpl; try done.
    + split; simpl; try done; [unfold lastIndex; simpl; lia | auto].
Qed.

Lemma run_ok (es : list Event) (st : State) :
  panel_ok st → panel_ok (fst (run st es)).
Proof.
  revert st. induction es as [|e es IH]; intros st Hok; [done |].
  simpl. pose proof (step_ok st e Hok) as Hok1.
  destruct (step st e) as [st1 out1]. specialize (IH st1 Hok1).
  by destruct (run st1 es) as [st2 out2].
Qed.

Lemma step_saves (st : State) (e : Event) (p : InsertPuzzle) :
  panel_ok st → OnSave p ∈ snd (step st e) →
  puzzle_solution p ≠ []
  ∧ PuzzleCreator.isValidUCI (puzzle_solution p) = true
  ∧ puzzle_themes p ≠ []
  ∧ NoDup (puzzle_themes p)
  ∧ Forall (λ t, isWord t = true) (puzzle_themes p)
  ∧ puzzle_createdBy p = "".
Proof.
  intros [Hsol Hnd Hw Hidx Hpl].
  destruct e; simpl; try (by intros Hin%elem_of_nil).
  - unfold setPosition. destruct (new_Chess_from (fen st)); simpl.
    + by intros Hin%elem_of_nil.
    + intros Hin%list_elem_of_singleton. discriminate.
  - unfold handleSolutionSubmit.
    destruct (PuzzleCreator.handleSolutionSubmit (form st)) as [f [[]|]];
      simpl.
    + intros Hin%list_elem_of_singleton. discriminate.
    + by intros Hin%elem_of_nil.
  - unfold handleSave.
    destruct (PuzzleCreator.solution (form st)) as [|m ms] eqn:Es; simpl.
    { intros Hin%list_elem_of_singleton. discriminate. }
    destruct (themes st) as [|t ts] eqn:Et; simpl.
    { intros Hin%list_elem_of_singleton. discriminate. }
    intros Hin%list_elem_of_singleton. injection Hin as ->. simpl.
    do 5 (split; [done |]). done.
  - unfold togglePlay. destruct (List.length _ =? 0)%nat; simpl.
    + intros Hin%list_elem_of_singleton. discriminate.
    + by intros Hin%elem_of_nil.
Qed.

(** X24. Whatever is typed and clicked in the puzzle creator, starting
    from its initial state, every puzzle it hands to [onSave] has a
    solution that is not empty and passed the UCI check, and themes that
    are not empty, are pairwise distinct and are words (not empty, no
    white space); [createdBy] is left empty for the server to set. *)
Theorem X24_panel_saves_checked_puzzles (es : list Event)
        (p : InsertPuzzle) :
  OnSave p ∈ snd (run initialState es) →
  puzzle_solution p ≠ []
  ∧ PuzzleCreator.isValidUCI (puzzle_solution p) = true
  ∧ puzzle_themes p ≠ []
  ∧ NoDup (puzzle_themes p)
  ∧ Forall (λ t, isWord t = true) (puzzle_themes p)
  ∧ puzzle_createdBy p = "".
Proof.
  generalize initialState_ok. generalize initialState.
  induction es as [|e es IH]; intros st Hok; simpl.
  - by intros Hin%elem_of_nil.
  - pose proof (step_ok st e Hok) as Hok1.
    pose proof (step_saves st e p Hok) as Hsave.
    destruct (step st e) as [st1 out1]. specialize (IH st1 Hok1).
    destruct (run st1 es) as [st2 out2]. simpl in *.
    intros Hin. apply elem_of_app in Hin as [Hin|Hin]; auto.
Qed.

(** X25. Whatever is typed and clicked in the puzzle creator, starting
    from its initial state, the move shown stays in range, from -1 (the
    initial position) to the last move of the solution, and the playback
    is on only while there is a solution. *)
Theorem X25_panel_playback_in_range (es : list Event) :
  let st := fst (run initialState es) in
  -1 ≤ PuzzleCreator.currentMoveIndex (form st)
     ≤ Z.of_nat (List.length (PuzzleCreator.solution (form st))) - 1
  ∧ (PuzzleCreator.isPlaying (form st) = true →
     PuzzleCreator.solution (form st) ≠ []).
Proof.
  intros st.
  destruct (run_ok es initialState initialState_ok) as [_ _ _ Hidx Hpl].
  split; [exact Hidx | exact Hpl].
Qed.

(** X26. A tick of the autoplay interval moves one move forward while
    the playback is on and the last move is not reached, and does
    nothing otherwise; it never turns the playback off, so at the last
    move the panel stays in playback until the user toggles it. *)
Theorem X26_autoplay_never_stops (st : State) :
  let f := form st in
  let st' := autoplayTick st in
  PuzzleCreator.isPlaying (form st') = PuzzleCreator.isPlaying f
  ∧ PuzzleCreator.solution (form st') = PuzzleCreator.solution f
  ∧ PuzzleCreator.currentMoveIndex (form st')
    = if PuzzleCreator.isPlaying f
         && (PuzzleCreator.currentMoveIndex f <? lastIndex f)
      then PuzzleCreator.currentMoveIndex f + 1
      else PuzzleCreator.currentMoveIndex f.
Proof.
  intros f st'. subst f st'. unfold autoplayTick. cbv zeta.
  destruct (PuzzleCreator.isPlaying (form st)) eqn:Ep; simpl; [| done].
  destruct (_ <? _) eqn:El; simpl; [| done].
  apply Z.ltb_lt in El.
  destruct (_ <=? _) eqn:El'; simpl; [| done].
  apply Z.leb_le in El'. lia.
Qed.


End PanelFacts.

(** ** The classroom board with the controls of the coach *)

Section CoachFacts.
Import ClassroomBoard ClassroomBoardCoach.
Context `{ChessJsSan}.
Variable isCoach : bool.

Lemma emit_board_update_elem (st : State) (f ev g : string) :
  Emit ev g ∈ emit_board_update st f →
  ev = "board_update" ∧ g = f ∧ socket st ≠ None.
Proof.
  unfold emit_board_update. destruct (socket st); simpl.
  - intros Hin%list_elem_of_singleton. by injection Hin as -> ->.
  - by intros Hin%elem_of_nil.
Qed.

Lemma navigateMove_emits (index : Z) (st : State) (ev g : string) :
  Emit ev g ∈ snd (navigateMove isCoach index st) →
  ev = "board_update"
  ∧ g = fen (game (fst (navigateMove isCoach index st)))
  ∧ socket st ≠ None.
Proof.
  unfold navigateMove. destruct isCoach; simpl.
  - apply emit_board_update_elem.
  - by intros Hin%elem_of_nil.
Qed.

(** X27. Everything the board sends over its socket is a [board_update]
    that carries the position the component shows after the event, and
    it is sent only by a component that has opened its socket. This holds
    for a dropped piece, the reset, a pasted PGN, the arrows and a click
    on a move. For a component that is not the coach's, the arrows and
    the clicks change nothing and send nothing. *)
Theorem X27_board_sends_the_position_it_shows (st : State) (e : Event) :
  (∀ ev g, Emit ev g ∈ snd (step isCoach st e) →
           ev = "board_update"
           ∧ g = fen (game (fst (step isCoach st e)))
           ∧ socket st ≠ None)
  ∧ (isCoach = false →
     match e with
     | PrevMove | NextMove | ClickMove _ => step isCoach st e = (st, [])
     | _ => True
     end).
Proof.
  split.
  - intros ev g. destruct e as [[]| | | |]; simpl.
    all: try (by intros Hin%elem_of_nil).
    + intros Hin%list_elem_of_singleton. discriminate.
    + intros Hin%list_elem_of_singleton. discriminate.
    + unfold handleMove. destruct (negb (isConnected st)); simpl.
      { intros Hin%list_elem_of_singleton. discriminate. }
      destruct (move (game st) sourceSquare targetSquare "q"); simpl;
        [| by intros Hin%elem_of_nil].
      destruct (new_Chess_from (fen c)); simpl;
        [| by intros Hin%elem_of_nil].
      apply emit_board_update_elem.
    + apply emit_board_update_elem.
    + unfold handleLoadPGN. destruct (loadPgn new_Chess pgn); simpl;
        [| by intros Hin%elem_of_nil].
      apply emit_board_update_elem.
    + unfold handlePrevMove. destruct (_ <? _); simpl;
        [| by intros Hin%elem_of_nil].
      apply navigateMove_emits.
    + unfold handleNextMove. destruct (_ <? _); simpl;
        [| by intros Hin%elem_of_nil].
      apply navigateMove_emits.
    + destruct (_ <? _)%nat; simpl; [| by intros Hin%elem_of_nil].
      unfold navigateMove.
      destruct isCoach; simpl; [| by intros Hin%elem_of_nil].
      apply emit_board_update_elem.
  - intros ->. destruct e as [[]| | | |]; simpl; try done.
    + unfold handlePrevMove, navigateMove. simpl. by destruct (_ <? _).
    + unfold handleNextMove, navigateMove. simpl. by destruct (_ <? _).
    + by destruct (_ <? _)%nat.
Qed.

Lemma step_index (st : State) (e : Event) :
  -1 ≤ currentMoveIndex st ≤ Z.of_nat (List.length (moveHistory st)) - 1 →
  let st' := fst (step isCoach st e) in
  -1 ≤ currentMoveIndex st' ≤ Z.of_nat (List.length (moveHistory st')) - 1.
Proof.
  intros Hidx st'. subst st'.
  destruct e as [[]| | | |]; simpl; try done.
  - unfold on_board_update. by destruct (load new_Chess data_fen).
  - unfold handleMove. destruct (negb (isConnected st)); simpl; [done |].
    destruct (move (game st) sourceSquare targetSquare "q"); simpl; [| done].
    destruct (new_Chess_from (fen c)); simpl; [lia | done].
  - lia.
  - unfold handleLoadPGN. destruct (loadPgn new_Chess pgn); simpl; [lia | done].
  - unfold handlePrevMove, navigateMove.
    destruct (_ <? _) eqn:El; simpl; [| done]. apply Z.ltb_lt in El.
    destruct isCoach; simpl; [lia | done].
  - unfold handleNextMove, navigateMove.
    destruct (_ <? _) eqn:El; simpl; [| done]. apply Z.ltb_lt in El.
    destruct isCoach; simpl; [lia | done].
  - destruct (_ <? _)%nat eqn:El; simpl; [| done]. apply Nat.ltb_lt in El.
    unfold navigateMove. destruct isCoach; simpl; [lia | done].
Qed.

(** X28. From the initial state of the board, whatever happens (socket
    events, moves, reset, a pasted PGN, the arrows, clicks on moves), the
    index of the move shown stays between -1 and the index of the last
    move of the move list. *)
Theorem X28_board_index_in_range (es : list Event) :
  let st := fst (run isCoach initialState es) in
  -1 ≤ currentMoveIndex st ≤ Z.of_nat (List.length (moveHistory st)) - 1.
Proof.
  intros st. subst st.
  assert (Hinit : -1 ≤ currentMoveIndex initialState
                  ≤ Z.of_nat (List.length (moveHistory initialState)) - 1)
    by (simpl; lia).
  revert Hinit. generalize initialState.
  induction es as [|e es IH]; intros st Hidx; [done |].
  simpl. pose proof (step_index st e Hidx) as Hidx1.
  destruct (step isCoach st e) as [st1 out1]. specialize (IH st1 Hidx1).
  by destruct (run isCoach st1 es) as [st2 out2].
Qed.

End CoachFacts.

Section PuzzleListing.
Import Models Storage Schema Routes.
Context `{Platform}.

Lemma themeQuery_spec (themes : option string) (p : Puzzle.t) :
  let wanted :=
    match themes with
    | Some s => List.filter (λ t, negb (String.eqb t "")) (Auth.split "," s)
    | None => []
    end in
  themeQuery themes p = true ↔
  wanted = [] ∨ ∃ t, t ∈ strings (Puzzle.themes p) ∧ t ∈ wanted.
Proof.
  intros wanted. unfold themeQuery. fold wanted.
  destruct wanted as [|w ws] eqn:E; [by split; [left |] |].
  rewrite existsb_exists. split.
  - intros (t & Ht & Hex). right. exists t.
    split; [by apply list_elem_of_In |]. by apply existsb_eqb_elem.
  - intros [Hnil|(t & Ht & Hw)]; [done |]. exists t.
    split; [by apply list_elem_of_In |]. by apply existsb_eqb_elem.
Qed.

(** X29. [GET /api/puzzles], which anyone may call, counts as total
    exactly the stored puzzles that have one of the themes asked for, all
    of them when no theme is asked for (no [themes] parameter, or one
    made of commas only); the themes it offers are those of all stored
    puzzles, each once, whatever was asked for ([null] standing for a
    missing theme or list of themes). The coach's [GET /api/puzzles/ids]
    answers the ids of the same selection. *)
Theorem X29_puzzle_listing (env : Env) (user : option UserObject)
        (themes : option string) (db : Db) :
  let wanted :=
    match themes with
    | Some s => List.filter (λ t, negb (String.eqb t "")) (Auth.split "," s)
    | None => []
    end in
  ∃ selected page offered,
    dispatch env user (GetPuzzles themes) db
    = (Reply 200 (JsonPuzzles page (List.length selected) offered), db)
    ∧ NoDup selected
    ∧ (∀ id p, (id, p) ∈ selected ↔
               puzzles db !! id = Some p
               ∧ (wanted = []
                  ∨ ∃ t, t ∈ strings (Puzzle.themes p) ∧ t ∈ wanted))
    ∧ NoDup offered
    ∧ (∀ t, t ∈ offered ↔
            ∃ id p, puzzles db !! id = Some p
                    ∧ t ∈ values (Puzzle.themes p))
    ∧ (hasRole coach user = true →
       dispatch env user (GetPuzzleIds themes) db
       = (Reply 200 (JsonIds (fst <$> selected)), db)).
Proof.
  intros wanted. unfold_routes. simpl.
  exists (find (λ _ p, themeQuery themes p) (puzzles db)).
  eexists _, _. split; [reflexivity |].
  split; [| split; [| split; [| split]]].
  - unfold find. apply NoDup_ListNoDup, List.NoDup_filter, NoDup_ListNoDup.
    apply NoDup_map_to_list.
  - intros id p. rewrite elem_of_find. by rewrite themeQuery_spec.
  - apply NoDup_remove_dups.
  - intros t. rewrite elem_of_remove_dups, list_elem_of_In, in_concat. split.
    + intros (l & Hl & Ht). apply list_elem_of_In in Hl, Ht.
      apply list_elem_of_fmap in Hl as ([id p] & -> & Hin).
      apply elem_of_map_to_list in Hin. by exists id, p.
    + intros (id & p & Hp & Ht). exists (values (Puzzle.themes p)).
      split; [| by apply list_elem_of_In].
      apply list_elem_of_In, list_elem_of_fmap. exists (id, p).
      split; [done |]. by apply elem_of_map_to_list.
  - intros ->. done.
Qed.

(** X30. A stored class schedule changes only at the hands of its own
    coach, or of a student enrolled in it who marks attendance while the
    class is in progress and is then added at the end of the
    attendees. *)
Theorem X30_schedule_changes_by_its_coach_or_students (env : Env)
        (user : option UserObject) (r : Request) (db : Db) (id : string)
        (s s' : ClassSchedule.t) :
  classSchedules db !! id = Some s →
  classSchedules (snd (dispatch env user r db)) !! id = Some s' →
  s' ≠ s →
  ∃ u, user = Some u
       ∧ ((User.role (doc u) = coach ∧ ClassSchedule.coachId s = _id u)
          ∨ (User.role (doc u) = student
             ∧ _id u ∈ ClassSchedule.studentIds s
             ∧ ClassSchedule.status s = in_progress
             ∧ ClassSchedule.attendees s'
               = (ClassSchedule.attendees s ++ [_id u])%list)).
Proof.
  intros Hs Hs' Hne.
  destruct (dispatch_schedules_step env user r db)
    as [|id' s1 u _ _ Hn _ _ _ _ _|id' u s1 Hu Hr Hs1 Hco _ _
        |id' u s1 Hu Hr Hs1 Hco _|id' u s1 Hu Hr Hs1 Hst Hin Hnin].
  - congruence.
  - rewrite lookup_insert_ne in Hs' by congruence. congruence.
  - destruct (decide (id' = id)) as [->|Hne'];
      [| rewrite lookup_insert_ne in Hs' by done; congruence].
    simplify_eq. exists u. split; [done |]. by left.
  - destruct (decide (id' = id)) as [->|Hne'];
      [| rewrite lookup_insert_ne in Hs' by done; congruence].
    simplify_eq. exists u. split; [done |]. by left.
  - destruct (decide (id' = id)) as [->|Hne'];
      [| rewrite lookup_insert_ne in Hs' by done; congruence].
    rewrite lookup_insert_eq in Hs'. simplify_eq.
    exists u. split; [done |]. right. do 3 (split; [done |]).
    simpl. by apply addToSet_new.
Qed.

End PuzzleListing.

(** ** The further properties at sample inputs *)

Section MoreWitnesses.
Import Models Storage Routes.

(** The student of the sample keeps name and role while a class is
    created, started and ended. *)
Lemma X7_user_identity_is_kept_witness :
  users (Sample.db false) !! Id.s1 = Some (doc Sample.alice)
  ∧ ∃ u', users (run (Sample.db false) Sample.classHistory) !! Id.s1 = Some u'
          ∧ User.username u' = "alice"
          ∧ User.role u' = student
          ∧ User.createdAt u' = 0.
Proof.
  split; [vm_compute; reflexivity |].
  apply (@X7_user_identity_is_kept SimplePlatform Sample.classHistory
           (Sample.db false) Id.s1 (doc Sample.alice)).
  vm_compute; reflexivity.
Defined.


(** The listing of the students leaves the sample database as it is. *)
Lemma X11_reads_change_nothing_witness :
  readOnly GetStudents = true
  ∧ snd (dispatch (Sample.env 5 Id.x) (Some Sample.headCoach) GetStudents
                  (Sample.db false))
    = Sample.db false.
Proof.
  split; [reflexivity |].
  apply (@X11_reads_change_nothing SimplePlatform). reflexivity.
Defined.

(** An attempt of the student of the sample changes no puzzle. *)
Lemma X12_student_requests_are_confined_witness :
  let body : Obj := <["moves" := JS.JArr [JS.JStr "e7e8q"]]> ∅ in
  User.role (doc Sample.alice) = student
  ∧ puzzles (snd (dispatch (Sample.env 5 Id.x) (Some Sample.alice)
                           (PostAssignmentAttempt Id.a1 body)
                           (Sample.db false)))
    = puzzles (Sample.db false).
Proof.
  intros body. split; [reflexivity |].
  apply (proj1 (@X12_student_requests_are_confined SimplePlatform
                  (Sample.env 5 Id.x) Sample.alice
                  (PostAssignmentAttempt Id.a1 body) (Sample.db false)
                  eq_refl)).
Defined.

(** A puzzle whose body names a student as [createdBy] is stored as the
    coach's. *)
Lemma X14_new_puzzle_is_owned_by_its_coach_witness :
  let body : Obj :=
    <["fen" := JS.JStr "8/8/8/8/8/8/8/K6k w - - 0 1"]>
      (<["solution" := JS.JArr [JS.JStr "a1a2"]]>
         (<["themes" := JS.JArr [JS.JStr "endgame"]]>
            (<["createdBy" := JS.JStr Id.s1]> ∅))) in
  let out := dispatch (Sample.env 5 Id.p2) (Some Sample.headCoach)
                      (PostPuzzles body) (Sample.db false) in
  ∃ p, puzzles (snd out) !! Id.p2 = Some p
       ∧ ∃ u body', Some Sample.headCoach = Some u
                    ∧ PostPuzzles body = PostPuzzles body'
                    ∧ User.role (doc u) = coach
                    ∧ Puzzle.createdBy p = _id u.
Proof.
  intros body out. eexists. split; [vm_compute; reflexivity |].
  apply (@X14_new_puzzle_is_owned_by_its_coach SimplePlatform
           (Sample.env 5 Id.p2) (Some Sample.headCoach) (PostPuzzles body)
           (Sample.db false) Id.p2);
    vm_compute; reflexivity.
Defined.

(** The class of the sample belongs to the coach who created it. *)
Lemma X15_new_schedule_belongs_to_its_coach_witness :
  let out := dispatch (Sample.env 1000 Id.k1) (Some Sample.headCoach)
                      (PostClassSchedules Sample.classBody)
                      (Sample.db false) in
  ∃ s, classSchedules (snd out) !! Id.k1 = Some s
       ∧ ClassSchedule.coachId s = Id.c1
       ∧ ClassSchedule.status s = not_started
       ∧ ClassSchedule.meetingUrl s = "https://meet.example/1".
Proof.
  intros out. eexists. split; [vm_compute; reflexivity |].
  destruct (@X15_new_schedule_belongs_to_its_coach SimplePlatform
              (Sample.env 1000 Id.k1) (Some Sample.headCoach)
              (PostClassSchedules Sample.classBody) (Sample.db false)
              Id.k1 _ eq_refl eq_refl)
    as (u & body & Hu & _ & _ & _ & Hco & Hst & _).
  injection Hu as <-. split; [exact Hco |]. split; [exact Hst | reflexivity].
Defined.

(** The sample puzzle assigned once more to the sample student. *)
Lemma X16_new_assignment_refers_to_stored_documents_witness :
  let body : Obj :=
    <["puzzleId" := JS.JStr Id.p1]> (<["studentId" := JS.JStr Id.s1]> ∅) in
  let out := dispatch (Sample.env 5 Id.a2) (Some Sample.headCoach)
                      (PostAssignments body) (Sample.db false) in
  ∃ a, assignments (snd out) !! Id.a2 = Some a
       ∧ is_Some (puzzles (Sample.db false) !! Assignment.puzzleId a)
       ∧ Assignment.completed a = false
       ∧ Assignment.assignedAt a = 5.
Proof.
  intros body out. eexists. split; [vm_compute; reflexivity |].
  destruct (@X16_new_assignment_refers_to_stored_documents SimplePlatform
              (Sample.env 5 Id.a2) (Some Sample.headCoach)
              (PostAssignments body) (Sample.db false) Id.a2 _
              eq_refl eq_refl)
    as (_ & _ & Hp & _ & Hc & _ & Ht).
  split; [exact Hp |]. split; [exact Hc | exact Ht].
Defined.

(** The student "bob", once created, logs in with "student123". *)
Lemma X18_created_student_can_log_in_witness :
  ∃ created db',
    createStudent (Sample.env 5 Id.s2) Sample.studentData (Sample.db false)
    = Ok (created, db')
    ∧ User.username (doc created) = "bob"
    ∧ dispatch (Sample.env 6 Id.x) None
               (PostLogin (Some (User.username (doc created)))
                          (Some "student123")) db'
      = (Reply 200 (JsonUser (Some created)), db').
Proof.
  eexists _, _. split; [vm_compute; reflexivity |].
  split; [reflexivity |].
  apply (@X18_created_student_can_log_in SimplePlatform
           (Sample.env 5 Id.s2) (Sample.env 6 Id.x) None Sample.studentData
           (Sample.db false)).
  vm_compute; reflexivity.
Defined.

(** The student "bob" is created on the sample database by the storage
    operation, and not by the route. *)
Lemma X20_createStudent_creates_or_refuses_witness :
  createStudent (Sample.env 5 Id.s2) Sample.studentData (Sample.db false)
  = (let s := {| User.username := "bob";
                 User.password :=
                   Auth.hashPassword ["s"; "a"; "l"; "t"]%char "student123";
                 User.name := "Bob"; User.email := None;
                 User.avatar := None; User.role := student;
                 User.preferences := noPreferences;
                 User.createdAt := 5 |} in
     Ok (mkUserObject Id.s2 s,
         setUsers (<[Id.s2 := s]> (users (Sample.db false)))
                  (Sample.db false)))
  ∧ dispatch (Sample.env 5 Id.s2) (Some Sample.headCoach)
             (PostStudents Sample.studentData) (Sample.db false)
    = (Reply 400 (ErrorMessage ReferenceError), Sample.db false).
Proof.
  apply (@X20_createStudent_creates_or_refuses SimplePlatform
           (Sample.env 5 Id.s2) Sample.headCoach Sample.studentData
           Sample.studentData (Sample.db false) "bob" "Bob");
    try reflexivity; discriminate.
Defined.

(** "bob" changes the default password, giving it as the current one. *)
Lemma X21_password_changes_only_with_the_current_one_witness :
  let db := exec (Sample.env 5 Id.s2) (CreateStudent Sample.studentData)
                 (Sample.db false) in
  let body : Obj :=
    <["name" := JS.JStr "Bob"]>
      (<["currentPassword" := JS.JStr "student123"]>
         (<["newPassword" := JS.JStr "secret7"]> ∅)) in
  let bob := mkUserObject Id.s2 (Sample.user "bob" student) in
  ∃ v v', users db !! Id.s2 = Some v
          ∧ users (snd (dispatch (Sample.env 6 Id.x) (Some bob)
                                 (PutProfile body) db)) !! Id.s2 = Some v'
          ∧ User.password v' ≠ User.password v
          ∧ ∃ cur, Auth.comparePasswords cur (User.password v) = Ok true.
Proof.
  intros db body bob. eexists _, _.
  split; [vm_compute; reflexivity |]. split; [vm_compute; reflexivity |].
  assert (Hne : Auth.hashPassword ["s"; "a"; "l"; "t"]%char "secret7"
                ≠ Auth.hashPassword ["s"; "a"; "l"; "t"]%char "student123")
    by (vm_compute; discriminate).
  split; [exact Hne |].
  destruct (@X21_password_changes_only_with_the_current_one SimplePlatform
              (Sample.env 6 Id.x) (Some bob) (PutProfile body) db Id.s2 _ _
              eq_refl eq_refl Hne)
    as (u & b & data & cur & new & _ & _ & _ & _ & _ & _ & Hcur & _).
  exists cur. exact Hcur.
Defined.

(** The coach of the sample stores a meeting link and reads it back. *)
Lemma X22_preferences_round_trip_witness :
  let body : Obj :=
    <["defaultMeetingProvider" := JS.JStr "zoom"]>
      (<["defaultMeetingUrl" := JS.JStr "https://meet.example/c1"]> ∅) in
  let out := dispatch (Sample.env 5 Id.x) (Some Sample.headCoach)
                      (PutPreferences body) (Sample.db false) in
  dispatch (Sample.env 6 Id.x) (Some Sample.headCoach) GetPreferences
           (snd out)
  = (Reply 200
       (JsonPreferences
          {| defaultMeetingProvider := Some zoom;
             defaultMeetingUrl := Some "https://meet.example/c1" |}),
     snd out).
Proof.
  intros body out.
  pose proof (@X22_preferences_round_trip SimplePlatform
                (Sample.env 5 Id.x) (Sample.env 6 Id.x) Sample.headCoach body
                (Sample.db false) (doc Sample.headCoach) eq_refl eq_refl)
    as Hw.
  cbv zeta in Hw.
  change (Schema.updatePreferencesSchema_parse body)
    with (Ok (zoom, "https://meet.example/c1")) in Hw.
  exact (proj2 Hw).
Defined.

(** Once the coach has deleted the sample puzzle, the student's listing
    of pending assignments is answered 500. *)
Lemma X23_student_listing_witness :
  let body : Obj := <["puzzleId" := JS.JStr Id.p1]> ∅ in
  let db := snd (dispatch (Sample.env 5 Id.x) (Some Sample.headCoach)
                          (PostPuzzlesDelete body) (Sample.db false)) in
  User.role (doc Sample.alice) = student
  ∧ puzzles db !! Id.p1 = None
  ∧ dispatch (Sample.env 6 Id.x) (Some Sample.alice) GetMyAssignments db
    = (Reply 500 (ErrorMessage TypeError), db).
Proof.
  intros body db. split; [reflexivity |]. split; [vm_compute; reflexivity |].
  apply (proj1 (@X23_student_listing SimplePlatform (Sample.env 6 Id.x)
                  Sample.alice false db eq_refl)).
  exists Id.a1, (Sample.assignment false).
  split; [split; [vm_compute; reflexivity | split; reflexivity] |].
  vm_compute; reflexivity.
Defined.

(** A solution and a theme are entered and the puzzle is saved. *)
Lemma X24_panel_saves_checked_puzzles_witness :
  let es := [PuzzleCreatorPanel.TypeSolution " e2e4  e7e5 ";
             PuzzleCreatorPanel.SubmitSolution;
             PuzzleCreatorPanel.TypeThemes "opening opening";
             PuzzleCreatorPanel.SubmitThemes;
             PuzzleCreatorPanel.Save "start"] in
  let p := {| PuzzleCreatorPanel.puzzle_fen := "start";
              PuzzleCreatorPanel.puzzle_solution := ["e2e4"; "e7e5"];
              PuzzleCreatorPanel.puzzle_themes := ["opening"];
              PuzzleCreatorPanel.puzzle_createdBy := "" |} in
  snd (PuzzleCreatorPanel.run PuzzleCreatorPanel.initialState es)
  = [PuzzleCreatorPanel.OnSave p]
  ∧ PuzzleCreator.isValidUCI (PuzzleCreatorPanel.puzzle_solution p) = true
  ∧ NoDup (PuzzleCreatorPanel.puzzle_themes p).
Proof.
  intros es p.
  assert (Hout : snd (PuzzleCreatorPanel.run PuzzleCreatorPanel.initialState
                        es)
                 = [PuzzleCreatorPanel.OnSave p])
    by (vm_compute; reflexivity).
  split; [exact Hout |].
  destruct (@X24_panel_saves_checked_puzzles TextChess es p)
    as (_ & Hv & _ & Hnd & _).
  - rewrite Hout. apply list_elem_of_here.
  - split; [exact Hv | exact Hnd].
Defined.

(** The start of the class of the sample is a change by its coach. *)
Lemma X30_schedule_changes_by_its_coach_or_students_witness :
  let db := snd (dispatch (Sample.env 1000 Id.k1) (Some Sample.headCoach)
                          (PostClassSchedules Sample.classBody)
                          (Sample.db false)) in
  let out := dispatch (Sample.env 999000 Id.x) (Some Sample.headCoach)
                      (PostClassScheduleStart Id.k1) db in
  ∃ s s', classSchedules db !! Id.k1 = Some s
          ∧ classSchedules (snd out) !! Id.k1 = Some s'
          ∧ ClassSchedule.status s' = in_progress
          ∧ ∃ u, Some Sample.headCoach = Some u
                 ∧ ((User.role (doc u) = coach
                     ∧ ClassSchedule.coachId s = _id u)
                    ∨ (User.role (doc u) = student
                       ∧ _id u ∈ ClassSchedule.studentIds s
                       ∧ ClassSchedule.status s = in_progress
                       ∧ ClassSchedule.attendees s'
                         = (ClassSchedule.attendees s ++ [_id u])%list)).
Proof.
  intros db out. eexists _, _.
  split; [vm_compute; reflexivity |]. split; [vm_compute; reflexivity |].
  split; [reflexivity |].
  apply (@X30_schedule_changes_by_its_coach_or_students SimplePlatform
           (Sample.env 999000 Id.x) (Some Sample.headCoach)
           (PostClassScheduleStart Id.k1) db Id.k1);
    [vm_compute; reflexivity | vm_compute; reflexivity |].
  intros E. discriminate E.
Defined.

End MoreWitnesses.

